(** * torchgeo: the GlobBiomass and EnviroAtlas dataset adapters

    A shallow embedding of [torchgeo/datasets/globbiomass.py] and
    [torchgeo/datasets/enviroatlas.py].  Python exceptions are values of
    [exn], fallible code returns [result], code that reads or changes an
    object or the file system is written in the state-and-error monad [M].
    The third-party libraries the two modules call (pandas, geopandas,
    shapely, numpy, torch, rasterio, pyproj, fiona, glob) are modelled by the
    small part of their behaviour the two modules rely on; what depends on
    the content of files is an operation of the type classes [HostOS],
    [RasterIO] and [GeoBase]. *)

From Stdlib Require Import ZArith QArith Qminmax Qround Bool Ascii String.
From stdpp Require Import base option list strings gmap.

Local Open Scope Z_scope.

(** ** Python: exceptions, results, strings, paths *)

Module Py.

(** The exceptions the two modules raise or let through.  The string of an
    [IndexError], [ValueError] or [RuntimeError] is the fixed part of the
    message. *)
Inductive exn : Type :=
| IndexError (msg : string)
| AssertionError
| RuntimeError (msg : string)
| DatasetNotFoundError
| KeyError (key : string)
| ValueError (msg : string)
| RasterioIOError (path : string)
| DriverError (path : string).

Inductive result (A : Type) : Type :=
| OK (a : A)
| Raise (e : exn).
Arguments OK {A} a.
Arguments Raise {A} e.

#[export] Instance result_ret : MRet result := fun _ a => OK a.
#[export] Instance result_bind : MBind result := fun _ _ k r =>
  match r with
  | OK a => k a
  | Raise e => Raise e
  end.

Definition is_OK {A} (r : result A) : bool :=
  match r with OK _ => true | Raise _ => false end.

Definition is_IndexError {A} (r : result A) : bool :=
  match r with Raise (IndexError _) => true | _ => false end.

(** [d[k]] on a dict with string keys. *)
Definition getitem_dict {V} (d : gmap string V) (k : string) : result V :=
  match d !! k with
  | Some v => OK v
  | None => Raise (KeyError k)
  end.

(** A computation on a mutable state [S] that may raise: the state it
    leaves and what it returns. *)
Definition M (S A : Type) : Type := S -> S * result A.

#[export] Instance M_ret {S} : MRet (M S) := fun _ a s => (s, OK a).
#[export] Instance M_bind {S} : MBind (M S) := fun _ _ k c s =>
  match c s with
  | (s', OK a) => k a s'
  | (s', Raise e) => (s', Raise e)
  end.

Definition raise {S A} (e : exn) : M S A := fun s => (s, Raise e).
Definition gets {S A} (f : S -> A) : M S A := fun s => (s, OK (f s)).
Definition modify {S} (f : S -> S) : M S unit := fun s => (f s, OK tt).
Definition lift {S A} (r : result A) : M S A := fun s => (s, r).

(** The value of a library call, or the exception the library raises. *)
Definition or_raise {A} (e : exn) (o : option A) : result A :=
  match o with
  | Some a => OK a
  | None => Raise e
  end.
Definition reads {S A} (f : S -> result A) : M S A := fun s => (s, f s).

(** [x in xs] for a tuple or list of strings. *)
Definition str_in (x : string) (xs : list string) : bool :=
  bool_decide (x ∈ xs).

(** [s.replace(old, new)]: every occurrence of [old], left to right and
    without overlap.  [skip] counts the characters of a match still to be
    dropped. *)
Fixpoint replace_from (old new : string) (skip : nat) (s : string) : string :=
  match s with
  | EmptyString => EmptyString
  | String c s' =>
      match skip with
      | S k => replace_from old new k s'
      | O =>
          if String.prefix old s
          then new +:+ replace_from old new (String.length old - 1) s'
          else String c (replace_from old new 0 s')
      end
  end.

Fixpoint intersperse_str (new s : string) : string :=
  match s with
  | EmptyString => new
  | String c s' => new +:+ String c (intersperse_str new s')
  end.

Definition str_replace (old new s : string) : string :=
  match old with
  | EmptyString => intersperse_str new s
  | _ => replace_from old new 0 s
  end.

Definition ascii_lower (c : ascii) : ascii :=
  let n := nat_of_ascii c in
  if (Nat.leb 65 n && Nat.leb n 90)%bool then ascii_of_nat (n + 32) else c.

(** [s.lower()] on ASCII text. *)
Fixpoint str_lower (s : string) : string :=
  match s with
  | EmptyString => EmptyString
  | String c s' => String (ascii_lower c) (str_lower s')
  end.

Definition str_ends_with_slash (s : string) : bool :=
  match String.get (String.length s - 1) s with
  | Some c => bool_decide (c = "/"%char)
  | None => false
  end.

(** [os.path.join(a, b)] on POSIX. *)
Definition os_path_join (a b : string) : string :=
  if String.prefix "/" b then b
  else if bool_decide (a = EmptyString) || str_ends_with_slash a then a +:+ b
  else a +:+ "/" +:+ b.

Fixpoint basename_from (acc s : string) : string :=
  match s with
  | EmptyString => acc
  | String c s' =>
      if bool_decide (c = "/"%char) then basename_from EmptyString s'
      else basename_from (acc +:+ String c EmptyString) s'
  end.

(** [os.path.basename(p)]: what follows the last slash. *)
Definition os_path_basename (p : string) : string := basename_from EmptyString p.

(** A Python [slice] whose three parts are set. *)
Record slice (A St : Type) : Type := Slice { start : A; stop : A; step : St }.
Arguments Slice {A St} _ _ _.
Arguments start {A St} _.
Arguments stop {A St} _.
Arguments step {A St} _.

(** [l.index(x)]: the position of the first [x], counted from [i]. *)
Fixpoint list_index_from (x : string) (l : list string) (i : nat) : result nat :=
  match l with
  | [] => Raise (ValueError "is not in list")
  | y :: l' =>
      if bool_decide (y = x) then OK i else list_index_from x l' (S i)
  end.

Definition list_index (x : string) (l : list string) : result nat :=
  list_index_from x l 0.

End Py.
Export Py.

(** ** pandas: timestamps, intervals, positional slicing *)

Module pd.

(** A [pd.Timestamp], in nanoseconds since the epoch. *)
Definition Timestamp : Type := Z.
Definition Timestamp_min : Timestamp := -9223372036854775807.
Definition Timestamp_max : Timestamp := 9223372036854775807.

Inductive closed_t : Type :=
| closed_right | closed_left | closed_both | closed_neither.

Definition is_closed_left (c : closed_t) : bool :=
  match c with closed_left | closed_both => true | _ => false end.
Definition is_closed_right (c : closed_t) : bool :=
  match c with closed_right | closed_both => true | _ => false end.

Record Interval : Type :=
  { i_left : Timestamp; i_right : Timestamp; i_closed : closed_t }.

(** [pd.Interval(left, right, closed)]: the constructor refuses
    [left > right]. *)
Definition Interval_closed (l r : Timestamp) (c : closed_t) : result Interval :=
  if l <=? r then OK {| i_left := l; i_right := r; i_closed := c |}
  else Raise (ValueError "left side of interval must be <= right side").

(** [pd.Interval(left, right)]: [closed] defaults to ['right']. *)
Definition Interval_ (l r : Timestamp) : result Interval :=
  Interval_closed l r closed_right.

(** [self.is_empty]: an interval with equal end points holds no point,
    unless it is closed on both sides. *)
Definition is_empty (i : Interval) : bool :=
  (i_left i =? i_right i)
  && negb (is_closed_left (i_closed i) && is_closed_right (i_closed i)).

(** [self.overlaps(other)] of [IntervalArray]: the two intervals share a
    point.  An end point counts only where both intervals are closed there,
    and an empty interval overlaps nothing.  (pandas before 3.0 compared the
    end points also for an empty interval; the two agree on every interval
    that is not empty, and the statements on the time filter below take
    [tmin < tmax].) *)
Definition overlaps (self other : Interval) : bool :=
  let op1 := if is_closed_left (i_closed self) && is_closed_right (i_closed other)
             then Z.leb else Z.ltb in
  let op2 := if is_closed_left (i_closed other) && is_closed_right (i_closed self)
             then Z.leb else Z.ltb in
  negb (is_empty self) && negb (is_empty other)
  && op1 (i_left self) (i_right other) && op2 (i_left other) (i_right self).

(** Every [k]-th element, the first one after [i] others. *)
Fixpoint stride_from {A} (k i : nat) (l : list A) : list A :=
  match l with
  | [] => []
  | a :: l' =>
      match i with
      | O => a :: stride_from k (k - 1) l'
      | S i' => stride_from k i' l'
      end
  end.

(** [l[::step]]. *)
Definition slice_step {A} (l : list A) (step : Z) : result (list A) :=
  if step =? 0 then Raise (ValueError "slice step cannot be zero")
  else if 0 <? step then OK (stride_from (Z.to_nat step) 0 l)
  else OK (stride_from (Z.to_nat (- step)) 0 (reverse l)).

End pd.

(** ** shapely and geopandas: boxes, intersection, the [cx] indexer *)

Module shapely.

(** [shapely.box(minx, miny, maxx, maxy)]. *)
Record Box : Type := box { minx : Q; miny : Q; maxx : Q; maxy : Q }.

(** What a geometry of the index has to offer: [g.intersects(b)]. *)
Class Geometry (G : Type) : Type := { intersects : G -> Box -> bool }.

Definition lo_x (b : Box) : Q := Qmin (minx b) (maxx b).
Definition hi_x (b : Box) : Q := Qmax (minx b) (maxx b).
Definition lo_y (b : Box) : Q := Qmin (miny b) (maxy b).
Definition hi_y (b : Box) : Q := Qmax (miny b) (maxy b).

(** Two rectangles share a point (boundaries included). *)
Definition box_intersects (a b : Box) : bool :=
  Qle_bool (lo_x a) (hi_x b) && Qle_bool (lo_x b) (hi_x a)
  && Qle_bool (lo_y a) (hi_y b) && Qle_bool (lo_y b) (hi_y a).

#[export] Instance Box_Geometry : Geometry Box := {| intersects := box_intersects |}.

(** The exterior ring of a box, in shapely's order. *)
Definition exterior (b : Box) : list (Q * Q) :=
  [ (maxx b, miny b); (maxx b, maxy b); (minx b, maxy b); (minx b, miny b) ].

Definition Qmin_list (d : Q) (l : list Q) : Q := foldr Qmin d l.
Definition Qmax_list (d : Q) (l : list Q) : Q := foldr Qmax d l.

(** The bounding rectangle of a ring. *)
Definition envelope_of (ring : list (Q * Q)) : Box :=
  match ring with
  | [] => box 0 0 0 0
  | (x0, y0) :: _ =>
      box (Qmin_list x0 (fst <$> ring)) (Qmin_list y0 (snd <$> ring))
          (Qmax_list x0 (fst <$> ring)) (Qmax_list y0 (snd <$> ring))
  end.

(** [shapely.ops.transform(func, b).envelope] for a box [b]. *)
Definition transform_envelope (func : Q * Q -> Q * Q) (b : Box) : Box :=
  envelope_of (func <$> exterior b).

End shapely.

Module gpd.
Import pd shapely.

(** A row of the index: its time interval's end points, its geometry and
    its other columns. *)
Record Row (G D : Type) : Type :=
  { mint : Timestamp; maxt : Timestamp; geometry : G; data : D }.
Arguments mint {G D} _.
Arguments maxt {G D} _.
Arguments geometry {G D} _.
Arguments data {G D} _.

(** A [GeoDataFrame] indexed by a [pd.IntervalIndex]. *)
Record GeoDataFrame (G D : Type) : Type :=
  { index_closed : closed_t; rows : list (Row G D); frame_crs : string }.
Arguments index_closed {G D} _.
Arguments rows {G D} _.
Arguments frame_crs {G D} _.

Definition with_rows {G D} (df : GeoDataFrame G D) (rs : list (Row G D))
  : GeoDataFrame G D :=
  {| index_closed := index_closed df; rows := rs; frame_crs := frame_crs df |}.

Definition row_interval {G D} (df : GeoDataFrame G D) (r : Row G D) : Interval :=
  {| i_left := mint r; i_right := maxt r; i_closed := index_closed df |}.

(** [df.iloc[df.index.overlaps(interval)]]. *)
Definition iloc_overlaps {G D} (df : GeoDataFrame G D) (interval : Interval)
  : GeoDataFrame G D :=
  with_rows df (filter (fun r => overlaps (row_interval df r) interval = true) (rows df)).

(** [df.iloc[::step]]. *)
Definition iloc_step {G D} (df : GeoDataFrame G D) (step : Z)
  : result (GeoDataFrame G D) :=
  rs ← slice_step (rows df) step; OK (with_rows df rs).

(** [df.cx[x0:x1, y0:y1]]: the rows whose geometry intersects the box. *)
Definition cx {G D} `{Geometry G} (df : GeoDataFrame G D) (x0 x1 y0 y1 : Q)
  : GeoDataFrame G D :=
  with_rows df (filter (fun r => intersects (geometry r) (box x0 y0 x1 y1) = true) (rows df)).

Definition empty {G D} (df : GeoDataFrame G D) : bool :=
  match rows df with [] => true | _ => false end.

Definition len {G D} (df : GeoDataFrame G D) : nat := length (rows df).

End gpd.

(** ** numpy and torch: arrays of channels *)

Module np.

(** The element types of a tensor the two modules name. *)
Inductive torch_dtype : Type := torch_float32 | torch_long | torch_uint8.

#[export] Instance torch_dtype_eq_dec : EqDecision torch_dtype.
Proof. solve_decision. Defined.

(** An array of shape (C, H, W): each channel holds its H*W pixels. *)
Record ndarray (A : Type) : Type :=
  { shape_hw : nat * nat; channels : list (list A) }.
Arguments shape_hw {A} _.
Arguments channels {A} _.

Definition same_hw {A} (a b : ndarray A) : bool :=
  bool_decide (shape_hw a = shape_hw b).

Definition stack_channels {A} (arrs : list (ndarray A)) : list (list A) :=
  concat (channels <$> arrs).

(** [np.concatenate(arrs, axis=0)]. *)
Definition concatenate {A} (arrs : list (ndarray A)) : result (ndarray A) :=
  match arrs with
  | [] => Raise (ValueError "need at least one array to concatenate")
  | a :: rest =>
      if forallb (same_hw a) rest
      then OK {| shape_hw := shape_hw a; channels := stack_channels arrs |}
      else Raise (ValueError "all the input array dimensions except for the concatenation axis must match exactly")
  end.

(** [torch.cat(arrs, dim=0)]. *)
Definition torch_cat {A} (arrs : list (ndarray A)) : result (ndarray A) :=
  match arrs with
  | [] => Raise (RuntimeError "torch.cat(): expected a non-empty list of Tensors")
  | a :: rest =>
      if forallb (same_hw a) rest
      then OK {| shape_hw := shape_hw a; channels := stack_channels arrs |}
      else Raise (RuntimeError "Sizes of tensors must match except in dimension 0")
  end.

(** [table[i]] for one integer [i]: negative indices count from the end. *)
Definition item (table : list Z) (i : Z) : result Z :=
  let n := Z.of_nat (length table) in
  if (- n <=? i) && (i <? n)
  then match table !! Z.to_nat (if i <? 0 then i + n else i) with
       | Some v => OK v
       | None => Raise (IndexError "index is out of bounds for axis 0")
       end
  else Raise (IndexError "index is out of bounds for axis 0").

(** [table[data]] for an integer array [data]: indexing pixel by pixel. *)
Definition getitem_array (table : list Z) (data : ndarray Z) : result (ndarray Z) :=
  chans ← mapM (mapM (item table)) (channels data);
  OK {| shape_hw := shape_hw data; channels := chans |}.

(** [a[k, ...]]: channel [k] of a tensor. *)
Definition getitem_channel {A} (a : ndarray A) (k : nat) : result (list A) :=
  match channels a !! k with
  | Some c => OK c
  | None => Raise (IndexError "index is out of bounds for dimension 0")
  end.

(** [a[i:j, :, :]] for [i <= j]: a slice never raises. *)
Definition slice_channels {A} (a : ndarray A) (i j : nat) : ndarray A :=
  {| shape_hw := shape_hw a; channels := take (j - i) (drop i (channels a)) |}.

(** [np.rollaxis(a, 0, 3)]: shape (H, W, C), each pixel with its channels. *)
Definition rollaxis_0_3 {A} (a : ndarray A) : list (list A) :=
  (fun j => omap (fun c => c !! j) (channels a))
    <$> seq 0 ((shape_hw a).1 * (shape_hw a).2).

End np.

(** ** matplotlib: a figure as the record of what was drawn *)

Module plt.
Import np.

(** The data one call of [imshow] receives. *)
Inductive Shown (A : Type) : Type :=
| Pixels (image : list (list A))
| Channel (channel : list A)
| Array (a : ndarray A).
Arguments Pixels {A} image.
Arguments Channel {A} channel.
Arguments Array {A} a.

(** One of the axes of [plt.subplots]: the image shown, the value range
    given to [imshow], whether [axis('off')] was called, the title set. *)
Record Axes (A : Type) : Type :=
  { shown : Shown A; vrange : option (Z * Z); axis_off : bool; title : option string }.
Arguments shown {A} _.
Arguments vrange {A} _.
Arguments axis_off {A} _.
Arguments title {A} _.

Record Figure (A : Type) : Type :=
  { figsize : nat * nat; axs : list (Axes A); suptitle : option string }.
Arguments figsize {A} _.
Arguments axs {A} _.
Arguments suptitle {A} _.

End plt.

(** ** What the two modules take from their surroundings *)

Module Host.
Import pd shapely gpd np.

(** [paths: Path | Iterable[Path]]. *)
Inductive Paths : Type :=
| OnePath (p : string)
| ManyPaths (ps : list string).

(** The file system and the helpers of [torchgeo.datasets.utils] and [glob]
    that read or change it.  [extract_archive] and [download_url] are taken
    on an archive that unpacks and a URL that answers: what they raise
    otherwise is not modelled, and the statements on [_verify] are about the
    checks the two modules make themselves. *)
Class HostOS : Type :=
  { FS : Type;
    (** [glob.glob(pathname)], and [glob.iglob(pathname)] as the loop sees it *)
    glob_glob : FS -> string -> list string;
    (** [os.path.exists(path)] *)
    os_path_exists : FS -> string -> bool;
    (** [check_integrity(fpath, md5)] *)
    check_integrity : FS -> string -> string -> bool;
    (** [extract_archive(src)] *)
    extract_archive : string -> FS -> FS;
    (** [download_url(url, root, filename, md5)] *)
    download_url : string -> string -> string -> string -> FS -> FS }.

(** A fully resolved spatiotemporal slice [(x, y, t)]. *)
Record Slice3 : Type :=
  { x_ : slice Q Q; y_ : slice Q Q; t_ : slice Timestamp Z }.

(** What [GeoDataset] and [RasterDataset] of [torchgeo.datasets.geo] give
    the two classes.  [None] stands for the exception of the call:
    [DatasetNotFoundError] of [RasterDataset.__init__], the I/O error of
    rasterio in [_merge_files]; which exception [_merge_files] raises is not
    told apart. *)
Class GeoBase `{HostOS} : Type :=
  { (** a query as the caller writes it *)
    GeoSlice : Type;
    (** a coordinate reference system *)
    CRS : Type;
    (** an element of a tensor [_merge_files] returns, and its dtype: it
        is the raster files and [_merge_files] that decide it *)
    Pixel : Type;
    pixel_dtype : Pixel -> torch_dtype;
    (** a geometry of the index *)
    Geom : Type;
    Geom_Geometry :: Geometry Geom;
    (** the [files] property: the files under [paths] that match the glob *)
    GeoDataset_files : FS -> Paths -> string -> list string;
    (** the [crs] and [bounds] properties, read off the index *)
    GeoDataset_crs : forall D, GeoDataFrame Geom D -> CRS;
    GeoDataset_bounds : forall D, GeoDataFrame Geom D -> Slice3;
    (** [_disambiguate_slice(query)], given the bounds *)
    disambiguate_slice : Slice3 -> GeoSlice -> Slice3;
    (** [RasterDataset.__init__(paths, crs, res, ...)]: the index it builds
        from the files matching the glob *)
    RasterDataset_init :
      Paths -> string -> option CRS -> option (Q * Q) -> FS ->
      option (GeoDataFrame Geom string);
    (** [_merge_files(filepaths, query)] *)
    RasterDataset_merge_files :
      FS -> GeoDataFrame Geom string -> list string -> GeoSlice ->
      option (ndarray Pixel) }.

(** A feature of [spatial_index.geojson]: its geometry and properties. *)
Record Feature (G : Type) : Type :=
  { f_geometry : G;
    f_split : string;
    f_naip : string;
    f_nlcd : string;
    f_roads : string;
    f_water : string;
    f_waterways : string;
    f_waterbodies : string;
    f_buildings : string;
    f_lc : string }.
Arguments f_geometry {G} _.
Arguments f_split {G} _.
Arguments f_naip {G} _.
Arguments f_nlcd {G} _.
Arguments f_roads {G} _.
Arguments f_water {G} _.
Arguments f_waterways {G} _.
Arguments f_waterbodies {G} _.
Arguments f_buildings {G} _.
Arguments f_lc {G} _.

(** rasterio, pyproj and fiona: reading rasters and features, projecting
    points.  [None] stands for the library's own exception. *)
Class RasterIO `{GeoBase} : Type :=
  { (** an open raster file *)
    Raster : Type;
    (** [rasterio.open(path)] *)
    rasterio_open : FS -> string -> option Raster;
    (** [f.crs.to_string()] *)
    crs_to_string : Raster -> string;
    (** [rasterio.mask.mask(f, [geom], crop=True, all_touched=True)[0]] *)
    rasterio_mask : Raster -> Box -> option (ndarray Z);
    (** [pyproj.Transformer.from_crs(src, dst, always_xy=True).transform] *)
    pyproj_transform : string -> string -> Q * Q -> Q * Q;
    (** the features [fiona.open(path, 'r')] iterates over *)
    fiona_open : FS -> string -> option (list (Feature Geom)) }.

End Host.

(** ** torchgeo/datasets/globbiomass.py *)

Module GlobBiomass.
Import pd shapely gpd np Host.

Definition filename_glob : string := "*_{}.tif".
Definition measurements : list string := ["agb"; "gsv"].

(** ["...{}...".format(arg)] for a template with one field. *)
Definition str_format (template arg : string) : string :=
  str_replace "{}" arg template.

Definition md5s : gmap string string :=
  list_to_map [
    ("N00E020_agb.zip", "bd83a3a4c143885d1962bde549413be6");
    ("N00E020_gsv.zip", "da5ddb88e369df2d781a0c6be008ae79");
    ("N00E060_agb.zip", "85eaca95b939086cc528e396b75bd097");
    ("N00E060_gsv.zip", "ec84174697c17ca4db2967374446ab30");
    ("N00E100_agb.zip", "c50c7c996615c1c6f19cb383ef11812a");
    ("N00E100_gsv.zip", "6e0ff834db822d3710ed40d00a200e8f");
    ("N00E140_agb.zip", "73f0b44b9e137789cefb711ef9aa281b");
    ("N00E140_gsv.zip", "43be3dd4563b63d12de006d240ba5edf");
    ("N00W020_agb.zip", "4fb979732f0a22cc7a2ca3667698084b");
    ("N00W020_gsv.zip", "ac5bbeedaa0f94a5e01c7a86751d6891");
    ("N00W060_agb.zip", "59da0b32b08fbbcd2dd76926a849562b");
    ("N00W060_gsv.zip", "5ca9598f621a7d10ab1d623ee5b44aa6");
    ("N00W100_agb.zip", "a819b75a39e8d4d37b15745c96ea1e35");
    ("N00W100_gsv.zip", "71aad3669d522f7190029ec33350831a");
    ("N00W180_agb.zip", "5a1d7486d8310fbaf4980a76e9ffcd78");
    ("N00W180_gsv.zip", "274be7dbb4e6d7563773cc302129a9c7");
    ("N40E020_agb.zip", "38bc7170f94734b365d614a566f872e7");
    ("N40E020_gsv.zip", "b52c1c777d68c331cc058a273530536e");
    ("N40E060_agb.zip", "1d94ad59f3f26664fefa4d7308b63f05");
    ("N40E060_gsv.zip", "3b68786b7641400077ef340a7ef748f4");
    ("N40E100_agb.zip", "3ccb436047c0db416fb237435645989c");
    ("N40E100_gsv.zip", "c44efe9e7ce2ae0f2e39b0db10f06c71");
    ("N40E140_agb.zip", "35ea51da229af1312ba4aaafc0dbd5d6");
    ("N40E140_gsv.zip", "8431828708c84263a4971a8779864f69");
    ("N40W020_agb.zip", "38345a1826719301ab1a0251b4835cc2");
    ("N40W020_gsv.zip", "5e136b7c2f921cd425cb5cc5669e7693");
    ("N40W060_agb.zip", "e3f54df1d188c0132ecf5aef3dc54ca6");
    ("N40W060_gsv.zip", "09093d78ffef0220cb459a88e61e3093");
    ("N40W100_agb.zip", "cc21ce8793e5594dc7a0b45f0d0f1466");
    ("N40W100_gsv.zip", "21be1398df88818d04dcce422e2010a6");
    ("N40W140_agb.zip", "64665f53fad7386abb1cf4a44a1c8b1a");
    ("N40W140_gsv.zip", "b59405219fc807cbe745789fbb6936a6");
    ("N40W180_agb.zip", "f83ef786da8333ee739e49be108994c1");
    ("N40W180_gsv.zip", "1f2eb8912b1a204eaeb2858b7e398baa");
    ("N80E020_agb.zip", "7f7aed44802890672bd908e28eda6f15");
    ("N80E020_gsv.zip", "6e285eec66306e56dc3a81adc0da2a27");
    ("N80E060_agb.zip", "55e7031e0207888f25f27efa9a0ab8f4");
    ("N80E060_gsv.zip", "8d14c7f61ad2aed527e124f9aacae30c");
    ("N80E100_agb.zip", "562eafd2813ff06e47284c48324bb1c7");
    ("N80E100_gsv.zip", "73067e0fac442c330ae2294996280042");
    ("N80E140_agb.zip", "1b51ce0df0dba925c5ef2149bebca115");
    ("N80E140_gsv.zip", "37ee3047d281fc34fa3a9e024a8317a1");
    ("N80W020_agb.zip", "60dde6adc0dfa219a34c976367f571c0");
    ("N80W020_gsv.zip", "b7be4e97bb4179710291ee8dee27f538");
    ("N80W060_agb.zip", "db7d35d0375851c4a181c3a8fa8b480e");
    ("N80W060_gsv.zip", "d36ffcf4622348382454c979baf53234");
    ("N80W100_agb.zip", "c0dbf53e635dabf9a4d7d1756adeda69");
    ("N80W100_gsv.zip", "abdeaf0d65da1216c326b6d0ce27d61b");
    ("N80W140_agb.zip", "7719c0efd23cd86215fea0285fd0ea4a");
    ("N80W140_gsv.zip", "499969bed381197ee9427a2e3f455a2e");
    ("N80W180_agb.zip", "e3a163d1944e1989a07225d262a01c6f");
    ("N80W180_gsv.zip", "5d39ec0368cfe63c40c66d61ae07f577");
    ("S40E140_agb.zip", "263eb077a984117b41cc7cfa0c32915b");
    ("S40E140_gsv.zip", "e0ffad85fbade4fb711cc5b3c7543898");
    ("S40W060_agb.zip", "2cbf6858c48f36add896db660826829b");
    ("S40W060_gsv.zip", "04dbfd4aca0bd2a2a7d8f563c8659252");
    ("S40W100_agb.zip", "ae89f021e7d9c2afea433878f77d1dd6");
    ("S40W100_gsv.zip", "b6aa3f276e1b51dade803a71df2acde6")
  ].

Section WithBase.
Context `{GeoBase}.

Record Sample : Type :=
  { mask : ndarray Pixel; crs : CRS; bounds : GeoSlice }.

(** The attributes of an instance. *)
Record t : Type :=
  { self_paths : Paths;
    self_measurement : string;
    self_checksum : bool;
    self_filename_glob : string;
    self_index : GeoDataFrame Geom string;
    self_transforms : option (Sample -> Sample);
    self_cache : bool }.

(** The body of the loop of [_verify] over the archives found. *)
Fixpoint verify_archives (checksum : bool) (zipfiles : list string) : M FS unit :=
  match zipfiles with
  | [] => mret tt
  | zipfile :: rest =>
      let filename := os_path_basename zipfile in
      _ ← (if checksum
           then md5 ← lift (getitem_dict md5s filename);
                intact ← gets (fun fs => check_integrity fs zipfile md5);
                if negb intact
                then raise (RuntimeError "Dataset found, but corrupted.")
                else mret tt
           else mret tt);
      _ ← modify (extract_archive zipfile);
      verify_archives checksum rest
  end.

(** [_verify], on the attributes [__init__] has set when it calls it. *)
Definition _verify (paths : Paths) (measurement : string) (checksum : bool)
    (glob_pattern : string) : M FS unit :=
  files ← gets (fun fs => GeoDataset_files fs paths glob_pattern);
  if negb (bool_decide (files = [])) then mret tt
  else
    match paths with
    | ManyPaths _ => raise AssertionError
    | OnePath root =>
        let pathname := os_path_join root ("*_" +:+ measurement +:+ ".zip") in
        found ← gets (fun fs => glob_glob fs pathname);
        if negb (bool_decide (found = []))
        then zipfiles ← gets (fun fs => glob_glob fs pathname);
             verify_archives checksum zipfiles
        else raise DatasetNotFoundError
    end.

Definition __init__ (paths : Paths) (crs : option CRS) (res : option (Q * Q))
    (measurement : string) (transforms : option (Sample -> Sample))
    (cache checksum : bool) : M FS t :=
  if negb (str_in measurement measurements) then raise AssertionError
  else
    let glob_pattern := str_format filename_glob measurement in
    _ ← _verify paths measurement checksum glob_pattern;
    index ← reads (fun fs => or_raise DatasetNotFoundError
                              (RasterDataset_init paths glob_pattern crs res fs));
    mret {| self_paths := paths;
            self_measurement := measurement;
            self_checksum := checksum;
            self_filename_glob := glob_pattern;
            self_index := index;
            self_transforms := transforms;
            self_cache := cache |}.

Definition __getitem__ (fs : FS) (query : GeoSlice) : M t Sample :=
  bnds ← gets (fun self => GeoDataset_bounds _ (self_index self));
  let q := disambiguate_slice bnds query in
  let '(x, y, t) := (x_ q, y_ q, t_ q) in
  interval ← lift (Interval_ (start t) (stop t));
  index ← gets (fun self => iloc_overlaps (self_index self) interval);
  index ← lift (iloc_step index (step t));
  let index := cx index (start x) (stop x) (start y) (stop y) in
  if empty index
  then raise (IndexError "query not found in index")
  else
    let filepaths := data <$> rows index in
    mask ← reads (fun self => or_raise (RasterioIOError "")
              (RasterDataset_merge_files fs (self_index self) filepaths query));
    let std_error_paths := str_replace ".tif" "_err.tif" <$> filepaths in
    std_err_mask ← reads (fun self => or_raise (RasterioIOError "")
              (RasterDataset_merge_files fs (self_index self) std_error_paths query));
    mask ← lift (torch_cat [mask; std_err_mask]);
    crs ← gets (fun self => GeoDataset_crs _ (self_index self));
    let sample := {| mask := mask; crs := crs; bounds := query |} in
    transforms ← gets self_transforms;
    match transforms with
    | Some f => mret (f sample)
    | None => mret sample
    end.

(** [plot]; [prediction] is [sample['prediction']] when the sample has that
    key.  The figure records the calls made on the axes. *)
Definition plot (sample : Sample) (prediction : option (ndarray Pixel))
    (show_titles : bool) (suptitle : option string) : result (plt.Figure Pixel) :=
  let tensor := mask sample in
  mask ← getitem_channel tensor 0;
  error_mask ← getitem_channel tensor 1;
  let titled (name : string) := if show_titles then Some name else None in
  match prediction with
  | Some p =>
      pred ← getitem_channel p 0;
      let ncols := 3%nat in
      OK {| plt.figsize := (ncols * 4, 4)%nat;
            plt.axs :=
              [ {| plt.shown := plt.Channel mask; plt.vrange := None;
                   plt.axis_off := true; plt.title := titled "Mask" |};
                {| plt.shown := plt.Channel error_mask; plt.vrange := None;
                   plt.axis_off := true; plt.title := titled "Uncertainty Mask" |};
                {| plt.shown := plt.Channel pred; plt.vrange := None;
                   plt.axis_off := true; plt.title := titled "Prediction" |} ];
            plt.suptitle := suptitle |}
  | None =>
      let ncols := 2%nat in
      OK {| plt.figsize := (ncols * 4, 4)%nat;
            plt.axs :=
              [ {| plt.shown := plt.Channel mask; plt.vrange := None;
                   plt.axis_off := true; plt.title := titled "Mask" |};
                {| plt.shown := plt.Channel error_mask; plt.vrange := None;
                   plt.axis_off := true; plt.title := titled "Uncertainty Mask" |} ];
            plt.suptitle := suptitle |}
  end.

End WithBase.

End GlobBiomass.

(** ** torchgeo/datasets/enviroatlas.py *)

Module EnviroAtlas.
Import pd shapely gpd np Host.

Definition url : string :=
  "https://zenodo.org/records/5778193/files/enviroatlas_lotp.zip?download=1".
Definition filename : string := "enviroatlas_lotp.zip".
Definition md5 : string := "bfe601be21c7c001315fc6154be8ef14".

Definition valid_prior_layers : list string :=
  ["prior"; "prior_no_osm_no_buildings"].

Definition valid_layers : list string :=
  ["naip"; "nlcd"; "roads"; "water"; "waterways"; "waterbodies"; "buildings"; "lc"]
    ++ valid_prior_layers.

Definition cities : list string :=
  ["pittsburgh_pa-2010_1m"; "durham_nc-2012_1m"; "austin_tx-2012_1m";
   "phoenix_az-2010_1m"].

Definition splits : list string :=
  ((fun state => state +:+ "-train") <$> take 1 cities)
    ++ ((fun state => state +:+ "-val") <$> take 1 cities)
    ++ ((fun state => state +:+ "-test") <$> cities)
    ++ ((fun state => state +:+ "-val5") <$> cities).

Definition _files : list string :=
  [
    "austin_tx-2012_1m-test_tiles-debuffered";
    "austin_tx-2012_1m-val5_tiles-debuffered";
    "durham_nc-2012_1m-test_tiles-debuffered";
    "durham_nc-2012_1m-val5_tiles-debuffered";
    "phoenix_az-2010_1m-test_tiles-debuffered";
    "phoenix_az-2010_1m-val5_tiles-debuffered";
    "pittsburgh_pa-2010_1m-test_tiles-debuffered";
    "pittsburgh_pa-2010_1m-train_tiles-debuffered";
    "pittsburgh_pa-2010_1m-val5_tiles-debuffered";
    "pittsburgh_pa-2010_1m-val_tiles-debuffered";
    "austin_tx-2012_1m-test_tiles-debuffered/3009726_sw_a_naip.tif";
    "austin_tx-2012_1m-test_tiles-debuffered/3009726_sw_b_nlcd.tif";
    "austin_tx-2012_1m-test_tiles-debuffered/3009726_sw_c_roads.tif";
    "austin_tx-2012_1m-test_tiles-debuffered/3009726_sw_d1_waterways.tif";
    "austin_tx-2012_1m-test_tiles-debuffered/3009726_sw_d2_waterbodies.tif";
    "austin_tx-2012_1m-test_tiles-debuffered/3009726_sw_d_water.tif";
    "austin_tx-2012_1m-test_tiles-debuffered/3009726_sw_e_buildings.tif";
    "austin_tx-2012_1m-test_tiles-debuffered/3009726_sw_h_highres_labels.tif";
    "austin_tx-2012_1m-test_tiles-debuffered/3009726_sw_prior_from_cooccurrences_101_31.tif";
    "austin_tx-2012_1m-test_tiles-debuffered/3009726_sw_prior_from_cooccurrences_101_31_no_osm_no_buildings.tif";
    "spatial_index.geojson"
  ].

Definition p_src_crs : string := "epsg:3857".

Definition raw_enviroatlas_to_idx_map : list Z :=
  [
    0; 0; 0; 0; 0; 0; 0; 0; 0; 0;
    1; 0; 0; 0; 0; 0; 0; 0; 0; 0;
    2; 0; 0; 0; 0; 0; 0; 0; 0; 0;
    3; 0; 0; 0; 0; 0; 0; 0; 0; 0;
    4; 0; 0; 0; 0; 0; 0; 0; 0; 0;
    0; 0; 5; 0; 0; 0; 0; 0; 0; 0;
    0; 0; 0; 0; 0; 0; 0; 0; 0; 0;
    6; 0; 0; 0; 0; 0; 0; 0; 0; 0;
    7; 0; 8; 0; 0; 0; 0; 0; 0; 0;
    0; 9; 10
  ].

Section WithIO.
Context `{RasterIO}.

Definition p_transformers : gmap string (Q * Q -> Q * Q) :=
  list_to_map
    [ ("epsg:26917", pyproj_transform p_src_crs "epsg:26917");
      ("epsg:26918", pyproj_transform p_src_crs "epsg:26918");
      ("epsg:26914", pyproj_transform p_src_crs "epsg:26914");
      ("epsg:26912", pyproj_transform p_src_crs "epsg:26912") ].

Record Sample : Type :=
  { image : ndarray Z; mask : ndarray Z; crs : CRS; bounds : GeoSlice }.

(** The attributes of an instance. *)
Record t : Type :=
  { self_root : string;
    self_layers : list string;
    self_transforms : option (Sample -> Sample);
    self_cache : bool;
    self_download : bool;
    self_checksum : bool;
    self_prior_as_input : bool;
    self_index : GeoDataFrame Geom (gmap string string) }.

(** [os.path.join(a, b, c)]. *)
Definition os_path_join3 (a b c : string) : string :=
  os_path_join (os_path_join a b) c.

Definition _download (root : string) : M FS unit :=
  modify (download_url url root filename md5).

Definition _extract (root : string) : M FS unit :=
  modify (extract_archive (os_path_join root filename)).

Definition _verify (root : string) (download : bool) : M FS unit :=
  let exists_ (fs : FS) (filename : string) : bool :=
    os_path_exists fs (os_path_join3 root "enviroatlas_lotp" filename) in
  extracted ← gets (fun fs => forallb (exists_ fs) _files);
  if (extracted : bool) then mret tt
  else
    archive ← gets (fun fs => os_path_exists fs (os_path_join root filename));
    if (archive : bool) then _extract root
    else if negb download then raise DatasetNotFoundError
    else _ ← _download root; _extract root.

(** The columns [__init__] stores for a feature. *)
Definition row_data (row : Feature Geom) : gmap string string :=
  list_to_map
    [ ("naip", f_naip row);
      ("nlcd", f_nlcd row);
      ("roads", f_roads row);
      ("water", f_water row);
      ("waterways", f_waterways row);
      ("waterbodies", f_waterbodies row);
      ("buildings", f_buildings row);
      ("lc", f_lc row);
      ("prior_no_osm_no_buildings",
        str_replace "a_naip" "prior_from_cooccurrences_101_31_no_osm_no_buildings"
          (f_naip row));
      ("prior",
        str_replace "a_naip" "prior_from_cooccurrences_101_31" (f_naip row)) ].

(** The loop of [__init__] over the features of the spatial index. *)
Fixpoint index_rows (splits : list string) (mint maxt : Timestamp)
    (features : list (Feature Geom)) : list (Row Geom (gmap string string)) :=
  match features with
  | [] => []
  | row :: rest =>
      if str_in (f_split row) splits
      then {| mint := mint; maxt := maxt;
              geometry := f_geometry row; data := row_data row |}
           :: index_rows splits mint maxt rest
      else index_rows splits mint maxt rest
  end.

Definition __init__ (root : string) (splits : list string) (layers : list string)
    (transforms : option (Sample -> Sample))
    (prior_as_input cache download checksum : bool) : M FS t :=
  if negb (forallb (fun split => str_in split EnviroAtlas.splits) splits)
  then raise AssertionError
  else if negb (forallb (fun layer => str_in layer valid_layers) layers)
  then raise AssertionError
  else
    _ ← _verify root download;
    let mint := Timestamp_min in
    let maxt := Timestamp_max in
    let path := os_path_join3 root "enviroatlas_lotp" "spatial_index.geojson" in
    f ← reads (fun fs => or_raise (DriverError path) (fiona_open fs path));
    let index := {| index_closed := closed_both;
                    rows := index_rows splits mint maxt f;
                    frame_crs := "EPSG:3857" |} in
    mret {| self_root := root;
            self_layers := layers;
            self_transforms := transforms;
            self_cache := cache;
            self_download := download;
            self_checksum := checksum;
            self_prior_as_input := prior_as_input;
            self_index := index |}.

(** The loop of [__getitem__] over the layers: [query_geom_transformed]
    and the two lists of the sample are carried along. *)
Fixpoint load_layers (fs : FS) (root : string) (prior_as_input : bool)
    (filenames : gmap string string) (query_box : Box) (layers : list string)
    (query_geom_transformed : option Box) (image mask : list (ndarray Z))
    : result (list (ndarray Z) * list (ndarray Z)) :=
  match layers with
  | [] => OK (image, mask)
  | layer :: rest =>
      fn ← getitem_dict filenames layer;
      let path := os_path_join3 root "enviroatlas_lotp" fn in
      f ← or_raise (RasterioIOError path) (rasterio_open fs path);
      let dst_crs := str_lower (crs_to_string f) in
      geom ← match query_geom_transformed with
             | None =>
                 transformer ← getitem_dict p_transformers dst_crs;
                 OK (transform_envelope transformer query_box)
             | Some geom => OK geom
             end;
      data ← or_raise (ValueError "Input shapes do not overlap raster.")
               (rasterio_mask f geom);
      if str_in layer ["naip"; "buildings"; "roads"; "waterways"; "waterbodies"; "water"]
      then load_layers fs root prior_as_input filenames query_box rest
             (Some geom) (image ++ [data]) mask
      else if str_in layer ["prior"; "prior_no_osm_no_buildings"]
      then
        if prior_as_input
        then load_layers fs root prior_as_input filenames query_box rest
               (Some geom) (image ++ [data]) mask
        else load_layers fs root prior_as_input filenames query_box rest
               (Some geom) image (mask ++ [data])
      else if str_in layer ["lc"]
      then
        data ← getitem_array raw_enviroatlas_to_idx_map data;
        load_layers fs root prior_as_input filenames query_box rest
          (Some geom) image (mask ++ [data])
      else load_layers fs root prior_as_input filenames query_box rest
             (Some geom) image mask
  end.

Definition __getitem__ (fs : FS) (query : GeoSlice) : M t Sample :=
  bnds ← gets (fun self => GeoDataset_bounds _ (self_index self));
  let q := disambiguate_slice bnds query in
  let '(x, y, t) := (x_ q, y_ q, t_ q) in
  interval ← lift (Interval_ (start t) (stop t));
  index ← gets (fun self => iloc_overlaps (self_index self) interval);
  index ← lift (iloc_step index (step t));
  let index := cx index (start x) (stop x) (start y) (stop y) in
  crs ← gets (fun self => GeoDataset_crs _ (self_index self));
  lists ←
    (if empty index
     then raise (IndexError "query not found in index")
     else if Nat.eqb (len index) 1
     then
       match head (rows index) with
       | None => raise (IndexError "single positional indexer is out-of-bounds")
       | Some row =>
           let filenames := data row in
           let query_box := box (start x) (start y) (stop x) (stop y) in
           reads (fun self =>
             load_layers fs (self_root self) (self_prior_as_input self)
               filenames query_box (self_layers self) None [] [])
       end
     else raise (IndexError "query spans multiple tiles which is not valid"));
  image ← lift (concatenate lists.1);
  mask ← lift (concatenate lists.2);
  let sample := {| image := image; mask := mask; crs := crs; bounds := query |} in
  transforms ← gets self_transforms;
  match transforms with
  | Some f => mret (f sample)
  | None => mret sample
  end.

(** The loop of [plot] over the layers: the names of the layers that are in
    the image and in the mask of a sample. *)
Fixpoint plot_layers (prior_as_input : bool) (layers : list string)
    (image_layers mask_layers : list string) : list string * list string :=
  match layers with
  | [] => (image_layers, mask_layers)
  | layer :: rest =>
      if str_in layer ["naip"; "buildings"; "roads"; "waterways"; "waterbodies"; "water"]
      then plot_layers prior_as_input rest (image_layers ++ [layer]) mask_layers
      else if str_in layer ["prior"; "prior_no_osm_no_buildings"]
      then
        if prior_as_input
        then plot_layers prior_as_input rest (image_layers ++ [layer]) mask_layers
        else plot_layers prior_as_input rest image_layers (mask_layers ++ [layer])
      else if str_in layer ["lc"]
      then plot_layers prior_as_input rest image_layers (mask_layers ++ [layer])
      else plot_layers prior_as_input rest image_layers mask_layers
  end.

(** [plot]; [prediction] is [sample['prediction']] when the sample has that
    key.  The figure records the calls made on the axes. *)
Definition plot (self : t) (sample : Sample) (prediction : option (ndarray Z))
    (show_titles : bool) (suptitle : option string) : result (plt.Figure Z) :=
  if negb (str_in "naip" (self_layers self)) || negb (str_in "lc" (self_layers self))
  then Raise (ValueError "The 'naip' and 'lc' layers must be included for plotting")
  else
    let lists := plot_layers (self_prior_as_input self) (self_layers self) [] [] in
    naip_index ← list_index "naip" lists.1;
    lc_index ← list_index "lc" lists.2;
    let image := rollaxis_0_3 (slice_channels (image sample) naip_index (naip_index + 3)) in
    mask ← getitem_channel (mask sample) lc_index;
    let num_panels := 2%nat in
    let showing_predictions := bool_decide (is_Some prediction) in
    let num_panels := if showing_predictions then (num_panels + 1)%nat else num_panels in
    let titled (name : string) := if show_titles then Some name else None in
    OK {| plt.figsize := (num_panels * 4, 5)%nat;
          plt.axs :=
            [ {| plt.shown := plt.Pixels image; plt.vrange := None;
                 plt.axis_off := true; plt.title := titled "Image" |};
              {| plt.shown := plt.Channel mask; plt.vrange := Some (0, 10);
                 plt.axis_off := true; plt.title := titled "Mask" |} ]
            ++ match prediction with
               | Some predictions =>
                   [ {| plt.shown := plt.Array predictions; plt.vrange := Some (0, 10);
                        plt.axis_off := true; plt.title := titled "Predictions" |} ]
               | None => []
               end;
          plt.suptitle := suptitle |}.

End WithIO.

End EnviroAtlas.

(** ** The parts of [__getitem__] the statements speak about *)

Module Query.
Import pd shapely gpd np Host.

(** The index after the three selections both [__getitem__] make: rows
    whose interval overlaps [pd.Interval(t.start, t.stop)], every
    [t.step]-th of them, and of these the rows whose geometry intersects
    the box of [x] and [y]. *)
Definition select_index {G D} `{Geometry G} (df : GeoDataFrame G D) (q : Slice3)
  : result (GeoDataFrame G D) :=
  interval ← Interval_ (start (t_ q)) (stop (t_ q));
  index ← iloc_step (iloc_overlaps df interval) (step (t_ q));
  OK (cx index (start (x_ q)) (stop (x_ q)) (start (y_ q)) (stop (y_ q))).

(** The exceptions the libraries raise inside [__getitem__]: none of them
    is one of its own two [IndexError]s. *)
Definition from_library (e : exn) : Prop :=
  match e with
  | IndexError msg => msg = "index is out of bounds for axis 0"%string
  | AssertionError | DatasetNotFoundError => False
  | _ => True
  end.

(** [sample = self.transforms(sample)] when transforms are set. *)
Definition apply_transforms {S} (transforms : option (S -> S)) (sample : S) : S :=
  match transforms with
  | Some f => f sample
  | None => sample
  end.

(** The reading of the time filter as an overlap of two closed intervals:
    the row's [mint, maxt] and the query's [tmin, tmax]. *)
Definition overlaps_closed {G D} (r : Row G D) (tmin tmax : Timestamp) : bool :=
  (mint r <=? tmax) && (tmin <=? maxt r).

(** The rows that reading selects: closed overlap in time, intersection
    with the query's box in space. *)
Definition rows_closed_overlap {G D} `{Geometry G} (df : GeoDataFrame G D) (q : Slice3)
  : list (Row G D) :=
  filter (fun r =>
            overlaps_closed r (start (t_ q)) (stop (t_ q))
            && intersects (geometry r)
                 (box (start (x_ q)) (start (y_ q)) (stop (x_ q)) (stop (y_ q))) = true)
         (rows df).

(** What the time filter of [__getitem__] keeps of a row of an index closed
    on both sides: the query's interval is open on the left. *)
Definition overlaps_left_open {G D} (r : Row G D) (tmin tmax : Timestamp) : bool :=
  (mint r <=? tmax) && (tmin <? maxt r).

Definition rows_left_open_overlap {G D} `{Geometry G} (df : GeoDataFrame G D) (q : Slice3)
  : list (Row G D) :=
  filter (fun r =>
            overlaps_left_open r (start (t_ q)) (stop (t_ q))
            && intersects (geometry r)
                 (box (start (x_ q)) (start (y_ q)) (stop (x_ q)) (stop (y_ q))) = true)
         (rows df).

Section GlobBiomassParts.
Context `{GeoBase}.
Import GlobBiomass.

(** [x, y, t = self._disambiguate_slice(query)]. *)
Definition GlobBiomass_resolve (self : GlobBiomass.t) (query : GeoSlice) : Slice3 :=
  disambiguate_slice (GeoDataset_bounds _ (self_index self)) query.

(** The rows of the index a query selects. *)
Definition GlobBiomass_select (self : GlobBiomass.t) (query : GeoSlice)
  : result (GeoDataFrame Geom string) :=
  select_index (self_index self) (GlobBiomass_resolve self query).

(** [__getitem__] from the [if index.empty] on. *)
Definition GlobBiomass_sample_of_index (fs : FS) (self : GlobBiomass.t)
    (query : GeoSlice) (index : GeoDataFrame Geom string) : result GlobBiomass.Sample :=
  if empty index then Raise (IndexError "query not found in index")
  else
    let filepaths := data <$> rows index in
    mask ← or_raise (RasterioIOError "")
             (RasterDataset_merge_files fs (self_index self) filepaths query);
    std_err_mask ← or_raise (RasterioIOError "")
             (RasterDataset_merge_files fs (self_index self)
                (str_replace ".tif" "_err.tif" <$> filepaths) query);
    mask ← torch_cat [mask; std_err_mask];
    OK (apply_transforms (self_transforms self)
          {| GlobBiomass.mask := mask;
             GlobBiomass.crs := GeoDataset_crs _ (self_index self);
             GlobBiomass.bounds := query |}).


End GlobBiomassParts.

Section EnviroAtlasParts.
Context `{RasterIO}.
Import EnviroAtlas.

(** Where the loop of [__getitem__] puts the data of a layer. *)
Definition goes_to_image (prior_as_input : bool) (layer : string) : bool :=
  str_in layer ["naip"; "buildings"; "roads"; "waterways"; "waterbodies"; "water"]
  || (str_in layer ["prior"; "prior_no_osm_no_buildings"] && prior_as_input).

Definition goes_to_mask (prior_as_input : bool) (layer : string) : bool :=
  negb (str_in layer ["naip"; "buildings"; "roads"; "waterways"; "waterbodies"; "water"])
  && ((str_in layer ["prior"; "prior_no_osm_no_buildings"] && negb prior_as_input)
      || (negb (str_in layer ["prior"; "prior_no_osm_no_buildings"])
          && str_in layer ["lc"])).

Definition image_layers (prior_as_input : bool) (layers : list string) : list string :=
  filter (fun layer => goes_to_image prior_as_input layer = true) layers.

Definition mask_layers (prior_as_input : bool) (layers : list string) : list string :=
  filter (fun layer => goes_to_mask prior_as_input layer = true) layers.

(** The raster of [layer] of a tile, cropped to [geom]. *)
Definition crop_layer (fs : FS) (root : string) (filenames : gmap string string)
    (geom : Box) (layer : string) : result (ndarray Z) :=
  fn ← getitem_dict filenames layer;
  let path := os_path_join3 root "enviroatlas_lotp" fn in
  f ← or_raise (RasterioIOError path) (rasterio_open fs path);
  or_raise (ValueError "Input shapes do not overlap raster.") (rasterio_mask f geom).

(** What the loop appends to the mask for a layer: the ['lc'] raster goes
    through [raw_enviroatlas_to_idx_map] first. *)
Definition mask_data (layer : string) (raw : ndarray Z) : result (ndarray Z) :=
  if str_in layer ["lc"] then getitem_array raw_enviroatlas_to_idx_map raw
  else OK raw.

(** The query box in the CRS of the raster of [layer], by the transformer
    [p_transformers] holds for that CRS. *)
Definition box_in_crs_of (fs : FS) (root : string) (filenames : gmap string string)
    (query_box : Box) (layer : string) : result Box :=
  fn ← getitem_dict filenames layer;
  let path := os_path_join3 root "enviroatlas_lotp" fn in
  f ← or_raise (RasterioIOError path) (rasterio_open fs path);
  transformer ← getitem_dict p_transformers (str_lower (crs_to_string f));
  OK (transform_envelope transformer query_box).

(** The reading in which each layer is cropped to the box transformed
    into the CRS of its own raster. *)
Definition crop_layer_own_crs (fs : FS) (root : string) (filenames : gmap string string)
    (query_box : Box) (layer : string) : result (ndarray Z) :=
  geom ← box_in_crs_of fs root filenames query_box layer;
  crop_layer fs root filenames geom layer.

(** [x, y, t = self._disambiguate_slice(query)]. *)
Definition EnviroAtlas_resolve (self : EnviroAtlas.t) (query : GeoSlice) : Slice3 :=
  disambiguate_slice (GeoDataset_bounds _ (self_index self)) query.

(** The rows of the index a query selects. *)
Definition EnviroAtlas_select (self : EnviroAtlas.t) (query : GeoSlice)
  : result (GeoDataFrame Geom (gmap string string)) :=
  select_index (self_index self) (EnviroAtlas_resolve self query).

(** [shapely.geometry.box(x.start, y.start, x.stop, y.stop)]. *)
Definition query_box (q : Slice3) : Box :=
  box (start (x_ q)) (start (y_ q)) (stop (x_ q)) (stop (y_ q)).

(** [__getitem__] from the [if index.empty] on. *)
Definition EnviroAtlas_sample_of_index (fs : FS) (self : EnviroAtlas.t)
    (query : GeoSlice) (q : Slice3)
    (index : GeoDataFrame Geom (gmap string string)) : result EnviroAtlas.Sample :=
  lists ←
    (if empty index then Raise (IndexError "query not found in index")
     else if Nat.eqb (len index) 1
     then
       match head (rows index) with
       | None => Raise (IndexError "single positional indexer is out-of-bounds")
       | Some row =>
           load_layers fs (self_root self) (self_prior_as_input self) (data row)
             (query_box q) (self_layers self) None [] []
       end
     else Raise (IndexError "query spans multiple tiles which is not valid"));
  image ← concatenate lists.1;
  mask ← concatenate lists.2;
  OK (apply_transforms (self_transforms self)
        {| EnviroAtlas.image := image;
           EnviroAtlas.mask := mask;
           EnviroAtlas.crs := GeoDataset_crs _ (self_index self);
           EnviroAtlas.bounds := query |}).
End EnviroAtlasParts.

End Query.

(** ** A small host on which the definitions run

    A file system is a list of files; a file has a path, the MD5 of its
    content and, when it is a raster, one pixel value, an integer, and a
    CRS.  Used for the concrete instances of the theorems below. *)

Module Example.
Import pd shapely gpd np Host Query.

Record File : Type :=
  { path : string; file_md5 : string; pixel : Z; file_crs : string }.

Definition plain (p : string) : File :=
  {| path := p; file_md5 := ""; pixel := 0; file_crs := "" |}.

Definition raster (p : string) (v : Z) (c : string) : File :=
  {| path := p; file_md5 := ""; pixel := v; file_crs := c |}.

Definition archive (p md5 : string) : File :=
  {| path := p; file_md5 := md5; pixel := 0; file_crs := "" |}.

Definition str_suffix (suf s : string) : bool :=
  String.prefix (String.rev suf) (String.rev s).

Fixpoint split_star (acc pat : string) : string * string :=
  match pat with
  | EmptyString => (acc, EmptyString)
  | String c rest =>
      if bool_decide (c = "*"%char) then (acc, rest)
      else split_star (acc +:+ String c EmptyString) rest
  end.

(** A pattern with one star matches the paths that start with what stands
    before the star and end with what follows it. *)
Definition glob_match (pat p : string) : bool :=
  let '(pre, suf) := split_star EmptyString pat in
  String.prefix pre p && str_suffix suf p
  && Nat.leb (String.length pre + String.length suf) (String.length p).

Definition find_file (fs : list File) (p : string) : option File :=
  head (filter (fun f => path f = p) fs).

#[export] Instance host : HostOS :=
  {| FS := list File;
     glob_glob := fun fs pat => filter (fun p => glob_match pat p = true) (path <$> fs);
     os_path_exists := fun fs p => bool_decide (p ∈ path <$> fs);
     check_integrity := fun fs p md5 =>
       match find_file fs p with
       | Some f => bool_decide (file_md5 f = md5)
       | None => false
       end;
     extract_archive := fun src fs =>
       fs ++ [ raster (str_replace ".zip" ".tif" src) 7 "EPSG:4326";
               raster (str_replace ".zip" "_err.tif" src) 1 "EPSG:4326" ];
     download_url := fun url root filename md5 fs =>
       fs ++ [ archive (os_path_join root filename) md5 ] |}.

Definition year_2010 : Timestamp * Timestamp :=
  (1262304000000000000, 1293839999999999999).

Definition tile_row (p : string) : Row Box string :=
  {| mint := year_2010.1; maxt := year_2010.2;
     geometry := box 0 0 10 10; data := p |}.

Definition whole_world : Slice3 :=
  {| x_ := Slice (-180)%Q 180%Q 1%Q;
     y_ := Slice (-90)%Q 90%Q 1%Q;
     t_ := Slice Timestamp_min Timestamp_max 1 |}.

Definition files_under (fs : list File) (paths : Paths) (pat : string) : list string :=
  match paths with
  | OnePath p => glob_glob fs (os_path_join p pat)
  | ManyPaths ps => concat ((fun p => glob_glob fs (os_path_join p pat)) <$> ps)
  end.

(** Merging files: one channel of integers ([torch.long]), its pixel the
    sum over the files. *)
Definition merge (fs : list File) (paths : list string) : option (ndarray Z) :=
  files ← mapM (find_file fs) paths;
  Some {| shape_hw := (1, 1)%nat; channels := [[ foldr Z.add 0 (pixel <$> files) ]] |}.

#[export] Instance base : GeoBase :=
  {| GeoSlice := Slice3;
     CRS := string;
     Pixel := Z;
     pixel_dtype := fun _ => torch_long;
     Geom := Box;
     Geom_Geometry := Box_Geometry;
     GeoDataset_files := files_under;
     GeoDataset_crs := fun D df => frame_crs df;
     GeoDataset_bounds := fun D df => whole_world;
     disambiguate_slice := fun bnds q => q;
     RasterDataset_init := fun paths pat crs res fs =>
       match files_under fs paths pat with
       | [] => None
       | files => Some {| index_closed := closed_both;
                          rows := tile_row <$> files;
                          frame_crs := default "EPSG:4326" crs |}
       end;
     RasterDataset_merge_files := fun fs index paths q => merge fs paths |}.

Definition project (src dst : string) (xy : Q * Q) : Q * Q :=
  if bool_decide (dst = "epsg:26917") then (xy.1 + 17, xy.2)%Q
  else if bool_decide (dst = "epsg:26918") then (xy.1 + 18, xy.2)%Q
  else xy.

Definition feature (g : Box) (split stem : string) : Feature Box :=
  {| f_geometry := g;
     f_split := split;
     f_naip := stem +:+ "_a_naip.tif";
     f_nlcd := stem +:+ "_b_nlcd.tif";
     f_roads := stem +:+ "_c_roads.tif";
     f_water := stem +:+ "_d_water.tif";
     f_waterways := stem +:+ "_d1_waterways.tif";
     f_waterbodies := stem +:+ "_d2_waterbodies.tif";
     f_buildings := stem +:+ "_e_buildings.tif";
     f_lc := stem +:+ "_h_highres_labels.tif" |}.

(** Two tiles of the training split that share the edge [x = 10], and one
    tile of another split. *)
Definition features : list (Feature Box) :=
  [ feature (box 0 0 10 10) "pittsburgh_pa-2010_1m-train" "train/t1";
    feature (box 10 0 20 10) "pittsburgh_pa-2010_1m-train" "train/t2";
    feature (box 0 0 10 10) "austin_tx-2012_1m-test" "test/t3" ].

(** A crop keeps the pixel of the file and records where the box starts. *)
#[export] Instance io : RasterIO :=
  {| Raster := File;
     rasterio_open := find_file;
     crs_to_string := file_crs;
     rasterio_mask := fun f geom =>
       Some {| shape_hw := (1, 2)%nat; channels := [[ pixel f; Qfloor (minx geom) ]] |};
     pyproj_transform := project;
     fiona_open := fun fs p =>
       if bool_decide (p ∈ path <$> fs) then Some features else None |}.

(** An extracted copy of the EnviroAtlas data under [data]: the files
    [_verify] looks for and the rasters of tile [t1], the prior layer in
    another UTM zone than the others. *)
Definition atlas_fs : FS :=
  ((fun f => plain ("data/enviroatlas_lotp/" +:+ f)) <$> EnviroAtlas._files)
    ++ [ raster "data/enviroatlas_lotp/train/t1_a_naip.tif" 200 "EPSG:26917";
         raster "data/enviroatlas_lotp/train/t1_b_nlcd.tif" 41 "EPSG:26917";
         raster "data/enviroatlas_lotp/train/t1_h_highres_labels.tif" 52 "EPSG:26917";
         raster "data/enviroatlas_lotp/train/t1_prior_from_cooccurrences_101_31.tif"
           3 "EPSG:26918" ].

Definition inside_t1 : Slice3 :=
  {| x_ := Slice 2%Q 4%Q 1%Q; y_ := Slice 2%Q 4%Q 1%Q;
     t_ := Slice 0 1000 1 |}.

Definition across_t1_t2 : Slice3 :=
  {| x_ := Slice 5%Q 15%Q 1%Q; y_ := Slice 2%Q 4%Q 1%Q;
     t_ := Slice 0 1000 1 |}.

Definition at_timestamp_max : Slice3 :=
  {| x_ := Slice 2%Q 4%Q 1%Q; y_ := Slice 2%Q 4%Q 1%Q;
     t_ := Slice Timestamp_max Timestamp_max 1 |}.

Definition backwards_in_time : Slice3 :=
  {| x_ := Slice 2%Q 4%Q 1%Q; y_ := Slice 2%Q 4%Q 1%Q;
     t_ := Slice 1000 0 1 |}.

(** The instance [EnviroAtlas(root='data', layers=layers)] builds on
    [atlas_fs], with the default split. *)
Definition atlas (layers : list string) (prior_as_input : bool) : EnviroAtlas.t :=
  {| EnviroAtlas.self_root := "data";
     EnviroAtlas.self_layers := layers;
     EnviroAtlas.self_transforms := None;
     EnviroAtlas.self_cache := true;
     EnviroAtlas.self_download := false;
     EnviroAtlas.self_checksum := false;
     EnviroAtlas.self_prior_as_input := prior_as_input;
     EnviroAtlas.self_index :=
       {| index_closed := closed_both;
          rows := EnviroAtlas.index_rows ["pittsburgh_pa-2010_1m-train"]
                    Timestamp_min Timestamp_max features;
          frame_crs := "EPSG:3857" |} |}.

(** A GlobBiomass directory with two extracted tiles. *)
Definition biomass_fs : FS :=
  [ raster "data/N00E020_agb.tif" 30 "EPSG:4326";
    raster "data/N00E020_agb_err.tif" 2 "EPSG:4326";
    raster "data/N40E020_agb.tif" 50 "EPSG:4326";
    raster "data/N40E020_agb_err.tif" 4 "EPSG:4326" ].

Definition in_2010 : Slice3 :=
  {| x_ := Slice 2%Q 4%Q 1%Q; y_ := Slice 2%Q 4%Q 1%Q;
     t_ := Slice 1262304000000000000 1270000000000000000 1 |}.

Definition biomass : GlobBiomass.t :=
  {| GlobBiomass.self_paths := OnePath "data";
     GlobBiomass.self_measurement := "agb";
     GlobBiomass.self_checksum := false;
     GlobBiomass.self_filename_glob := "*_agb.tif";
     GlobBiomass.self_index :=
       {| index_closed := closed_both;
          rows := tile_row <$> ["data/N00E020_agb.tif"; "data/N40E020_agb.tif"];
          frame_crs := "EPSG:4326" |};
     GlobBiomass.self_transforms := None;
     GlobBiomass.self_cache := true |}.

Definition far_away : Slice3 :=
  {| x_ := Slice 100%Q 101%Q 1%Q; y_ := Slice 2%Q 4%Q 1%Q;
     t_ := Slice 1262304000000000000 1270000000000000000 1 |}.

(** [EnviroAtlas(root='data')]: the default split and layers. *)
Definition default_atlas : EnviroAtlas.t := atlas ["naip"; "prior"] false.

(** The sample [default_atlas] returns for [inside_t1]: both layers
    cropped to the box that starts at 2 + 17. *)
Definition default_sample : EnviroAtlas.Sample :=
  {| EnviroAtlas.image := {| shape_hw := (1, 2)%nat; channels := [[200; 19]] |};
     EnviroAtlas.mask := {| shape_hw := (1, 2)%nat; channels := [[3; 19]] |};
     EnviroAtlas.crs := "EPSG:3857";
     EnviroAtlas.bounds := inside_t1 |}.

(** The sample of the layers naip and lc for [inside_t1]. *)
Definition lc_sample : EnviroAtlas.Sample :=
  {| EnviroAtlas.image := {| shape_hw := (1, 2)%nat; channels := [[200; 19]] |};
     EnviroAtlas.mask := {| shape_hw := (1, 2)%nat; channels := [[5; 0]] |};
     EnviroAtlas.crs := "EPSG:3857";
     EnviroAtlas.bounds := inside_t1 |}.

Definition biomass_sample : GlobBiomass.Sample :=
  {| GlobBiomass.mask := {| shape_hw := (1, 1)%nat; channels := [[80]; [6]] |};
     GlobBiomass.crs := "EPSG:4326";
     GlobBiomass.bounds := in_2010 |}.

(** An archive whose name is not a key of [md5s]. *)
Definition unknown_archive_fs : FS :=
  [ archive "dl/sample_agb.zip" "0123" ].

(** Archives only: one intact, one whose content does not match. *)
Definition archives_fs : FS :=
  [ archive "dl/N00E020_agb.zip" "bd83a3a4c143885d1962bde549413be6";
    archive "dl/N00E060_agb.zip" "bad" ].

End Example.

(** ** Further notions the statements use *)

Module More.
Import pd shapely gpd np Host Query.

(** The interval [__getitem__] builds from a resolved query. *)
Definition query_interval (q : Slice3) : Interval :=
  {| i_left := start (t_ q); i_right := stop (t_ q); i_closed := closed_right |}.

Definition result_map {A B} (f : A -> B) (r : result A) : result B :=
  match r with
  | OK a => OK (f a)
  | Raise e => Raise e
  end.

(** The keys of [p_transformers]. *)
Definition utm_zones : list string :=
  ["epsg:26917"; "epsg:26918"; "epsg:26914"; "epsg:26912"].

(** The raw codes of the high-resolution classes, as the comment above
    [raw_enviroatlas_to_idx_map] lists them. *)
Definition raw_classes : list Z := [0; 10; 20; 30; 40; 52; 70; 80; 82; 91; 92].

(** The position of a raw code in [raw_classes]; 0 for any other code. *)
Fixpoint class_index_from (k : Z) (codes : list Z) (i : Z) : Z :=
  match codes with
  | [] => 0
  | c :: rest => if c =? i then k else class_index_from (k + 1) rest i
  end.

Definition class_index (i : Z) : Z := class_index_from 0 raw_classes i.

Section Setters.
Context `{RasterIO}.

(** The instance with another [transforms]. *)
Definition GlobBiomass_with_transforms (self : GlobBiomass.t)
    (transforms : option (GlobBiomass.Sample -> GlobBiomass.Sample)) : GlobBiomass.t :=
  {| GlobBiomass.self_paths := GlobBiomass.self_paths self;
     GlobBiomass.self_measurement := GlobBiomass.self_measurement self;
     GlobBiomass.self_checksum := GlobBiomass.self_checksum self;
     GlobBiomass.self_filename_glob := GlobBiomass.self_filename_glob self;
     GlobBiomass.self_index := GlobBiomass.self_index self;
     GlobBiomass.self_transforms := transforms;
     GlobBiomass.self_cache := GlobBiomass.self_cache self |}.

Definition EnviroAtlas_with_transforms (self : EnviroAtlas.t)
    (transforms : option (EnviroAtlas.Sample -> EnviroAtlas.Sample)) : EnviroAtlas.t :=
  {| EnviroAtlas.self_root := EnviroAtlas.self_root self;
     EnviroAtlas.self_layers := EnviroAtlas.self_layers self;
     EnviroAtlas.self_transforms := transforms;
     EnviroAtlas.self_cache := EnviroAtlas.self_cache self;
     EnviroAtlas.self_download := EnviroAtlas.self_download self;
     EnviroAtlas.self_checksum := EnviroAtlas.self_checksum self;
     EnviroAtlas.self_prior_as_input := EnviroAtlas.self_prior_as_input self;
     EnviroAtlas.self_index := EnviroAtlas.self_index self |}.

End Setters.

End More.

(** ** More of the small host *)

Module Example2.
Import pd shapely gpd np Host Query More Example.

(** The two rasters of tile [t1] a sample of naip and lc needs. *)
Definition small_fs : FS :=
  [ raster "data/enviroatlas_lotp/train/t1_a_naip.tif" 200 "EPSG:26917";
    raster "data/enviroatlas_lotp/train/t1_h_highres_labels.tif" 52 "EPSG:26917" ].

(** The naip raster of tile [t1] in geographic coordinates. *)
Definition foreign_fs : FS :=
  [ raster "data/enviroatlas_lotp/train/t1_a_naip.tif" 200 "EPSG:4326" ].

Definition naip_lc_atlas : EnviroAtlas.t := atlas ["naip"; "lc"] false.

Definition t1_filenames : gmap string string :=
  EnviroAtlas.row_data (feature (box 0 0 10 10) "pittsburgh_pa-2010_1m-train" "train/t1").

Definition t1_row : Row Box (gmap string string) :=
  {| mint := Timestamp_min; maxt := Timestamp_max;
     geometry := box 0 0 10 10; data := t1_filenames |}.

(** What a query inside tile [t1] selects. *)
Definition t1_index : GeoDataFrame Box (gmap string string) :=
  {| index_closed := closed_both; rows := [t1_row]; frame_crs := "EPSG:3857" |}.

Definition naip_crop : ndarray Z := {| shape_hw := (1, 2)%nat; channels := [[200; 19]] |}.
Definition lc_crop : ndarray Z := {| shape_hw := (1, 2)%nat; channels := [[52; 19]] |}.
Definition lc_part : ndarray Z := {| shape_hw := (1, 2)%nat; channels := [[5; 0]] |}.

(** What [plot] draws for [lc_sample]. *)
Definition lc_figure : plt.Figure Z :=
  {| plt.figsize := (8, 5)%nat;
     plt.axs :=
       [ {| plt.shown := plt.Pixels [[200]; [19]]; plt.vrange := None;
            plt.axis_off := true; plt.title := Some "Image"%string |};
         {| plt.shown := plt.Channel [5; 0]; plt.vrange := Some (0, 10);
            plt.axis_off := true; plt.title := Some "Mask"%string |} ];
     plt.suptitle := None |}.

(** What [plot] draws for [biomass_sample]. *)
Definition biomass_figure : plt.Figure Z :=
  {| plt.figsize := (8, 4)%nat;
     plt.axs :=
       [ {| plt.shown := plt.Channel [80]; plt.vrange := None;
            plt.axis_off := true; plt.title := Some "Mask"%string |};
         {| plt.shown := plt.Channel [6]; plt.vrange := None;
            plt.axis_off := true; plt.title := Some "Uncertainty Mask"%string |} ];
     plt.suptitle := Some "Test"%string |}.

(** The year 2010 read backwards. *)
Definition newest_first : Slice3 :=
  {| x_ := Slice 2%Q 4%Q 1%Q; y_ := Slice 2%Q 4%Q 1%Q;
     t_ := Slice 1262304000000000000 1270000000000000000 (-1) |}.

Definition newest_first_index : GeoDataFrame Box string :=
  {| index_closed := closed_both;
     rows := tile_row <$> ["data/N40E020_agb.tif"; "data/N00E020_agb.tif"];
     frame_crs := "EPSG:4326" |}.

Definition every_step_none : Slice3 :=
  {| x_ := Slice 2%Q 4%Q 1%Q; y_ := Slice 2%Q 4%Q 1%Q;
     t_ := Slice 1262304000000000000 1270000000000000000 0 |}.

(** A transform that spreads the class indices over the grey values: the
    mask times 25. *)
Definition scale_mask (s : EnviroAtlas.Sample) : EnviroAtlas.Sample :=
  {| EnviroAtlas.image := EnviroAtlas.image s;
     EnviroAtlas.mask :=
       {| shape_hw := shape_hw (EnviroAtlas.mask s);
          channels := (fun channel : list Z => Z.mul 25 <$> channel)
                        <$> channels (EnviroAtlas.mask s) |};
     EnviroAtlas.crs := EnviroAtlas.crs s;
     EnviroAtlas.bounds := EnviroAtlas.bounds s |}.

(** [EnviroAtlas(root='data', layers=['naip', 'lc'], transforms=scale_mask)]. *)
Definition scaling_atlas : EnviroAtlas.t :=
  EnviroAtlas_with_transforms naip_lc_atlas (Some scale_mask).

(** The sample [scaling_atlas] returns for [inside_t1]. *)
Definition scaled_sample : EnviroAtlas.Sample :=
  {| EnviroAtlas.image := {| shape_hw := (1, 2)%nat; channels := [[200; 19]] |};
     EnviroAtlas.mask := {| shape_hw := (1, 2)%nat; channels := [[125; 0]] |};
     EnviroAtlas.crs := "EPSG:3857";
     EnviroAtlas.bounds := inside_t1 |}.


End Example2.

(** * Properties *)

Import pd shapely gpd np Host Query.

Ltac munfold :=
  unfold mbind, mret, M_bind, M_ret, result_bind, result_ret,
    raise, gets, modify, lift, reads in *.

(** Closes an equation between closed terms by evaluation. *)
Ltac vm_refl :=
  match goal with
  | |- ?l = ?r => exact (@eq_refl _ r <: l = r)
  end.

(** ** The selections of [__getitem__] *)

Lemma stride_from_1 {A} (l : list A) : stride_from 1 0 l = l.
Proof. induction l as [|a l IH]; simpl; [reflexivity | now rewrite IH]. Qed.

Lemma slice_step_1 {A} (l : list A) : slice_step l 1 = OK l.
Proof. unfold slice_step. simpl. now rewrite stride_from_1. Qed.

Lemma with_rows_rows {G D} (df : GeoDataFrame G D) : with_rows df (rows df) = df.
Proof. now destruct df. Qed.

Lemma Interval_ok (tmin tmax : Timestamp) :
  tmin <= tmax ->
  Interval_ tmin tmax = OK {| i_left := tmin; i_right := tmax; i_closed := closed_right |}.
Proof.
  intros Hle. unfold Interval_, Interval_closed.
  now rewrite (proj2 (Z.leb_le tmin tmax) Hle).
Qed.

Lemma Interval_inv (tmin tmax : Timestamp) (i : Interval) :
  Interval_ tmin tmax = OK i ->
  tmin <= tmax /\ i = {| i_left := tmin; i_right := tmax; i_closed := closed_right |}.
Proof.
  unfold Interval_, Interval_closed. destruct (Z.leb_spec tmin tmax); [|discriminate].
  intros [= <-]. now split.
Qed.

(** On an index closed on both sides the time filter tests
    [mint <= tmax] and [tmin < maxt], for a query with [tmin < tmax]. *)
Lemma overlaps_closed_both {G D} (df : GeoDataFrame G D) (r : Row G D) tmin tmax :
  index_closed df = closed_both ->
  tmin < tmax ->
  overlaps (row_interval df r)
    {| i_left := tmin; i_right := tmax; i_closed := closed_right |}
  = overlaps_left_open r tmin tmax.
Proof.
  intros Hc Hlt. unfold overlaps, is_empty, row_interval, overlaps_left_open.
  cbn [i_left i_right i_closed]. rewrite Hc.
  rewrite (proj2 (Z.eqb_neq tmin tmax)) by lia.
  cbn [is_closed_left is_closed_right andb negb]. now rewrite andb_false_r.
Qed.

Lemma select_index_step_1 {G D} `{Geometry G} (df : GeoDataFrame G D) (q : Slice3) :
  index_closed df = closed_both ->
  step (t_ q) = 1 ->
  start (t_ q) < stop (t_ q) ->
  select_index df q = OK (with_rows df (rows_left_open_overlap df q)).
Proof.
  intros Hc Hs Hlt. unfold select_index, iloc_step.
  rewrite (Interval_ok _ _ (Z.lt_le_incl _ _ Hlt)), Hs. munfold. rewrite slice_step_1.
  unfold cx, iloc_overlaps, with_rows, rows_left_open_overlap. cbn [rows index_closed frame_crs].
  do 2 f_equal. rewrite list_filter_filter. apply list_filter_iff. intros r.
  rewrite andb_true_iff, (overlaps_closed_both df r _ _ Hc Hlt). tauto.
Qed.

(** ** [__getitem__] as selection followed by the building of the sample *)

Section GetItem.
Context `{RasterIO}.

Lemma GlobBiomass_getitem_eq fs query (self : GlobBiomass.t) :
  GlobBiomass.__getitem__ fs query self =
    (self,
     index ← GlobBiomass_select self query;
     GlobBiomass_sample_of_index fs self query index).
Proof.
  unfold GlobBiomass.__getitem__, GlobBiomass_select, GlobBiomass_resolve, select_index, GlobBiomass_sample_of_index, iloc_step,
    apply_transforms.
  munfold. unfold or_raise.
  destruct (Interval_ _ _) as [interval|e]; [|reflexivity].
  destruct (slice_step _ _) as [rs|e]; [|reflexivity].
  destruct (empty _); [reflexivity|].
  destruct (RasterDataset_merge_files _ _ _ _) as [m|]; [|reflexivity]. cbv beta iota.
  destruct (RasterDataset_merge_files _ _ _ _) as [e|]; [|reflexivity]. cbv beta iota.
  destruct (torch_cat [m; e]); [|reflexivity].
  destruct (GlobBiomass.self_transforms self); reflexivity.
Qed.

Lemma EnviroAtlas_getitem_eq fs query (self : EnviroAtlas.t) :
  EnviroAtlas.__getitem__ fs query self =
    (self,
     index ← EnviroAtlas_select self query;
     EnviroAtlas_sample_of_index fs self query (EnviroAtlas_resolve self query) index).
Proof.
  unfold EnviroAtlas.__getitem__, EnviroAtlas_select, EnviroAtlas_resolve, query_box,
    select_index, EnviroAtlas_sample_of_index, iloc_step,
    apply_transforms.
  munfold. unfold or_raise.
  destruct (Interval_ _ _) as [interval|e]; [|reflexivity].
  destruct (slice_step _ _) as [rs|e]; [|reflexivity].
  destruct (empty _); [reflexivity|].
  destruct (Nat.eqb _ _); [|reflexivity].
  destruct (head _); [|reflexivity].
  destruct (EnviroAtlas.load_layers _ _ _ _ _ _ _ _ _) as [[im mk]|]; [|reflexivity].
  cbn [fst snd].
  destruct (concatenate im); [|reflexivity].
  destruct (concatenate mk); [|reflexivity].
  destruct (EnviroAtlas.self_transforms self); reflexivity.
Qed.

End GetItem.
(** ** Errors of the parts *)

Lemma empty_false {G D} (df : GeoDataFrame G D) : rows df <> [] -> empty df = false.
Proof. unfold empty. destruct (rows df); [congruence | reflexivity]. Qed.

Lemma empty_true_iff {G D} (df : GeoDataFrame G D) : empty df = true <-> rows df = [].
Proof. unfold empty. destruct (rows df); split; congruence. Qed.

Lemma mapM_raise {A B} (f : A -> result B) (l : list A) (e : exn) :
  mapM f l = Raise e -> exists a, a ∈ l /\ f a = Raise e.
Proof.
  induction l as [|a l IH]; simpl; [discriminate|].
  munfold. destruct (f a) as [b|e'] eqn:Hfa.
  - destruct (mapM f l) as [k|e'']; [discriminate|].
    intros [= <-]. destruct (IH eq_refl) as (a' & Hin & Ha').
    exists a'. split; [now right | assumption].
  - intros [= <-]. exists a. split; [left | assumption].
Qed.

Lemma mapM_ok {A B} (f : A -> result B) (l : list A) (k : list B) :
  mapM f l = OK k -> Forall2 (fun a b => f a = OK b) l k.
Proof.
  revert k. induction l as [|a l IH]; simpl; intros k.
  - intros [= <-]. constructor.
  - munfold. destruct (f a) as [b|] eqn:Hfa; [|discriminate].
    destruct (mapM f l) as [k'|]; [|discriminate].
    intros [= <-]. constructor; [assumption | now apply IH].
Qed.

Lemma item_raise table i e : item table i = Raise e -> from_library e.
Proof.
  unfold item. destruct (_ && _); [destruct (table !! _)|]; intros [= <-]; reflexivity.
Qed.

Lemma getitem_array_raise table d e : getitem_array table d = Raise e -> from_library e.
Proof.
  unfold getitem_array. munfold.
  destruct (mapM _ _) as [k|e'] eqn:Hm; [discriminate|]. intros [= <-].
  apply mapM_raise in Hm as (chan & _ & Hm).
  apply mapM_raise in Hm as (i & _ & Hi). eapply item_raise, Hi.
Qed.

Lemma concatenate_raise {A} (arrs : list (ndarray A)) e :
  concatenate arrs = Raise e -> from_library e.
Proof.
  unfold concatenate. destruct arrs; [|destruct (forallb _ _)]; intros [= <-]; exact I.
Qed.

Section LoadLayersErrors.
Context `{RasterIO}.

Lemma load_layers_raise fs root pai filenames qb layers qgt im mk e :
  EnviroAtlas.load_layers fs root pai filenames qb layers qgt im mk = Raise e ->
  from_library e.
Proof.
  revert qgt im mk. induction layers as [|layer rest IH]; intros qgt im mk; simpl.
  - discriminate.
  - munfold. unfold getitem_dict at 1.
    destruct (filenames !! layer) as [fn|]; [|intros [= <-]; exact I].
    destruct (rasterio_open _ _) as [f|]; simpl; [|intros [= <-]; exact I].
    set (geom := match qgt with None => _ | Some g => _ end).
    destruct geom as [g|e'] eqn:Hg.
    + destruct (rasterio_mask f g) as [d|]; simpl; [|intros [= <-]; exact I].
      repeat match goal with
             | |- context [if ?b then _ else _] => destruct b
             end; try apply IH.
      destruct (getitem_array _ d) as [d'|e'] eqn:Hd; [apply IH|].
      intros [= <-]. eapply getitem_array_raise, Hd.
    + intros [= <-]. subst geom. destruct qgt; [discriminate|].
      unfold getitem_dict in Hg. destruct (EnviroAtlas.p_transformers !! _); [discriminate|].
      injection Hg as <-. exact I.
Qed.
End LoadLayersErrors.

(** ** Which queries are served *)

Section Served.
Context `{RasterIO}.

(** C1, as amended.  A query that selects at least one tile is served by
    [GlobBiomass.__getitem__] whatever the number of tiles: the paths of
    all selected tiles go to [_merge_files], and when the two merges and
    the concatenation succeed the sample holds mask, CRS and bounds.
    [EnviroAtlas.__getitem__] serves a query that selects exactly one tile:
    when the layers of that tile load and concatenate, the sample holds
    image, mask, CRS and bounds.  A query that selects several tiles makes
    it raise [IndexError]: it merges no tiles. *)
Theorem getitem_serves_selected_tiles :
  (forall fs query (self : GlobBiomass.t) index m e c,
      GlobBiomass_select self query = OK index ->
      rows index <> [] ->
      RasterDataset_merge_files fs (GlobBiomass.self_index self) (data <$> rows index) query
      = Some m ->
      RasterDataset_merge_files fs (GlobBiomass.self_index self)
        (str_replace ".tif" "_err.tif" <$> (data <$> rows index)) query
      = Some e ->
      torch_cat [m; e] = OK c ->
      GlobBiomass.__getitem__ fs query self
      = (self,
         OK (apply_transforms (GlobBiomass.self_transforms self)
               {| GlobBiomass.mask := c;
                  GlobBiomass.crs := GeoDataset_crs _ (GlobBiomass.self_index self);
                  GlobBiomass.bounds := query |})))
  /\ (forall fs query (self : EnviroAtlas.t) index row im mk image mask,
      EnviroAtlas_select self query = OK index ->
      rows index = [row] ->
      EnviroAtlas.load_layers fs (EnviroAtlas.self_root self)
        (EnviroAtlas.self_prior_as_input self) (data row)
        (query_box (EnviroAtlas_resolve self query))
        (EnviroAtlas.self_layers self) None [] []
      = OK (im, mk) ->
      concatenate im = OK image ->
      concatenate mk = OK mask ->
      EnviroAtlas.__getitem__ fs query self
      = (self,
         OK (apply_transforms (EnviroAtlas.self_transforms self)
               {| EnviroAtlas.image := image;
                  EnviroAtlas.mask := mask;
                  EnviroAtlas.crs := GeoDataset_crs _ (EnviroAtlas.self_index self);
                  EnviroAtlas.bounds := query |})))
  /\ (forall fs query (self : EnviroAtlas.t) index,
      EnviroAtlas_select self query = OK index ->
      (1 < length (rows index))%nat ->
      EnviroAtlas.__getitem__ fs query self
      = (self, Raise (IndexError "query spans multiple tiles which is not valid"))).
Proof.
  split; [|split].
  - intros fs query self index m e c Hsel Hne Hm He Hc.
    rewrite GlobBiomass_getitem_eq, Hsel. munfold.
    unfold GlobBiomass_sample_of_index. rewrite (empty_false _ Hne), Hm, He.
    munfold. cbn [or_raise]. now rewrite Hc.
  - intros fs query self index row im mk image mask Hsel Hrow Hload Him Hmk.
    rewrite EnviroAtlas_getitem_eq, Hsel. munfold.
    unfold EnviroAtlas_sample_of_index, empty, len. rewrite Hrow. cbn [length Nat.eqb head].
    munfold. rewrite Hload. cbn [fst snd]. now rewrite Him, Hmk.
  - intros fs query self index Hsel Hlen.
    rewrite EnviroAtlas_getitem_eq, Hsel. munfold.
    unfold EnviroAtlas_sample_of_index, empty, len.
    destruct (rows index) as [|r1 [|r2 rs]]; simpl in Hlen; try lia. reflexivity.
Qed.

(** C2, as amended.  With a temporal step of 1, a time range with
    [tmin < tmax] and an index closed on both sides, the tiles
    [__getitem__] builds the sample from are the rows with [mint <= tmax]
    and [tmin < maxt] (the query's interval [pd.Interval(tmin, tmax)] is
    open on the left) whose geometry intersects the box of the query, in
    the order of the index. *)
Theorem getitem_uses_overlapping_intersecting_rows :
  (forall fs query (self : GlobBiomass.t),
      index_closed (GlobBiomass.self_index self) = closed_both ->
      step (t_ (GlobBiomass_resolve self query)) = 1 ->
      start (t_ (GlobBiomass_resolve self query)) < stop (t_ (GlobBiomass_resolve self query)) ->
      GlobBiomass.__getitem__ fs query self
      = (self,
         GlobBiomass_sample_of_index fs self query
           (with_rows (GlobBiomass.self_index self)
              (rows_left_open_overlap (GlobBiomass.self_index self)
                 (GlobBiomass_resolve self query)))))
  /\ (forall fs query (self : EnviroAtlas.t),
      index_closed (EnviroAtlas.self_index self) = closed_both ->
      step (t_ (EnviroAtlas_resolve self query)) = 1 ->
      start (t_ (EnviroAtlas_resolve self query)) < stop (t_ (EnviroAtlas_resolve self query)) ->
      EnviroAtlas.__getitem__ fs query self
      = (self,
         EnviroAtlas_sample_of_index fs self query (EnviroAtlas_resolve self query)
           (with_rows (EnviroAtlas.self_index self)
              (rows_left_open_overlap (EnviroAtlas.self_index self)
                 (EnviroAtlas_resolve self query))))).
Proof.
  split; intros fs query self Hc Hs Hlt.
  - rewrite GlobBiomass_getitem_eq. unfold GlobBiomass_select.
    now rewrite (select_index_step_1 _ _ Hc Hs Hlt).
  - rewrite EnviroAtlas_getitem_eq. unfold EnviroAtlas_select.
    now rewrite (select_index_step_1 _ _ Hc Hs Hlt).
Qed.

Lemma GlobBiomass_sample_of_index_IndexError fs self query index :
  is_IndexError (GlobBiomass_sample_of_index fs self query index) = true
  <-> rows index = [].
Proof.
  unfold GlobBiomass_sample_of_index. rewrite <- empty_true_iff.
  destruct (empty index); [easy|]. munfold.
  destruct (RasterDataset_merge_files _ _ _ _); [|easy]. cbn [or_raise].
  destruct (RasterDataset_merge_files _ _ _ _) as [e|]; [|easy]. cbn [or_raise].
  unfold torch_cat. destruct (forallb _ _); easy.
Qed.

Lemma select_index_not_IndexError {G D} `{Geometry G} (df : GeoDataFrame G D) q e :
  select_index df q = Raise e -> exists msg, e = ValueError msg.
Proof.
  unfold select_index, Interval_, Interval_closed, iloc_step, slice_step. munfold.
  destruct (_ <=? _); [|intros [= <-]; eauto].
  destruct (_ =? _); [intros [= <-]; eauto|].
  destruct (_ <? _); discriminate.
Qed.

Lemma EnviroAtlas_sample_of_index_cases fs self query q index :
  match rows index with
  | [] => EnviroAtlas_sample_of_index fs self query q index
          = Raise (IndexError "query not found in index")
  | [_] => match EnviroAtlas_sample_of_index fs self query q index with
           | OK _ => True
           | Raise e => from_library e
           end
  | _ => EnviroAtlas_sample_of_index fs self query q index
         = Raise (IndexError "query spans multiple tiles which is not valid")
  end.
Proof.
  unfold EnviroAtlas_sample_of_index, empty, len.
  destruct (rows index) as [|row [|row' rest]]; try reflexivity.
  cbn [length Nat.eqb head]. munfold.
  destruct (EnviroAtlas.load_layers _ _ _ _ _ _ _ _ _) as [[im mk]|e] eqn:Hl.
  - cbn [fst snd].
    destruct (concatenate im) eqn:Him; [|eapply concatenate_raise, Him].
    destruct (concatenate mk) eqn:Hmk; [exact I|eapply concatenate_raise, Hmk].
  - eapply load_layers_raise, Hl.
Qed.

(** C3, as amended.  [GlobBiomass.__getitem__] raises [IndexError] exactly
    when the selection succeeds and is empty.  [EnviroAtlas.__getitem__]
    raises its "not found" [IndexError] exactly when the selection succeeds
    and is empty, and its "spans multiple tiles" [IndexError] exactly when
    the selection holds more than one row.  Neither returns a sample for a
    query that selects nothing: a sample of GlobBiomass comes from a
    non-empty selection, one of EnviroAtlas from a selection of exactly one
    row. *)
Theorem getitem_IndexError_iff :
  (forall fs query (self : GlobBiomass.t),
      (is_IndexError (GlobBiomass.__getitem__ fs query self).2 = true
       <-> exists index, GlobBiomass_select self query = OK index /\ rows index = [])
      /\ (forall s, (GlobBiomass.__getitem__ fs query self).2 = OK s ->
            exists index, GlobBiomass_select self query = OK index /\ rows index <> []))
  /\ (forall fs query (self : EnviroAtlas.t),
      ((EnviroAtlas.__getitem__ fs query self).2
       = Raise (IndexError "query not found in index")
       <-> exists index, EnviroAtlas_select self query = OK index /\ rows index = [])
      /\ ((EnviroAtlas.__getitem__ fs query self).2
          = Raise (IndexError "query spans multiple tiles which is not valid")
          <-> exists index, EnviroAtlas_select self query = OK index
                            /\ (1 < length (rows index))%nat)
      /\ (forall s, (EnviroAtlas.__getitem__ fs query self).2 = OK s ->
            exists index row, EnviroAtlas_select self query = OK index
                              /\ rows index = [row])).
Proof.
  split; intros fs query self.
  - rewrite GlobBiomass_getitem_eq. cbn [snd]. munfold.
    destruct (GlobBiomass_select self query) as [index|e] eqn:Hsel.
    + split.
      * rewrite GlobBiomass_sample_of_index_IndexError. split.
        -- intros Hr. now exists index.
        -- now intros (index' & [= <-] & Hr).
      * intros s Hs. exists index. split; [reflexivity|].
        intros Hr. apply (proj2 (GlobBiomass_sample_of_index_IndexError fs self query index)) in Hr.
        rewrite Hs in Hr. discriminate.
    + split; [|discriminate]. split.
      * apply select_index_not_IndexError in Hsel as [msg ->]. discriminate.
      * now intros (index & [=] & _).
  - rewrite EnviroAtlas_getitem_eq. cbn [snd]. munfold.
    destruct (EnviroAtlas_select self query) as [index|e] eqn:Hsel.
    + pose proof (EnviroAtlas_sample_of_index_cases fs self query
                    (EnviroAtlas_resolve self query) index) as Hc.
      destruct (rows index) as [|row [|row' rest]] eqn:Hrows.
      * rewrite Hc. repeat split.
        -- intros _. now exists index.
        -- discriminate.
        -- intros (index' & [= <-] & Hlen). rewrite Hrows in Hlen. simpl in Hlen. lia.
        -- discriminate.
      * destruct (EnviroAtlas_sample_of_index _ _ _ _ _) as [s|e].
        -- repeat split; try discriminate.
           ++ intros (index' & [= <-] & Hr). now rewrite Hrows in Hr.
           ++ intros (index' & [= <-] & Hlen). rewrite Hrows in Hlen. simpl in Hlen. lia.
           ++ intros s' _. now exists index, row.
        -- repeat split; try discriminate.
           ++ intros [= ->]. discriminate Hc.
           ++ intros (index' & [= <-] & Hr). now rewrite Hrows in Hr.
           ++ intros [= ->]. discriminate Hc.
           ++ intros (index' & [= <-] & Hlen). rewrite Hrows in Hlen. simpl in Hlen. lia.
      * rewrite Hc. repeat split.
        -- discriminate.
        -- intros (index' & [= <-] & Hr). now rewrite Hrows in Hr.
        -- intros _. exists index. split; [reflexivity|]. rewrite Hrows. simpl. lia.
        -- discriminate.
    + apply select_index_not_IndexError in Hsel as [msg ->]. repeat split; try discriminate.
      * now intros (index & [=] & _).
      * now intros (index & [=] & _).
Qed.

End Served.

(** ** The loop over the layers *)

Section Layers.
Context `{RasterIO}.

(** Once [query_geom_transformed] is set, every layer is cropped to it;
    the image and mask lists grow by the data of their layers, in the order
    of [layers]. *)
Lemma load_layers_with_geom fs root pai filenames qb layers geom im mk im' mk' :
  EnviroAtlas.load_layers fs root pai filenames qb layers (Some geom) im mk = OK (im', mk') ->
  exists ims mks,
    im' = im ++ ims /\ mk' = mk ++ mks
    /\ Forall2 (fun layer d => crop_layer fs root filenames geom layer = OK d)
         (image_layers pai layers) ims
    /\ Forall2 (fun layer d => exists raw, crop_layer fs root filenames geom layer = OK raw
                                           /\ mask_data layer raw = OK d)
         (mask_layers pai layers) mks.
Proof.
  revert im mk. induction layers as [|layer rest IH]; intros im mk; simpl.
  - intros [= <- <-]. exists [], []. rewrite !app_nil_r. repeat split; constructor.
  - munfold. unfold image_layers, mask_layers, goes_to_image, goes_to_mask.
    rewrite !filter_cons.
    destruct (getitem_dict filenames layer) as [fn|] eqn:Hfn; [|discriminate].
    destruct (rasterio_open _ _) as [f|] eqn:Hf; [|discriminate]. cbn [or_raise].
    destruct (rasterio_mask f geom) as [d|] eqn:Hd; [|discriminate]. cbn [or_raise].
    assert (Hcrop : crop_layer fs root filenames geom layer = OK d).
    { unfold crop_layer. munfold. rewrite Hfn, Hf. cbn [or_raise]. now rewrite Hd. }
    destruct (str_in layer ["naip"; "buildings"; "roads"; "waterways"; "waterbodies"; "water"])
      eqn:Hi; cbn [orb negb andb].
    { intros Hl. apply IH in Hl as (ims & mks & -> & -> & Hims & Hmks).
      rewrite decide_True by reflexivity. rewrite decide_False by discriminate.
      exists (d :: ims), mks. rewrite <- app_assoc. repeat split; [|assumption].
      now constructor. }
    destruct (str_in layer ["prior"; "prior_no_osm_no_buildings"]) eqn:Hp; cbn [orb negb andb].
    { destruct pai; cbn [orb negb andb]; intros Hl;
        apply IH in Hl as (ims & mks & -> & -> & Hims & Hmks).
      - rewrite decide_True by reflexivity. rewrite decide_False by discriminate.
        exists (d :: ims), mks. rewrite <- app_assoc. repeat split; [|assumption].
        now constructor.
      - rewrite decide_False by discriminate. rewrite decide_True by reflexivity.
        exists ims, (d :: mks). rewrite <- app_assoc. repeat split; [assumption|].
        constructor; [|assumption]. exists d. split; [assumption|].
        unfold mask_data. destruct (str_in layer ["lc"]) eqn:Hlc; [|reflexivity].
        unfold str_in in Hlc, Hp. apply bool_decide_eq_true in Hlc.
        apply list_elem_of_singleton in Hlc as ->. vm_compute in Hp. discriminate Hp. }
    destruct (str_in layer ["lc"]) eqn:Hlc.
    { destruct (getitem_array _ d) as [d'|] eqn:Hd'; [|discriminate].
      intros Hl. apply IH in Hl as (ims & mks & -> & -> & Hims & Hmks).
      rewrite decide_False by discriminate. rewrite decide_True by reflexivity.
      exists ims, (d' :: mks). rewrite <- app_assoc. repeat split; [assumption|].
      constructor; [|assumption]. exists d. split; [assumption|].
      unfold mask_data. now rewrite Hlc. }
    intros Hl. apply IH in Hl as (ims & mks & -> & -> & Hims & Hmks).
    rewrite !decide_False by discriminate. now exists ims, mks.
Qed.

(** The first layer sets [query_geom_transformed]: the query box in the
    CRS of that layer's raster. *)
Lemma load_layers_first fs root pai filenames qb layer rest im mk r :
  EnviroAtlas.load_layers fs root pai filenames qb (layer :: rest) None im mk = OK r ->
  exists geom,
    box_in_crs_of fs root filenames qb layer = OK geom
    /\ EnviroAtlas.load_layers fs root pai filenames qb (layer :: rest) (Some geom) im mk
       = OK r.
Proof.
  simpl. unfold box_in_crs_of. munfold.
  destruct (getitem_dict filenames layer) as [fn|]; [|discriminate].
  destruct (rasterio_open _ _) as [f|]; [|discriminate]. cbn [or_raise].
  destruct (getitem_dict EnviroAtlas.p_transformers _) as [tr|]; [|discriminate].
  intros Hl. eexists. split; [reflexivity | exact Hl].
Qed.

Lemma concatenate_channels {A} (arrs : list (ndarray A)) (a : ndarray A) :
  concatenate arrs = OK a -> channels a = concat (channels <$> arrs).
Proof.
  unfold concatenate. destruct arrs as [|a0 rest]; [discriminate|].
  destruct (forallb _ _); [|discriminate]. now intros [= <-].
Qed.

(** What a sample of EnviroAtlas is made of. *)
Lemma EnviroAtlas_getitem_inv fs query (self : EnviroAtlas.t) s :
  (EnviroAtlas.__getitem__ fs query self).2 = OK s ->
  exists index row layer rest geom ims mks image mask,
    EnviroAtlas_select self query = OK index
    /\ rows index = [row]
    /\ EnviroAtlas.self_layers self = layer :: rest
    /\ box_in_crs_of fs (EnviroAtlas.self_root self) (data row)
         (query_box (EnviroAtlas_resolve self query)) layer = OK geom
    /\ Forall2 (fun layer d =>
                  crop_layer fs (EnviroAtlas.self_root self) (data row) geom layer = OK d)
         (image_layers (EnviroAtlas.self_prior_as_input self) (EnviroAtlas.self_layers self))
         ims
    /\ Forall2 (fun layer d =>
                  exists raw,
                    crop_layer fs (EnviroAtlas.self_root self) (data row) geom layer = OK raw
                    /\ mask_data layer raw = OK d)
         (mask_layers (EnviroAtlas.self_prior_as_input self) (EnviroAtlas.self_layers self))
         mks
    /\ concatenate ims = OK image
    /\ concatenate mks = OK mask
    /\ s = apply_transforms (EnviroAtlas.self_transforms self)
             {| EnviroAtlas.image := image;
                EnviroAtlas.mask := mask;
                EnviroAtlas.crs := GeoDataset_crs _ (EnviroAtlas.self_index self);
                EnviroAtlas.bounds := query |}.
Proof.
  rewrite EnviroAtlas_getitem_eq. cbn [snd]. munfold.
  destruct (EnviroAtlas_select self query) as [index|] eqn:Hsel; [|discriminate].
  unfold EnviroAtlas_sample_of_index, empty, len.
  destruct (rows index) as [|row [|row' rows']] eqn:Hrows; try discriminate.
  cbn [length Nat.eqb head]. munfold.
  destruct (EnviroAtlas.load_layers _ _ _ _ _ _ _ _ _) as [[im mk]|] eqn:Hl; [|discriminate].
  cbn [fst snd].
  destruct (concatenate im) as [image|] eqn:Him; [|discriminate].
  destruct (concatenate mk) as [mask|] eqn:Hmk; [|discriminate].
  intros [= <-].
  destruct (EnviroAtlas.self_layers self) as [|layer rest] eqn:Hlayers.
  { simpl in Hl. injection Hl as <- <-. discriminate Him. }
  apply load_layers_first in Hl as (geom & Hgeom & Hl).
  apply load_layers_with_geom in Hl as (ims & mks & -> & -> & Hims & Hmks).
  exists index, row, layer, rest, geom, ims, mks, image, mask.
  repeat split; assumption.
Qed.

End Layers.

(** ** Cropping, remapping, stitching *)

Lemma idx_map_range :
  Forall (fun v => 0 <= v <= 10) EnviroAtlas.raw_enviroatlas_to_idx_map.
Proof. unfold EnviroAtlas.raw_enviroatlas_to_idx_map. repeat constructor; lia. Qed.

Lemma item_idx_map_range i v :
  item EnviroAtlas.raw_enviroatlas_to_idx_map i = OK v -> 0 <= v <= 10.
Proof.
  unfold item. destruct (_ && _); [|discriminate].
  destruct (_ !! _) as [v'|] eqn:Hv; [|discriminate]. intros [= <-].
  apply list_elem_of_lookup_2 in Hv.
  exact (proj1 (Forall_forall _ _) idx_map_range _ Hv).
Qed.

(** Every pixel an array has after going through the table is a class index. *)
Lemma getitem_array_idx_map_range raw d :
  getitem_array EnviroAtlas.raw_enviroatlas_to_idx_map raw = OK d ->
  Forall (Forall (fun v => 0 <= v <= 10)) (channels d).
Proof.
  unfold getitem_array. munfold.
  destruct (mapM _ _) as [chans|] eqn:Hm; [|discriminate]. intros [= <-]. cbn [channels].
  apply mapM_ok in Hm. induction Hm as [|chan chan' ? ? Hc _ IH]; constructor; [|exact IH].
  apply mapM_ok in Hc. induction Hc as [|i v ? ? Hi _ IH']; constructor; [|exact IH'].
  eapply item_idx_map_range, Hi.
Qed.

(** Indices inside the table are remapped, none is refused. *)
Lemma item_idx_map_total i :
  0 <= i < 93 -> exists v, item EnviroAtlas.raw_enviroatlas_to_idx_map i = OK v.
Proof.
  intros Hi. unfold item.
  replace (Z.of_nat (length EnviroAtlas.raw_enviroatlas_to_idx_map)) with 93 by reflexivity.
  rewrite (proj2 (Z.leb_le _ _)) by lia. rewrite (proj2 (Z.ltb_lt i 93)) by lia.
  rewrite (proj2 (Z.ltb_ge i 0)) by lia. cbn [andb].
  destruct (EnviroAtlas.raw_enviroatlas_to_idx_map !! Z.to_nat i) as [v|] eqn:Hv; [eauto|].
  apply lookup_ge_None in Hv.
  replace (length EnviroAtlas.raw_enviroatlas_to_idx_map) with 93%nat in Hv by reflexivity.
  lia.
Qed.

Section Stitching.
Context `{RasterIO}.

(** C4, as amended.  A sample of EnviroAtlas comes from one tile and at
    least one layer.  The query box is transformed once, into the CRS of
    the raster of the first requested layer, by the transformer
    [p_transformers] holds for that CRS; the raster of every layer that
    enters the image or the mask is cropped to the envelope of that one
    box, whatever the CRS of its own file. *)
Theorem layers_cropped_to_box_of_first_layer fs query (self : EnviroAtlas.t) s :
  (EnviroAtlas.__getitem__ fs query self).2 = OK s ->
  exists index row layer rest geom,
    EnviroAtlas_select self query = OK index
    /\ rows index = [row]
    /\ EnviroAtlas.self_layers self = layer :: rest
    /\ box_in_crs_of fs (EnviroAtlas.self_root self) (data row)
         (query_box (EnviroAtlas_resolve self query)) layer = OK geom
    /\ Forall (fun layer =>
                 exists d, crop_layer fs (EnviroAtlas.self_root self) (data row) geom layer
                           = OK d)
         (image_layers (EnviroAtlas.self_prior_as_input self) (EnviroAtlas.self_layers self)
          ++ mask_layers (EnviroAtlas.self_prior_as_input self)
               (EnviroAtlas.self_layers self))
    /\ exists ims mks image mask,
        Forall2 (fun layer d =>
                   crop_layer fs (EnviroAtlas.self_root self) (data row) geom layer = OK d)
          (image_layers (EnviroAtlas.self_prior_as_input self)
             (EnviroAtlas.self_layers self)) ims
        /\ Forall2 (fun layer d =>
                      exists raw,
                        crop_layer fs (EnviroAtlas.self_root self) (data row) geom layer
                        = OK raw
                        /\ mask_data layer raw = OK d)
             (mask_layers (EnviroAtlas.self_prior_as_input self)
                (EnviroAtlas.self_layers self)) mks
        /\ concatenate ims = OK image
        /\ concatenate mks = OK mask
        /\ s = apply_transforms (EnviroAtlas.self_transforms self)
                 {| EnviroAtlas.image := image;
                    EnviroAtlas.mask := mask;
                    EnviroAtlas.crs := GeoDataset_crs _ (EnviroAtlas.self_index self);
                    EnviroAtlas.bounds := query |}.
Proof.
  intros Hs.
  apply EnviroAtlas_getitem_inv in Hs
    as (index & row & layer & rest & geom & ims & mks & image & mask
        & Hsel & Hrows & Hlayers & Hgeom & Hims & Hmks & Him & Hmk & ->).
  exists index, row, layer, rest, geom. repeat split; try assumption.
  - apply Forall_app. split.
    + clear -Hims. induction Hims; constructor; eauto.
    + clear -Hmks. induction Hmks as [|? ? ? ? (raw & Hraw & _)]; constructor; eauto.
  - exists ims, mks, image, mask. repeat split; assumption.
Qed.

(** C10, as amended.  The mask [__getitem__] builds is the concatenation
    of one part per mask layer, in the order requested; each part comes
    from the crop of the layer's raster of the selected tile, and the part
    of ['lc'] is that crop indexed through [raw_enviroatlas_to_idx_map]:
    each of its pixels lies in 0..10.  ['lc'] is a mask layer whenever it is
    requested.  The sample returned is that mask with the image of the crops
    of the image layers, handed to [transforms] when they are set: its mask
    is the mask built when they are not. *)
Theorem lc_part_of_mask_is_remapped fs query (self : EnviroAtlas.t) s :
  (EnviroAtlas.__getitem__ fs query self).2 = OK s ->
  exists index row layer rest geom ims parts image mask,
    EnviroAtlas_select self query = OK index
    /\ rows index = [row]
    /\ EnviroAtlas.self_layers self = layer :: rest
    /\ box_in_crs_of fs (EnviroAtlas.self_root self) (data row)
         (query_box (EnviroAtlas_resolve self query)) layer = OK geom
    /\ Forall2 (fun layer d =>
                  crop_layer fs (EnviroAtlas.self_root self) (data row) geom layer = OK d)
         (image_layers (EnviroAtlas.self_prior_as_input self) (EnviroAtlas.self_layers self))
         ims
    /\ concatenate ims = OK image
    /\ ("lc"%string ∈ EnviroAtlas.self_layers self
        <-> "lc"%string ∈ mask_layers (EnviroAtlas.self_prior_as_input self)
                            (EnviroAtlas.self_layers self))
    /\ Forall2 (fun layer part =>
                  exists raw,
                    crop_layer fs (EnviroAtlas.self_root self) (data row) geom layer = OK raw
                    /\ mask_data layer raw = OK part
                    /\ (layer = "lc"%string ->
                        getitem_array EnviroAtlas.raw_enviroatlas_to_idx_map raw = OK part
                        /\ Forall (Forall (fun v => 0 <= v <= 10)) (channels part)))
         (mask_layers (EnviroAtlas.self_prior_as_input self) (EnviroAtlas.self_layers self))
         parts
    /\ concatenate parts = OK mask
    /\ channels mask = concat (channels <$> parts)
    /\ s = apply_transforms (EnviroAtlas.self_transforms self)
             {| EnviroAtlas.image := image;
                EnviroAtlas.mask := mask;
                EnviroAtlas.crs := GeoDataset_crs _ (EnviroAtlas.self_index self);
                EnviroAtlas.bounds := query |}
    /\ (EnviroAtlas.self_transforms self = None -> EnviroAtlas.mask s = mask).
Proof.
  intros Hs.
  apply EnviroAtlas_getitem_inv in Hs
    as (index & row & layer & rest & geom & ims & mks & image & mask
        & Hsel & Hrows & Hlayers & Hgeom & Hims & Hmks & Him & Hmk & ->).
  exists index, row, layer, rest, geom, ims, mks, image, mask.
  split; [exact Hsel|]. split; [exact Hrows|]. split; [exact Hlayers|].
  split; [exact Hgeom|]. split; [exact Hims|]. split; [exact Him|]. split.
  { unfold mask_layers. rewrite list_elem_of_filter. split; [|tauto].
    intros Hin. split; [|exact Hin]. now destruct (EnviroAtlas.self_prior_as_input self). }
  split.
  { clear -Hmks. induction Hmks as [|l d ? ? (raw & Hraw & Hd) _ IH]; constructor; [|exact IH].
    exists raw. split; [exact Hraw|]. split; [exact Hd|]. intros ->.
    unfold mask_data in Hd.
    assert (Hlc : str_in "lc" ["lc"] = true) by (vm_compute; reflexivity).
    rewrite Hlc in Hd. split; [exact Hd|].
    eapply getitem_array_idx_map_range, Hd. }
  split; [exact Hmk|]. split; [now apply concatenate_channels|].
  split; [reflexivity|]. now intros ->.
Qed.


(** The mask of GlobBiomass: the channels of the estimates, then those of
    the standard errors read from the [_err.tif] files. *)
Lemma GlobBiomass_mask_estimate_then_error fs query (self : GlobBiomass.t) s :
  (GlobBiomass.__getitem__ fs query self).2 = OK s ->
  GlobBiomass.self_transforms self = None ->
  exists index m e,
    GlobBiomass_select self query = OK index
    /\ RasterDataset_merge_files fs (GlobBiomass.self_index self) (data <$> rows index) query
       = Some m
    /\ RasterDataset_merge_files fs (GlobBiomass.self_index self)
         (str_replace ".tif" "_err.tif" <$> (data <$> rows index)) query
       = Some e
    /\ channels (GlobBiomass.mask s) = channels m ++ channels e.
Proof.
  rewrite GlobBiomass_getitem_eq. cbn [snd]. munfold. intros Hs Htr.
  destruct (GlobBiomass_select self query) as [index|]; [|discriminate].
  unfold GlobBiomass_sample_of_index in Hs. munfold.
  destruct (empty index); [discriminate|].
  destruct (RasterDataset_merge_files _ _ (data <$> rows index) _) as [m|] eqn:Hm;
    [|discriminate].
  cbn [or_raise] in Hs.
  destruct (RasterDataset_merge_files _ _ (str_replace _ _ <$> _) _) as [e|] eqn:He;
    [|discriminate].
  cbn [or_raise] in Hs. unfold torch_cat in Hs.
  destruct (forallb _ _); [|discriminate]. injection Hs as <-.
  exists index, m, e. rewrite Htr. cbn. rewrite app_nil_r. auto.
Qed.

(** C8.  [__getitem__] leaves the instance as it found it, whether it
    returns or raises; a sample returned without transforms carries the
    CRS of the dataset and the query as the caller gave it. *)
Theorem getitem_frame :
  (forall fs query (self : GlobBiomass.t),
      (GlobBiomass.__getitem__ fs query self).1 = self
      /\ (forall s,
            (GlobBiomass.__getitem__ fs query self).2 = OK s ->
            GlobBiomass.self_transforms self = None ->
            GlobBiomass.crs s = GeoDataset_crs _ (GlobBiomass.self_index self)
            /\ GlobBiomass.bounds s = query))
  /\ (forall fs query (self : EnviroAtlas.t),
      (EnviroAtlas.__getitem__ fs query self).1 = self
      /\ (forall s,
            (EnviroAtlas.__getitem__ fs query self).2 = OK s ->
            EnviroAtlas.self_transforms self = None ->
            EnviroAtlas.crs s = GeoDataset_crs _ (EnviroAtlas.self_index self)
            /\ EnviroAtlas.bounds s = query)).
Proof.
  split; intros fs query self.
  - split; [now rewrite GlobBiomass_getitem_eq|].
    rewrite GlobBiomass_getitem_eq. cbn [snd]. munfold. intros s Hs Htr.
    destruct (GlobBiomass_select self query) as [index|]; [|discriminate].
    unfold GlobBiomass_sample_of_index in Hs. munfold.
    destruct (empty index); [discriminate|].
    destruct (or_raise _ _); [|discriminate].
    destruct (or_raise _ _); [|discriminate].
    destruct (torch_cat _); [|discriminate].
    injection Hs as <-. rewrite Htr. now split.
  - split; [now rewrite EnviroAtlas_getitem_eq|].
    intros s Hs Htr.
    apply EnviroAtlas_getitem_inv in Hs
      as (index & row & layer & rest & geom & ims & mks & image & mask
          & _ & _ & _ & _ & _ & _ & _ & _ & ->).
    rewrite Htr. now split.
Qed.

End Stitching.

(** ** Construction: the index of EnviroAtlas, verification, measurements *)

Section Construction.
Context `{RasterIO}.

Lemma index_rows_maximal splits features :
  Forall (fun r => mint r = Timestamp_min /\ maxt r = Timestamp_max)
    (EnviroAtlas.index_rows splits Timestamp_min Timestamp_max features).
Proof.
  induction features as [|row rest IH]; simpl; [constructor|].
  destruct (str_in _ _); [constructor; [now split | exact IH] | exact IH].
Qed.

(** A tile is in the index exactly when its feature belongs to one of the
    requested splits. *)
Lemma index_rows_geometries splits mint maxt features :
  geometry <$> EnviroAtlas.index_rows splits mint maxt features
  = f_geometry <$> filter (fun row => str_in (f_split row) splits = true) features.
Proof.
  induction features as [|row rest IH]; [reflexivity|].
  cbn [EnviroAtlas.index_rows]. rewrite filter_cons. destruct (str_in _ _) eqn:Hs.
  - rewrite decide_True by reflexivity. rewrite !fmap_cons, IH. reflexivity.
  - rewrite decide_False by discriminate. exact IH.
Qed.

Lemma EnviroAtlas_init_index root splits layers transforms pai cache download checksum
    fs fs' self :
  EnviroAtlas.__init__ root splits layers transforms pai cache download checksum fs
  = (fs', OK self) ->
  exists features,
    fiona_open fs' (EnviroAtlas.os_path_join3 root "enviroatlas_lotp" "spatial_index.geojson")
    = Some features
    /\ EnviroAtlas.self_index self
       = {| index_closed := closed_both;
            rows := EnviroAtlas.index_rows splits Timestamp_min Timestamp_max features;
            frame_crs := "EPSG:3857" |}.
Proof.
  unfold EnviroAtlas.__init__.
  destruct (negb (forallb _ splits)); [discriminate|].
  destruct (negb (forallb _ layers)); [discriminate|].
  munfold. destruct (EnviroAtlas._verify root download fs) as [fs1 [[]|e]]; [|discriminate].
  destruct (fiona_open fs1 _) as [features|] eqn:Hf; [|discriminate]. cbn [or_raise].
  intros [= <- <-]. now exists features.
Qed.

(** The time filter keeps every row of an index whose rows all span
    [Timestamp.min, Timestamp.max], for a query interval with [tmin < tmax]
    that starts before [Timestamp.max]. *)
Lemma iloc_overlaps_maximal {G D} (df : GeoDataFrame G D) tmin tmax interval :
  index_closed df = closed_both ->
  Forall (fun r => mint r = Timestamp_min /\ maxt r = Timestamp_max) (rows df) ->
  Interval_ tmin tmax = OK interval ->
  tmin < tmax ->
  Timestamp_min <= tmax ->
  tmin < Timestamp_max ->
  iloc_overlaps df interval = df.
Proof.
  intros Hc Hall Hi Hlt Hlo Hhi. apply Interval_inv in Hi as [_ ->].
  unfold iloc_overlaps. rewrite <- (with_rows_rows df) at 3. f_equal.
  induction Hall as [|r rs [Hmin Hmax] _ IH]; [reflexivity|].
  rewrite filter_cons, IH, decide_True; [reflexivity|].
  rewrite (overlaps_closed_both df r _ _ Hc Hlt). unfold overlaps_left_open.
  rewrite Hmin, Hmax. apply andb_true_iff. split; [now apply Z.leb_le | now apply Z.ltb_lt].
Qed.

(** C9, as amended.  [__init__] registers every tile of the requested
    splits with the interval [Timestamp.min, Timestamp.max], closed on both
    sides.  The query's interval is open on the left, so the time filter
    keeps every tile for a time range with [tmin < tmax] that starts before
    [Timestamp.max] and ends at or after [Timestamp.min]; with a step of 1
    such a query then selects the tiles its box intersects. *)
Theorem EnviroAtlas_index_spans_all_time root splits layers transforms pai cache download
    checksum fs fs' self :
  EnviroAtlas.__init__ root splits layers transforms pai cache download checksum fs
  = (fs', OK self) ->
  index_closed (EnviroAtlas.self_index self) = closed_both
  /\ Forall (fun r => mint r = Timestamp_min /\ maxt r = Timestamp_max)
       (rows (EnviroAtlas.self_index self))
  /\ (exists features,
        fiona_open fs'
          (EnviroAtlas.os_path_join3 root "enviroatlas_lotp" "spatial_index.geojson")
        = Some features
        /\ geometry <$> rows (EnviroAtlas.self_index self)
           = f_geometry <$> filter (fun row => str_in (f_split row) splits = true) features)
  /\ (forall tmin tmax interval,
        Interval_ tmin tmax = OK interval ->
        tmin < tmax ->
        Timestamp_min <= tmax ->
        tmin < Timestamp_max ->
        iloc_overlaps (EnviroAtlas.self_index self) interval = EnviroAtlas.self_index self)
  /\ (forall q,
        start (t_ q) < stop (t_ q) ->
        Timestamp_min <= stop (t_ q) ->
        start (t_ q) < Timestamp_max ->
        step (t_ q) = 1 ->
        select_index (EnviroAtlas.self_index self) q
        = OK (cx (EnviroAtlas.self_index self)
                (start (x_ q)) (stop (x_ q)) (start (y_ q)) (stop (y_ q)))).
Proof.
  intros Hinit. apply EnviroAtlas_init_index in Hinit as (features & Hf & Hidx).
  assert (Hc : index_closed (EnviroAtlas.self_index self) = closed_both)
    by now rewrite Hidx.
  assert (Hall : Forall (fun r => mint r = Timestamp_min /\ maxt r = Timestamp_max)
                   (rows (EnviroAtlas.self_index self)))
    by (rewrite Hidx; apply index_rows_maximal).
  split; [exact Hc|]. split; [exact Hall|]. split; [|split].
  - exists features. split; [exact Hf|]. rewrite Hidx. apply index_rows_geometries.
  - intros tmin tmax interval. now apply iloc_overlaps_maximal.
  - intros q Hlt Hlo Hhi Hs. unfold select_index, iloc_step. munfold.
    pose proof (Z.lt_le_incl _ _ Hlt) as Hle.
    rewrite (Interval_ok _ _ Hle).
    rewrite (iloc_overlaps_maximal _ _ _ _ Hc Hall (Interval_ok _ _ Hle) Hlt Hlo Hhi).
    rewrite Hs, slice_step_1. now rewrite with_rows_rows.
Qed.

Lemma verify_archives_no_checksum zipfiles fs :
  GlobBiomass.verify_archives false zipfiles fs
  = (foldl (fun fs zipfile => extract_archive zipfile fs) fs zipfiles, OK tt).
Proof.
  revert fs. induction zipfiles as [|z rest IH]; intros fs; [reflexivity|].
  simpl. munfold. apply IH.
Qed.

(** C6, as amended.  [_verify] of GlobBiomass: extracted files present,
    nothing is done; else [paths] must be one path ([AssertionError] for a
    list of paths); then no archive, [DatasetNotFoundError]; else the
    archives are gone through in order, each extracted after, when
    [checksum] is set, its MD5 was looked up by file name ([KeyError] for a
    name [md5s] lacks) and checked ([RuntimeError] on a mismatch, the
    archive left as it is).  [_verify] of EnviroAtlas: all listed files
    present, nothing is done; else the archive is extracted if present;
    else it is downloaded and extracted when [download] is set and
    [DatasetNotFoundError] is raised when it is not.  What [_verify] raises,
    the constructors raise. *)
Theorem verify_precedence :
  (forall paths measurement checksum pat fs,
      GlobBiomass._verify paths measurement checksum pat fs
      = if bool_decide (GeoDataset_files fs paths pat = [])
        then match paths with
             | ManyPaths _ => (fs, Raise AssertionError)
             | OnePath root =>
                 if bool_decide
                      (glob_glob fs (os_path_join root ("*_" +:+ measurement +:+ ".zip")) = [])
                 then (fs, Raise DatasetNotFoundError)
                 else GlobBiomass.verify_archives checksum
                        (glob_glob fs (os_path_join root ("*_" +:+ measurement +:+ ".zip")))
                        fs
             end
        else (fs, OK tt))
  /\ (forall zipfiles fs,
        GlobBiomass.verify_archives false zipfiles fs
        = (foldl (fun fs zipfile => extract_archive zipfile fs) fs zipfiles, OK tt))
  /\ (forall fs, GlobBiomass.verify_archives true [] fs = (fs, OK tt))
  /\ (forall zipfile rest fs,
        GlobBiomass.verify_archives true (zipfile :: rest) fs
        = match GlobBiomass.md5s !! os_path_basename zipfile with
          | None => (fs, Raise (KeyError (os_path_basename zipfile)))
          | Some md5 =>
              if check_integrity fs zipfile md5
              then GlobBiomass.verify_archives true rest (extract_archive zipfile fs)
              else (fs, Raise (RuntimeError "Dataset found, but corrupted."))
          end)
  /\ (forall root download fs,
        EnviroAtlas._verify root download fs
        = if forallb (fun f => os_path_exists fs
                                 (EnviroAtlas.os_path_join3 root "enviroatlas_lotp" f))
               EnviroAtlas._files
          then (fs, OK tt)
          else if os_path_exists fs (os_path_join root EnviroAtlas.filename)
          then (extract_archive (os_path_join root EnviroAtlas.filename) fs, OK tt)
          else if download
          then (extract_archive (os_path_join root EnviroAtlas.filename)
                  (download_url EnviroAtlas.url root EnviroAtlas.filename EnviroAtlas.md5 fs),
                OK tt)
          else (fs, Raise DatasetNotFoundError))
  /\ (forall paths crs res measurement transforms cache checksum fs fs' e,
        str_in measurement GlobBiomass.measurements = true ->
        GlobBiomass._verify paths measurement checksum
          (GlobBiomass.str_format GlobBiomass.filename_glob measurement) fs
        = (fs', Raise e) ->
        GlobBiomass.__init__ paths crs res measurement transforms cache checksum fs
        = (fs', Raise e))
  /\ (forall root splits layers transforms pai cache download checksum fs fs' e,
        forallb (fun split => str_in split EnviroAtlas.splits) splits = true ->
        forallb (fun layer => str_in layer EnviroAtlas.valid_layers) layers = true ->
        EnviroAtlas._verify root download fs = (fs', Raise e) ->
        EnviroAtlas.__init__ root splits layers transforms pai cache download checksum fs
        = (fs', Raise e)).
Proof.
  repeat apply conj.
  - intros paths measurement checksum pat fs. unfold GlobBiomass._verify. munfold.
    destruct (bool_decide (GeoDataset_files fs paths pat = [])); [|reflexivity].
    cbn [negb]. destruct paths as [root|ps]; [|reflexivity].
    destruct (bool_decide (glob_glob fs _ = [])); reflexivity.
  - apply verify_archives_no_checksum.
  - reflexivity.
  - intros zipfile rest fs. cbn [GlobBiomass.verify_archives]. munfold.
    unfold getitem_dict.
    destruct (GlobBiomass.md5s !! os_path_basename zipfile) as [md5|]; [|reflexivity].
    destruct (check_integrity fs zipfile md5); reflexivity.
  - intros root download fs. unfold EnviroAtlas._verify, EnviroAtlas._extract,
      EnviroAtlas._download. munfold.
    destruct (forallb _ _); [reflexivity|].
    destruct (os_path_exists fs _); [reflexivity|].
    destruct download; reflexivity.
  - intros paths crs res measurement transforms cache checksum fs fs' e Hm Hv.
    unfold GlobBiomass.__init__. rewrite Hm. cbn [negb]. munfold. now rewrite Hv.
  - intros root splits layers transforms pai cache download checksum fs fs' e Hs Hl Hv.
    unfold EnviroAtlas.__init__. rewrite Hs, Hl. cbn [negb]. munfold. now rewrite Hv.
Qed.




End Construction.

(** * The theorems at work on the example host *)

Section Instances.
Import Example Example2.

Lemma getitem_serves_selected_tiles_witness :
  GlobBiomass.__getitem__ biomass_fs in_2010 biomass = (biomass, OK biomass_sample)
  /\ EnviroAtlas.__getitem__ atlas_fs inside_t1 default_atlas
     = (default_atlas, OK default_sample)
  /\ EnviroAtlas.__getitem__ atlas_fs across_t1_t2 default_atlas
     = (default_atlas,
        Raise (IndexError "query spans multiple tiles which is not valid")).
Proof.
  destruct (@getitem_serves_selected_tiles host base io) as (HG & HE1 & HE2).
  split; [|split].
  - erewrite HG; [reflexivity | vm_compute; reflexivity | vm_compute; discriminate
                  | vm_compute; reflexivity | vm_compute; reflexivity
                  | vm_compute; reflexivity].
  - erewrite HE1; [reflexivity | vm_compute; reflexivity | vm_compute; reflexivity
                   | vm_compute; reflexivity | vm_compute; reflexivity
                   | vm_compute; reflexivity].
  - erewrite HE2; [reflexivity | vm_compute; reflexivity | vm_compute; lia].
Defined.

(** C1 as stated fails: the query [across_t1_t2] intersects two indexed
    tiles, and [EnviroAtlas.__getitem__] raises instead of merging them. *)
Lemma EnviroAtlas_refuses_multiple_tiles :
  (exists index, EnviroAtlas_select default_atlas across_t1_t2 = OK index
                 /\ length (rows index) = 2%nat)
  /\ EnviroAtlas.__getitem__ atlas_fs across_t1_t2 default_atlas
     = (default_atlas,
        Raise (IndexError "query spans multiple tiles which is not valid")).
Proof.
  split; [eexists; split; vm_compute; reflexivity | vm_compute; reflexivity].
Qed.

Lemma getitem_uses_overlapping_intersecting_rows_witness :
  GlobBiomass.__getitem__ biomass_fs in_2010 biomass
  = (biomass,
     GlobBiomass_sample_of_index biomass_fs biomass in_2010
       (with_rows (GlobBiomass.self_index biomass)
          (rows_left_open_overlap (GlobBiomass.self_index biomass) in_2010)))
  /\ EnviroAtlas.__getitem__ atlas_fs inside_t1 default_atlas
     = (default_atlas,
        EnviroAtlas_sample_of_index atlas_fs default_atlas inside_t1 inside_t1
          (with_rows (EnviroAtlas.self_index default_atlas)
             (rows_left_open_overlap (EnviroAtlas.self_index default_atlas) inside_t1))).
Proof.
  destruct (@getitem_uses_overlapping_intersecting_rows host base io) as (HG & HE).
  split.
  - apply (HG biomass_fs in_2010 biomass); [reflexivity | reflexivity | reflexivity].
  - apply (HE atlas_fs inside_t1 default_atlas); [reflexivity | reflexivity | reflexivity].
Defined.

(** C2 as stated fails: the tile's closed interval and the closed interval
    [Timestamp.max, Timestamp.max] of the query share a point and the box
    lies inside the tile, yet the row is not selected. *)
Lemma closed_overlap_row_not_selected :
  step (t_ at_timestamp_max) = 1
  /\ length (rows_closed_overlap (EnviroAtlas.self_index default_atlas) at_timestamp_max)
     = 1%nat
  /\ (exists index, EnviroAtlas_select default_atlas at_timestamp_max = OK index
                    /\ rows index = [])
  /\ EnviroAtlas.__getitem__ atlas_fs at_timestamp_max default_atlas
     = (default_atlas, Raise (IndexError "query not found in index")).
Proof.
  split; [reflexivity|]. split; [vm_compute; reflexivity|].
  split; [eexists; split; vm_compute; reflexivity | vm_compute; reflexivity].
Qed.

Lemma getitem_IndexError_iff_witness :
  is_IndexError (GlobBiomass.__getitem__ biomass_fs far_away biomass).2 = true
  /\ (exists index row, EnviroAtlas_select default_atlas inside_t1 = OK index
                        /\ rows index = [row]).
Proof.
  destruct (@getitem_IndexError_iff host base io) as (HG & HE).
  split.
  - apply (proj1 (HG biomass_fs far_away biomass)).
    eexists. split; vm_compute; reflexivity.
  - apply (proj2 (proj2 (HE atlas_fs inside_t1 default_atlas)) default_sample).
    vm_compute; reflexivity.
Defined.

(** C3 as stated fails: [EnviroAtlas.__getitem__] raises [IndexError] for
    a query whose selection holds two tiles, and [GlobBiomass.__getitem__]
    answers a time range that runs backwards with a [ValueError]. *)
Lemma IndexError_without_empty_selection :
  (exists index, EnviroAtlas_select default_atlas across_t1_t2 = OK index
                 /\ length (rows index) = 2%nat)
  /\ is_IndexError (EnviroAtlas.__getitem__ atlas_fs across_t1_t2 default_atlas).2 = true
  /\ (GlobBiomass.__getitem__ biomass_fs backwards_in_time biomass).2
     = Raise (ValueError "left side of interval must be <= right side").
Proof.
  split; [eexists; split; vm_compute; reflexivity|].
  split; vm_compute; reflexivity.
Qed.

Lemma layers_cropped_to_box_of_first_layer_witness :
  exists index row layer rest geom,
    EnviroAtlas_select default_atlas inside_t1 = OK index
    /\ rows index = [row]
    /\ EnviroAtlas.self_layers default_atlas = layer :: rest
    /\ box_in_crs_of atlas_fs (EnviroAtlas.self_root default_atlas) (data row)
         (query_box (EnviroAtlas_resolve default_atlas inside_t1)) layer = OK geom
    /\ Forall (fun layer =>
                 exists d, crop_layer atlas_fs (EnviroAtlas.self_root default_atlas)
                             (data row) geom layer = OK d)
         (image_layers (EnviroAtlas.self_prior_as_input default_atlas)
            (EnviroAtlas.self_layers default_atlas)
          ++ mask_layers (EnviroAtlas.self_prior_as_input default_atlas)
               (EnviroAtlas.self_layers default_atlas))
    /\ exists ims mks image mask,
        Forall2 (fun layer d =>
                   crop_layer atlas_fs (EnviroAtlas.self_root default_atlas) (data row)
                     geom layer = OK d)
          (image_layers (EnviroAtlas.self_prior_as_input default_atlas)
             (EnviroAtlas.self_layers default_atlas)) ims
        /\ Forall2 (fun layer d =>
                      exists raw,
                        crop_layer atlas_fs (EnviroAtlas.self_root default_atlas) (data row)
                          geom layer = OK raw
                        /\ mask_data layer raw = OK d)
             (mask_layers (EnviroAtlas.self_prior_as_input default_atlas)
                (EnviroAtlas.self_layers default_atlas)) mks
        /\ concatenate ims = OK image
        /\ concatenate mks = OK mask
        /\ default_sample
           = apply_transforms (EnviroAtlas.self_transforms default_atlas)
               {| EnviroAtlas.image := image;
                  EnviroAtlas.mask := mask;
                  EnviroAtlas.crs := GeoDataset_crs _ (EnviroAtlas.self_index default_atlas);
                  EnviroAtlas.bounds := inside_t1 |}.
Proof.
  apply (@layers_cropped_to_box_of_first_layer host base io atlas_fs inside_t1 default_atlas default_sample).
  vm_compute. reflexivity.
Defined.

(** C4 as stated fails: the raster of the prior layer is in EPSG:26918,
    where the query box starts at 2 + 18, yet its crop in the sample is the
    one to the box in EPSG:26917, the CRS of the naip raster, which starts
    at 2 + 17. *)
Lemma prior_cropped_in_crs_of_naip :
  EnviroAtlas.__getitem__ atlas_fs inside_t1 default_atlas
  = (default_atlas, OK default_sample)
  /\ channels (EnviroAtlas.mask default_sample) = [[3; 19]]
  /\ exists row,
      head (rows (EnviroAtlas.self_index default_atlas)) = Some row
      /\ crop_layer_own_crs atlas_fs "data" (data row) (query_box inside_t1) "prior"
         = OK {| shape_hw := (1, 2)%nat; channels := [[3; 20]] |}.
Proof.
  split; [vm_compute; reflexivity|]. split; [reflexivity|].
  eexists. split; [reflexivity | vm_compute; reflexivity].
Qed.

(** C5 fails on the layer nlcd: requested between naip and lc, its raster
    (pixel 41) is read and cropped, and is in neither tensor of the
    sample. *)
Lemma EnviroAtlas_getitem_drops_nlcd :
  EnviroAtlas.__getitem__ atlas_fs inside_t1 (atlas ["naip"; "nlcd"; "lc"] false)
  = (atlas ["naip"; "nlcd"; "lc"] false, OK lc_sample)
  /\ channels (EnviroAtlas.image lc_sample) = [[200; 19]]
  /\ channels (EnviroAtlas.mask lc_sample) = [[5; 0]]
  /\ exists row,
      head (rows (EnviroAtlas.self_index default_atlas)) = Some row
      /\ crop_layer atlas_fs "data" (data row) (box 19 2 21 4) "nlcd"
         = OK {| shape_hw := (1, 2)%nat; channels := [[41; 19]] |}.
Proof.
  split; [vm_compute; reflexivity|]. split; [reflexivity|]. split; [reflexivity|].
  eexists. split; [reflexivity | vm_compute; reflexivity].
Qed.

Lemma lc_part_of_mask_is_remapped_witness :
  exists index row layer rest geom ims parts image mask,
    EnviroAtlas_select naip_lc_atlas inside_t1 = OK index
    /\ rows index = [row]
    /\ EnviroAtlas.self_layers naip_lc_atlas = layer :: rest
    /\ box_in_crs_of small_fs (EnviroAtlas.self_root naip_lc_atlas) (data row)
         (query_box (EnviroAtlas_resolve naip_lc_atlas inside_t1)) layer = OK geom
    /\ Forall2 (fun layer d =>
                  crop_layer small_fs (EnviroAtlas.self_root naip_lc_atlas) (data row) geom
                    layer = OK d)
         (image_layers (EnviroAtlas.self_prior_as_input naip_lc_atlas)
            (EnviroAtlas.self_layers naip_lc_atlas))
         ims
    /\ concatenate ims = OK image
    /\ ("lc"%string ∈ EnviroAtlas.self_layers naip_lc_atlas
        <-> "lc"%string ∈ mask_layers (EnviroAtlas.self_prior_as_input naip_lc_atlas)
                            (EnviroAtlas.self_layers naip_lc_atlas))
    /\ Forall2 (fun layer part =>
                  exists raw,
                    crop_layer small_fs (EnviroAtlas.self_root naip_lc_atlas) (data row) geom
                      layer = OK raw
                    /\ mask_data layer raw = OK part
                    /\ (layer = "lc"%string ->
                        getitem_array EnviroAtlas.raw_enviroatlas_to_idx_map raw = OK part
                        /\ Forall (Forall (fun v => 0 <= v <= 10)) (channels part)))
         (mask_layers (EnviroAtlas.self_prior_as_input naip_lc_atlas)
            (EnviroAtlas.self_layers naip_lc_atlas))
         parts
    /\ concatenate parts = OK mask
    /\ channels mask = concat (channels <$> parts)
    /\ lc_sample
       = apply_transforms (EnviroAtlas.self_transforms naip_lc_atlas)
           {| EnviroAtlas.image := image;
              EnviroAtlas.mask := mask;
              EnviroAtlas.crs := GeoDataset_crs _ (EnviroAtlas.self_index naip_lc_atlas);
              EnviroAtlas.bounds := inside_t1 |}
    /\ (EnviroAtlas.self_transforms naip_lc_atlas = None -> EnviroAtlas.mask lc_sample = mask).
Proof.
  apply (@lc_part_of_mask_is_remapped host base io small_fs inside_t1 naip_lc_atlas lc_sample).
  vm_refl.
Defined.

(** C10 as stated fails when [transforms] is set: ['lc'] is requested, its
    raster (pixels 52 and 19) is remapped to the classes 5 and 0, and the
    mask of the sample returned holds 125, the mask the transform made of
    it. *)
Lemma transform_takes_lc_mask_out_of_range :
  str_in "lc" (EnviroAtlas.self_layers scaling_atlas) = true
  /\ (EnviroAtlas.__getitem__ small_fs inside_t1 naip_lc_atlas).2 = OK lc_sample
  /\ channels (EnviroAtlas.mask lc_sample) = [[5; 0]]
  /\ (EnviroAtlas.__getitem__ small_fs inside_t1 scaling_atlas).2 = OK scaled_sample
  /\ channels (EnviroAtlas.mask scaled_sample) = [[125; 0]].
Proof. repeat split; vm_refl. Qed.

Lemma getitem_frame_witness :
  (GlobBiomass.crs biomass_sample = "EPSG:4326"%string
   /\ GlobBiomass.bounds biomass_sample = in_2010)
  /\ (EnviroAtlas.crs default_sample = "EPSG:3857"%string
      /\ EnviroAtlas.bounds default_sample = inside_t1)
  /\ (EnviroAtlas.__getitem__ atlas_fs across_t1_t2 default_atlas).1 = default_atlas.
Proof.
  destruct (@getitem_frame host base io) as (HG & HE).
  split; [|split].
  - apply (proj2 (HG biomass_fs in_2010 biomass) biomass_sample);
      [vm_compute; reflexivity | reflexivity].
  - apply (proj2 (HE atlas_fs inside_t1 default_atlas) default_sample);
      [vm_compute; reflexivity | reflexivity].
  - apply (proj1 (HE atlas_fs across_t1_t2 default_atlas)).
Defined.

Lemma EnviroAtlas_index_spans_all_time_witness :
  index_closed (EnviroAtlas.self_index default_atlas) = closed_both
  /\ Forall (fun r => mint r = Timestamp_min /\ maxt r = Timestamp_max)
       (rows (EnviroAtlas.self_index default_atlas))
  /\ (exists features,
        fiona_open atlas_fs
          (EnviroAtlas.os_path_join3 "data" "enviroatlas_lotp" "spatial_index.geojson")
        = Some features
        /\ geometry <$> rows (EnviroAtlas.self_index default_atlas)
           = f_geometry
               <$> filter (fun row => str_in (f_split row) ["pittsburgh_pa-2010_1m-train"]
                                      = true) features)
  /\ (forall tmin tmax interval,
        Interval_ tmin tmax = OK interval ->
        tmin < tmax ->
        Timestamp_min <= tmax ->
        tmin < Timestamp_max ->
        iloc_overlaps (EnviroAtlas.self_index default_atlas) interval
        = EnviroAtlas.self_index default_atlas)
  /\ (forall q,
        start (t_ q) < stop (t_ q) ->
        Timestamp_min <= stop (t_ q) ->
        start (t_ q) < Timestamp_max ->
        step (t_ q) = 1 ->
        select_index (EnviroAtlas.self_index default_atlas) q
        = OK (cx (EnviroAtlas.self_index default_atlas)
                (start (x_ q)) (stop (x_ q)) (start (y_ q)) (stop (y_ q)))).
Proof.
  apply (@EnviroAtlas_index_spans_all_time host base io "data" ["pittsburgh_pa-2010_1m-train"]
           ["naip"; "prior"] None false true false false atlas_fs atlas_fs default_atlas).
  vm_compute. reflexivity.
Defined.

(** C9 as stated fails: the index [__init__] builds on [atlas_fs] holds
    two tiles, and the time filter drops both for the time range
    [Timestamp.max : Timestamp.max]. *)
Lemma time_filter_excludes_at_Timestamp_max :
  EnviroAtlas.__init__ "data" ["pittsburgh_pa-2010_1m-train"] ["naip"; "prior"] None
    false true false false atlas_fs
  = (atlas_fs, OK default_atlas)
  /\ length (rows (EnviroAtlas.self_index default_atlas)) = 2%nat
  /\ exists interval,
      Interval_ Timestamp_max Timestamp_max = OK interval
      /\ rows (iloc_overlaps (EnviroAtlas.self_index default_atlas) interval) = [].
Proof.
  split; [vm_compute; reflexivity|]. split; [reflexivity|].
  eexists. split; [reflexivity | vm_compute; reflexivity].
Qed.

Lemma verify_precedence_witness :
  GlobBiomass.__init__ (OnePath "dl") None None "agb" None true true archives_fs
  = (extract_archive "dl/N00E020_agb.zip" archives_fs,
     Raise (RuntimeError "Dataset found, but corrupted."))
  /\ EnviroAtlas.__init__ "nowhere" ["pittsburgh_pa-2010_1m-train"] ["naip"; "prior"] None
       false true false false atlas_fs
     = (atlas_fs, Raise DatasetNotFoundError).
Proof.
  destruct (@verify_precedence host base io) as (_ & _ & _ & _ & _ & HG & HE).
  split.
  - apply HG; vm_compute; reflexivity.
  - apply HE; vm_compute; reflexivity.
Defined.

(** C6 as stated fails: with a list of paths, no extracted file and the
    archives present, [_verify] of GlobBiomass raises [AssertionError] and
    extracts nothing; and with [checksum] set an archive whose name [md5s]
    lacks ends it with a [KeyError]. *)
Lemma verify_asserts_one_path :
  GeoDataset_files archives_fs (ManyPaths ["dl"]) "*_agb.tif" = []
  /\ glob_glob archives_fs "dl/*_agb.zip" = ["dl/N00E020_agb.zip"; "dl/N00E060_agb.zip"]%string
  /\ GlobBiomass._verify (ManyPaths ["dl"]) "agb" false "*_agb.tif" archives_fs
     = (archives_fs, Raise AssertionError)
  /\ GlobBiomass._verify (OnePath "dl") "agb" true "*_agb.tif" unknown_archive_fs
     = (unknown_archive_fs, Raise (KeyError "sample_agb.zip")).
Proof. repeat split; vm_compute; reflexivity. Qed.



End Instances.

(** * Further properties *)

Import More.

(** ** The selection for any step *)

Lemma stride_from_elem_of {A} (k i : nat) (l : list A) (a : A) :
  a ∈ stride_from k i l -> a ∈ l.
Proof.
  revert i. induction l as [|b l IH]; intros i; simpl; [easy|].
  destruct i as [|i].
  - rewrite !elem_of_cons. intros [->|Ha]; [now left | right; eapply IH, Ha].
  - intros Ha. right. eapply IH, Ha.
Qed.

Lemma stride_from_sublist {A} (k i : nat) (l : list A) :
  stride_from k i l `sublist_of` l.
Proof.
  revert i. induction l as [|b l IH]; intros i; simpl; [constructor|].
  destruct i as [|i]; [apply sublist_skip | apply sublist_cons]; apply IH.
Qed.

(** Whatever the step, [__getitem__] selects only rows of the index whose
    interval overlaps the query's and whose geometry intersects its box; with
    a positive step they keep the order of the index, and the selection has
    the closedness and CRS of the index. *)
Theorem selection_sound {G D} `{Geometry G} (df index : GeoDataFrame G D) (q : Slice3) :
  select_index df q = OK index ->
  (forall r, r ∈ rows index ->
             r ∈ rows df
             /\ overlaps (row_interval df r) (query_interval q) = true
             /\ intersects (geometry r) (box (start (x_ q)) (start (y_ q))
                                           (stop (x_ q)) (stop (y_ q))) = true)
  /\ (0 < step (t_ q) -> rows index `sublist_of` rows df)
  /\ index_closed index = index_closed df
  /\ frame_crs index = frame_crs df.
Proof.
  unfold select_index, iloc_step, slice_step. munfold.
  destruct (Interval_ _ _) as [interval|] eqn:Hi; [|discriminate].
  apply Interval_inv in Hi as [_ ->]. fold (query_interval q).
  destruct (Z.eqb_spec (step (t_ q)) 0) as [|Hs0]; [discriminate|].
  assert (Hin : forall (rs : list (Row G D)) (r : Row G D),
             (forall r', r' ∈ rs -> r' ∈ rows (iloc_overlaps df (query_interval q))) ->
             r ∈ filter (fun r => intersects (geometry r)
                                    (box (start (x_ q)) (start (y_ q))
                                       (stop (x_ q)) (stop (y_ q))) = true) rs ->
             r ∈ rows df
             /\ overlaps (row_interval df r) (query_interval q) = true
             /\ intersects (geometry r) (box (start (x_ q)) (start (y_ q))
                                           (stop (x_ q)) (stop (y_ q))) = true).
  { intros rs r Hrs Hr. apply list_elem_of_filter in Hr as [Hint Hr].
    apply Hrs in Hr. cbn [iloc_overlaps with_rows rows] in Hr.
    apply list_elem_of_filter in Hr as [Hov Hr]. auto. }
  destruct (Z.ltb_spec 0 (step (t_ q))) as [Hpos|Hneg]; intros [= <-];
    cbn [cx with_rows rows index_closed frame_crs iloc_overlaps].
  - split; [|split; [|split; reflexivity]].
    + intros r. apply Hin. intros r' Hr'. now apply stride_from_elem_of in Hr'.
    + intros _. etransitivity; [apply sublist_filter|].
      etransitivity; [apply stride_from_sublist|]. apply sublist_filter.
  - split; [|split; [lia | split; reflexivity]].
    intros r. apply Hin. intros r' Hr'. apply stride_from_elem_of in Hr'.
    exact (proj1 (elem_of_reverse _ _) Hr').
Qed.

(** ** Queries [__getitem__] refuses *)

Section Refused.
Context `{RasterIO}.

Lemma select_index_raise {G D} `{Geometry G} (df : GeoDataFrame G D) (q : Slice3) e :
  select_index df q = Raise e
  <-> (stop (t_ q) < start (t_ q)
       /\ e = ValueError "left side of interval must be <= right side")
      \/ (start (t_ q) <= stop (t_ q) /\ step (t_ q) = 0
          /\ e = ValueError "slice step cannot be zero").
Proof.
  unfold select_index, Interval_, Interval_closed, iloc_step, slice_step. munfold.
  destruct (Z.leb_spec (start (t_ q)) (stop (t_ q))) as [Hle|Hgt].
  - destruct (Z.eqb_spec (step (t_ q)) 0) as [Hs|Hs].
    + split; [intros [= <-]; right; auto|]. intros [[? _]|(_ & _ & ->)]; [lia | reflexivity].
    + destruct (_ <? _); (split; [discriminate|]); intros [[? _]|(_ & ? & _)]; lia.
  - split; [intros [= <-]; left; auto|]. intros [[_ ->]|[? _]]; [reflexivity | lia].
Qed.

(** A time range that runs backwards, or a step of 0, ends both
    [__getitem__] with a [ValueError] before any tile is looked at, the
    instance left as it was. *)
Theorem getitem_ValueError :
  (forall fs query (self : GlobBiomass.t),
      (stop (t_ (GlobBiomass_resolve self query)) < start (t_ (GlobBiomass_resolve self query))
       -> GlobBiomass.__getitem__ fs query self
          = (self, Raise (ValueError "left side of interval must be <= right side")))
      /\ (start (t_ (GlobBiomass_resolve self query)) <= stop (t_ (GlobBiomass_resolve self query))
          -> step (t_ (GlobBiomass_resolve self query)) = 0
          -> GlobBiomass.__getitem__ fs query self
             = (self, Raise (ValueError "slice step cannot be zero"))))
  /\ (forall fs query (self : EnviroAtlas.t),
      (stop (t_ (EnviroAtlas_resolve self query)) < start (t_ (EnviroAtlas_resolve self query))
       -> EnviroAtlas.__getitem__ fs query self
          = (self, Raise (ValueError "left side of interval must be <= right side")))
      /\ (start (t_ (EnviroAtlas_resolve self query)) <= stop (t_ (EnviroAtlas_resolve self query))
          -> step (t_ (EnviroAtlas_resolve self query)) = 0
          -> EnviroAtlas.__getitem__ fs query self
             = (self, Raise (ValueError "slice step cannot be zero")))).
Proof.
  split; intros fs query self.
  - rewrite GlobBiomass_getitem_eq. unfold GlobBiomass_select. split.
    + intros Hlt. now rewrite (proj2 (select_index_raise _ _ _) (or_introl (conj Hlt eq_refl))).
    + intros Hle Hs.
      now rewrite (proj2 (select_index_raise _ _ _)
                     (or_intror (conj Hle (conj Hs eq_refl)))).
  - rewrite EnviroAtlas_getitem_eq. unfold EnviroAtlas_select. split.
    + intros Hlt. now rewrite (proj2 (select_index_raise _ _ _) (or_introl (conj Hlt eq_refl))).
    + intros Hle Hs.
      now rewrite (proj2 (select_index_raise _ _ _)
                     (or_intror (conj Hle (conj Hs eq_refl)))).
Qed.

(** A sample of EnviroAtlas needs a layer for the image and a layer for the
    mask: when the requested layers leave one of the two lists empty,
    [np.concatenate] has nothing to join and no query returns a sample. *)
Theorem sample_needs_image_and_mask_layer fs query (self : EnviroAtlas.t) s :
  (EnviroAtlas.__getitem__ fs query self).2 = OK s ->
  image_layers (EnviroAtlas.self_prior_as_input self) (EnviroAtlas.self_layers self) <> []
  /\ mask_layers (EnviroAtlas.self_prior_as_input self) (EnviroAtlas.self_layers self) <> [].
Proof.
  intros Hs.
  apply EnviroAtlas_getitem_inv in Hs
    as (index & row & layer & rest & geom & ims & mks & image & mask
        & _ & _ & _ & _ & Hims & Hmks & Him & Hmk & _).
  split.
  - intros Hnil. rewrite Hnil in Hims. inversion Hims; subst. discriminate Him.
  - intros Hnil. rewrite Hnil in Hmks. inversion Hmks; subst. discriminate Hmk.
Qed.

Lemma p_transformers_lookup (k : string) :
  is_Some (EnviroAtlas.p_transformers !! k) <-> k ∈ utm_zones.
Proof.
  unfold EnviroAtlas.p_transformers, utm_zones.
  rewrite !elem_of_cons, elem_of_nil.
  rewrite <- elem_of_dom, dom_list_to_map_L. cbn [fmap list_fmap fst].
  rewrite elem_of_list_to_set, !elem_of_cons, elem_of_nil. tauto.
Qed.

(** The tile a query selects must have its first requested raster in one
    of the four UTM zones [p_transformers] knows: for any other CRS
    [__getitem__] raises [KeyError] with the lower-cased CRS string. *)
Theorem getitem_KeyError_for_foreign_crs fs query (self : EnviroAtlas.t)
    index row layer rest fn f :
  EnviroAtlas_select self query = OK index ->
  rows index = [row] ->
  EnviroAtlas.self_layers self = layer :: rest ->
  data row !! layer = Some fn ->
  rasterio_open fs (EnviroAtlas.os_path_join3 (EnviroAtlas.self_root self)
                      "enviroatlas_lotp" fn) = Some f ->
  str_lower (crs_to_string f) ∉ utm_zones ->
  EnviroAtlas.__getitem__ fs query self
  = (self, Raise (KeyError (str_lower (crs_to_string f)))).
Proof.
  intros Hsel Hrows Hlayers Hfn Hf Hcrs.
  rewrite EnviroAtlas_getitem_eq, Hsel. munfold.
  unfold EnviroAtlas_sample_of_index, empty, len. rewrite Hrows, Hlayers.
  cbn [length Nat.eqb head EnviroAtlas.load_layers]. munfold.
  unfold getitem_dict at 1. rewrite Hfn, Hf. cbn [or_raise].
  unfold getitem_dict at 1.
  destruct (EnviroAtlas.p_transformers !! _) as [tr|] eqn:Htr; [|reflexivity].
  exfalso. apply Hcrs, p_transformers_lookup. now rewrite Htr.
Qed.

(** [transforms] is applied last and only to a finished sample: with a
    transform [f] set, [__getitem__] returns [f] of the sample it returns
    without transforms, and raises whatever it raises without. *)
Theorem transforms_applied_last :
  (forall fs query (self : GlobBiomass.t) f,
      (GlobBiomass.__getitem__ fs query (GlobBiomass_with_transforms self (Some f))).2
      = result_map f
          (GlobBiomass.__getitem__ fs query (GlobBiomass_with_transforms self None)).2)
  /\ (forall fs query (self : EnviroAtlas.t) f,
      (EnviroAtlas.__getitem__ fs query (EnviroAtlas_with_transforms self (Some f))).2
      = result_map f
          (EnviroAtlas.__getitem__ fs query (EnviroAtlas_with_transforms self None)).2).
Proof.
  split; intros fs query self f.
  - rewrite !GlobBiomass_getitem_eq. cbn [snd].
    unfold GlobBiomass_select, GlobBiomass_resolve, GlobBiomass_with_transforms.
    cbn [GlobBiomass.self_index]. munfold.
    destruct (select_index _ _) as [index|]; [|reflexivity].
    unfold GlobBiomass_sample_of_index. cbn [GlobBiomass.self_index GlobBiomass.self_transforms].
    munfold. destruct (empty index); [reflexivity|].
    destruct (or_raise _ _); [|reflexivity].
    destruct (or_raise _ _); [|reflexivity].
    destruct (torch_cat _); reflexivity.
  - rewrite !EnviroAtlas_getitem_eq. cbn [snd].
    unfold EnviroAtlas_select, EnviroAtlas_resolve, EnviroAtlas_with_transforms.
    cbn [EnviroAtlas.self_index]. munfold.
    destruct (select_index _ _) as [index|]; [|reflexivity].
    unfold EnviroAtlas_sample_of_index.
    cbn [EnviroAtlas.self_index EnviroAtlas.self_transforms EnviroAtlas.self_root
           EnviroAtlas.self_prior_as_input EnviroAtlas.self_layers].
    munfold.
    destruct (if empty index then _ else _) as [[im mk]|]; [|reflexivity]. cbn [fst snd].
    destruct (concatenate im); [|reflexivity].
    destruct (concatenate mk); reflexivity.
Qed.

End Refused.

(** ** Construction of EnviroAtlas *)

Section Built.
Context `{RasterIO}.



Lemma EnviroAtlas_verify_raise root download fs fs' e :
  EnviroAtlas._verify root download fs = (fs', Raise e) ->
  e = DatasetNotFoundError /\ fs' = fs.
Proof.
  unfold EnviroAtlas._verify, EnviroAtlas._extract, EnviroAtlas._download. munfold.
  destruct (forallb _ _); [discriminate|].
  destruct (os_path_exists fs _); [discriminate|].
  destruct download; [discriminate|]. now intros [= <- <-].
Qed.

(** [__init__] of EnviroAtlas raises [AssertionError] exactly when a
    requested split or a requested layer is not a valid one, and then it has
    not touched the file system. *)
Theorem EnviroAtlas_init_AssertionError root splits layers transforms pai cache download
    checksum fs :
  (exists fs', EnviroAtlas.__init__ root splits layers transforms pai cache download
                 checksum fs = (fs', Raise AssertionError))
  <-> ~ (Forall (fun split => split ∈ EnviroAtlas.splits) splits
         /\ Forall (fun layer => layer ∈ EnviroAtlas.valid_layers) layers).
Proof.
  assert (Hall : forall (valid l : list string),
             forallb (fun x => str_in x valid) l = true <-> Forall (fun x => x ∈ valid) l).
  { intros valid l. rewrite forallb_forall, Forall_forall. unfold str_in.
    split; intros Hl x Hx.
    - apply list_elem_of_In, Hl in Hx. now apply bool_decide_eq_true in Hx.
    - apply bool_decide_eq_true, Hl, list_elem_of_In, Hx. }
  unfold EnviroAtlas.__init__.
  destruct (forallb _ splits) eqn:Hs; cbn [negb].
  - destruct (forallb _ layers) eqn:Hl; cbn [negb].
    + split.
      * intros [fs' Hi]. exfalso. revert Hi. munfold.
        destruct (EnviroAtlas._verify root download fs) as [fs1 [[]|e]] eqn:Hv.
        -- destruct (fiona_open fs1 _); discriminate.
        -- apply EnviroAtlas_verify_raise in Hv as [-> _]. discriminate.
      * intros Hn. exfalso. apply Hn. split; now apply Hall.
    + split; [|intros _; now exists fs].
      intros _ [_ Hn]. apply Hall in Hn. congruence.
  - split; [|intros _; now exists fs].
    intros _ [Hn _]. apply Hall in Hn. congruence.
Qed.


End Built.

(** ** The table of class indices *)

Lemma mapM_is_OK {A B} (f : A -> result B) (l : list A) :
  (exists k, mapM f l = OK k) <-> Forall (fun a => exists b, f a = OK b) l.
Proof.
  split.
  - intros [k Hk]. apply mapM_ok in Hk. induction Hk; constructor; eauto.
  - induction 1 as [|a l [b Hb] _ [k Hk]]; [now exists []|].
    exists (b :: k). simpl. munfold. now rewrite Hb, Hk.
Qed.

Lemma item_idx_map_in_range i :
  (exists v, item EnviroAtlas.raw_enviroatlas_to_idx_map i = OK v) <-> -93 <= i < 93.
Proof.
  unfold item.
  replace (Z.of_nat (length EnviroAtlas.raw_enviroatlas_to_idx_map)) with 93 by reflexivity.
  split.
  - intros [v Hv]. destruct (Z.leb_spec (- (93)) i); [|discriminate].
    destruct (Z.ltb_spec i 93); [lia | discriminate].
  - intros Hi. rewrite (proj2 (Z.leb_le _ _)) by lia. rewrite (proj2 (Z.ltb_lt i 93)) by lia.
    cbn [andb].
    destruct (EnviroAtlas.raw_enviroatlas_to_idx_map !! _) as [v|] eqn:Hv; [eauto|].
    apply lookup_ge_None in Hv.
    replace (length EnviroAtlas.raw_enviroatlas_to_idx_map) with 93%nat in Hv by reflexivity.
    destruct (Z.ltb_spec i 0); lia.
Qed.

(** [raw_enviroatlas_to_idx_map] does what its comment says: the eleven raw
    class codes go to 0..10 in order, every other code below 93 to 0, and
    each index 0..10 is the image of its raw code; a code of 93 or more is out
    of the table's bounds. *)
Theorem idx_map_contract :
  (forall i, 0 <= i < 93 ->
             item EnviroAtlas.raw_enviroatlas_to_idx_map i = OK (class_index i))
  /\ (forall k c, raw_classes !! k = Some c ->
                  item EnviroAtlas.raw_enviroatlas_to_idx_map c = OK (Z.of_nat k))
  /\ length raw_classes = 11%nat
  /\ (forall i, 93 <= i ->
                item EnviroAtlas.raw_enviroatlas_to_idx_map i
                = Raise (IndexError "index is out of bounds for axis 0")).
Proof.
  split; [|split; [|split; [reflexivity|]]].
  - intros i Hi.
    assert (Hall : forallb (fun n => match item EnviroAtlas.raw_enviroatlas_to_idx_map
                                             (Z.of_nat n) with
                                     | OK v => v =? class_index (Z.of_nat n)
                                     | Raise _ => false
                                     end) (seq 0 93) = true) by (vm_compute; reflexivity).
    rewrite forallb_forall in Hall. specialize (Hall (Z.to_nat i)).
    rewrite Z2Nat.id in Hall by lia.
    destruct (item _ i) as [v|]; [|discriminate Hall; apply in_seq; lia].
    f_equal. apply Z.eqb_eq, Hall, in_seq. lia.
  - intros k c Hk.
    assert (Hlt : (k < 11)%nat) by (apply lookup_lt_Some in Hk; exact Hk).
    do 11 (destruct k as [|k]; [injection Hk as <-; reflexivity|]). lia.
  - intros i Hi. unfold item.
    replace (Z.of_nat (length EnviroAtlas.raw_enviroatlas_to_idx_map)) with 93 by reflexivity.
    rewrite (proj2 (Z.ltb_ge i 93)) by lia. now rewrite andb_false_r.
Qed.

Lemma getitem_array_eq table raw :
  getitem_array table raw
  = match mapM (mapM (item table)) (channels raw) with
    | OK chans => OK {| shape_hw := shape_hw raw; channels := chans |}
    | Raise e => Raise e
    end.
Proof. reflexivity. Qed.

(** The remapping of an ['lc'] raster succeeds exactly when each of its
    values is an index of the table (below 93, and not below -93); it keeps
    the shape and the number of channels and of pixels. *)
Theorem lc_remap_defined_on_table_range (raw : ndarray Z) :
  ((exists d, getitem_array EnviroAtlas.raw_enviroatlas_to_idx_map raw = OK d)
   <-> Forall (Forall (fun i => -93 <= i < 93)) (channels raw))
  /\ (forall d, getitem_array EnviroAtlas.raw_enviroatlas_to_idx_map raw = OK d ->
                shape_hw d = shape_hw raw
                /\ Forall2 (Forall2 (fun i v =>
                                       item EnviroAtlas.raw_enviroatlas_to_idx_map i = OK v))
                     (channels raw) (channels d)).
Proof.
  rewrite getitem_array_eq. split.
  - split.
    + intros [d Hd].
      destruct (mapM _ _) as [chans|] eqn:Hm; [|discriminate].
      assert (Hex : exists k, mapM (mapM (item EnviroAtlas.raw_enviroatlas_to_idx_map))
                                (channels raw) = OK k) by eauto.
      apply mapM_is_OK in Hex. eapply Forall_impl; [exact Hex|].
      intros chan Hchan. apply mapM_is_OK in Hchan. eapply Forall_impl; [exact Hchan|].
      intros i. apply item_idx_map_in_range.
    + intros Hall.
      assert (Hex : exists k, mapM (mapM (item EnviroAtlas.raw_enviroatlas_to_idx_map))
                                (channels raw) = OK k).
      { apply mapM_is_OK. eapply Forall_impl; [exact Hall|].
        intros chan Hchan. apply mapM_is_OK. eapply Forall_impl; [exact Hchan|].
        intros i. apply item_idx_map_in_range. }
      destruct Hex as [k ->]. eauto.
  - intros d.
    destruct (mapM _ _) as [chans|] eqn:Hm; [|discriminate]. intros [= <-].
    split; [reflexivity|]. cbn [channels]. apply mapM_ok in Hm.
    eapply Forall2_impl; [exact Hm|]. intros chan chan' Hc. now apply mapM_ok in Hc.
Qed.

(** ** What [plot] draws *)

Lemma list_index_from_spec (x : string) (l : list string) (i : nat) :
  match list_index_from x l i with
  | OK n => exists k, n = (i + k)%nat /\ l !! k = Some x /\ x ∉ take k l
  | Raise e => e = ValueError "is not in list" /\ x ∉ l
  end.
Proof.
  revert i. induction l as [|y l IH]; intros i; simpl.
  - split; [reflexivity | apply not_elem_of_nil].
  - destruct (decide (y = x)) as [->|Hne].
    + rewrite bool_decide_eq_true_2 by reflexivity. exists 0%nat.
      repeat split; [lia | apply not_elem_of_nil].
    + rewrite bool_decide_eq_false_2 by exact Hne. specialize (IH (S i)).
      destruct (list_index_from x l (S i)) as [n|e].
      * destruct IH as (k & -> & Hk & Hnot). exists (S k).
        repeat split; [lia | exact Hk |]. simpl. rewrite not_elem_of_cons. split; [congruence | exact Hnot].
      * destruct IH as [-> Hnot]. split; [reflexivity|].
        rewrite not_elem_of_cons. split; [congruence | exact Hnot].
Qed.

Lemma concat_lookup_singletons {A} (ls : list (list A)) (k : nat) (l : list A) (c : A) :
  Forall (fun p => length p = 1%nat) (take k ls) ->
  ls !! k = Some l ->
  head l = Some c ->
  concat ls !! k = Some c.
Proof.
  revert k. induction ls as [|p ls IH]; intros k Hone Hk Hc; [destruct k; discriminate|].
  destruct k as [|k]; simpl in *.
  - injection Hk as ->. destruct l as [|c' l]; [discriminate|]. injection Hc as ->. reflexivity.
  - apply Forall_cons in Hone as [Hp Hone].
    destruct p as [|a [|b p]]; try discriminate. simpl. now apply IH.
Qed.

Lemma concat_drop_singletons {A} (ls : list (list A)) (k : nat) :
  Forall (fun p => length p = 1%nat) (take k ls) ->
  drop k (concat ls) = concat (drop k ls).
Proof.
  revert k. induction ls as [|p ls IH]; intros k Hone; [now destruct k|].
  destruct k as [|k]; [reflexivity|]. simpl in *.
  apply Forall_cons in Hone as [Hp Hone].
  destruct p as [|a [|b p]]; try discriminate. simpl. now apply IH.
Qed.

Section Plots.
Context `{RasterIO}.

Lemma plot_layers_eq pai layers im mk :
  EnviroAtlas.plot_layers pai layers im mk
  = (im ++ image_layers pai layers, mk ++ mask_layers pai layers).
Proof.
  revert im mk. induction layers as [|layer rest IH]; intros im mk.
  - simpl. now rewrite !app_nil_r.
  - cbn [EnviroAtlas.plot_layers]. unfold image_layers, mask_layers, goes_to_image, goes_to_mask.
    rewrite !filter_cons.
    destruct (str_in layer ["naip"; "buildings"; "roads"; "waterways"; "waterbodies"; "water"]);
      cbn [orb negb andb].
    { rewrite IH, decide_True by reflexivity. rewrite decide_False by discriminate.
      now rewrite <- app_assoc. }
    destruct (str_in layer ["prior"; "prior_no_osm_no_buildings"]); cbn [orb negb andb].
    { destruct pai; cbn [orb negb andb]; rewrite IH.
      - rewrite decide_True by reflexivity. rewrite decide_False by discriminate.
        now rewrite <- app_assoc.
      - rewrite decide_False by discriminate. rewrite decide_True by reflexivity.
        now rewrite <- app_assoc. }
    destruct (str_in layer ["lc"]).
    { rewrite IH, decide_False by discriminate. rewrite decide_True by reflexivity.
      now rewrite <- app_assoc. }
    rewrite IH, !decide_False by discriminate. reflexivity.
Qed.

(** The loop of [plot] and the loop of [__getitem__] sort the layers alike:
    the arrays [__getitem__] appended to the image and to the mask are, one
    by one and in order, the crops of the layers [plot] lists as
    [image_layers] and [mask_layers]. *)
Theorem plot_layers_match_getitem fs root pai filenames qb layers geom im mk :
  EnviroAtlas.load_layers fs root pai filenames qb layers (Some geom) [] [] = OK (im, mk) ->
  Forall2 (fun layer d => crop_layer fs root filenames geom layer = OK d)
    (EnviroAtlas.plot_layers pai layers [] []).1 im
  /\ Forall2 (fun layer d => exists raw, crop_layer fs root filenames geom layer = OK raw
                                         /\ mask_data layer raw = OK d)
       (EnviroAtlas.plot_layers pai layers [] []).2 mk.
Proof.
  intros Hl. apply load_layers_with_geom in Hl as (ims & mks & -> & -> & Hims & Hmks).
  rewrite plot_layers_eq. now split.
Qed.

Lemma naip_in_image_layers pai layers :
  "naip"%string ∈ layers <-> "naip"%string ∈ image_layers pai layers.
Proof.
  unfold image_layers. rewrite list_elem_of_filter. split; [|tauto].
  intros Hin. split; [|exact Hin]. now destruct pai.
Qed.

Lemma lc_in_mask_layers pai layers :
  "lc"%string ∈ layers <-> "lc"%string ∈ mask_layers pai layers.
Proof.
  unfold mask_layers. rewrite list_elem_of_filter. split; [|tauto].
  intros Hin. split; [|exact Hin]. now destruct pai.
Qed.

(** [plot] of EnviroAtlas raises [ValueError] exactly when ['naip'] or
    ['lc'] is not among the layers of the instance: once both are there, the
    two [index] look-ups find them. *)
Theorem EnviroAtlas_plot_ValueError (self : EnviroAtlas.t) sample prediction show_titles
    suptitle :
  (exists msg, EnviroAtlas.plot self sample prediction show_titles suptitle
               = Raise (ValueError msg))
  <-> "naip"%string ∉ EnviroAtlas.self_layers self
      \/ "lc"%string ∉ EnviroAtlas.self_layers self.
Proof.
  unfold EnviroAtlas.plot, str_in.
  destruct (decide ("naip"%string ∈ EnviroAtlas.self_layers self)) as [Hn|Hn].
  2: { rewrite (bool_decide_eq_false_2 _ Hn). cbn [negb orb]. split; eauto. }
  destruct (decide ("lc"%string ∈ EnviroAtlas.self_layers self)) as [Hl|Hl].
  2: { rewrite (bool_decide_eq_false_2 _ Hl), orb_true_r. split; eauto. }
  rewrite (bool_decide_eq_true_2 _ Hn), (bool_decide_eq_true_2 _ Hl). cbn [negb orb].
  split; [|tauto]. intros [msg Hp]. exfalso. revert Hp.
  rewrite plot_layers_eq. cbn [fst snd app]. munfold. unfold list_index.
  pose proof (list_index_from_spec "naip"
                (image_layers (EnviroAtlas.self_prior_as_input self)
                   (EnviroAtlas.self_layers self)) 0) as Hi.
  destruct (list_index_from "naip" _ 0) as [ni|e].
  2: { destruct Hi as [_ Hnot]. exfalso. apply Hnot. now apply naip_in_image_layers. }
  pose proof (list_index_from_spec "lc"
                (mask_layers (EnviroAtlas.self_prior_as_input self)
                   (EnviroAtlas.self_layers self)) 0) as Hj.
  destruct (list_index_from "lc" _ 0) as [li|e].
  2: { destruct Hj as [_ Hnot]. exfalso. apply Hnot. now apply lc_in_mask_layers. }
  unfold getitem_channel. destruct (_ !! li); intros Hp; discriminate Hp.
Qed.

Lemma EnviroAtlas_plot_inv (self : EnviroAtlas.t) sample prediction show_titles suptitle fig :
  EnviroAtlas.plot self sample prediction show_titles suptitle = OK fig ->
  exists lc_index channel,
    list_index "lc"
      (mask_layers (EnviroAtlas.self_prior_as_input self) (EnviroAtlas.self_layers self))
    = OK lc_index
    /\ mask_layers (EnviroAtlas.self_prior_as_input self) (EnviroAtlas.self_layers self)
         !! lc_index = Some "lc"%string
    /\ channels (EnviroAtlas.mask sample) !! lc_index = Some channel
    /\ plt.axs fig !! 1%nat
       = Some {| plt.shown := plt.Channel channel;
                 plt.vrange := Some (0, 10);
                 plt.axis_off := true;
                 plt.title := if show_titles then Some "Mask"%string else None |}.
Proof.
  unfold EnviroAtlas.plot.
  destruct (negb _ || negb _); [discriminate|].
  rewrite plot_layers_eq. cbn [fst snd app]. munfold. unfold list_index.
  destruct (list_index_from "naip" _ 0) as [ni|]; [|discriminate].
  pose proof (list_index_from_spec "lc"
                (mask_layers (EnviroAtlas.self_prior_as_input self)
                   (EnviroAtlas.self_layers self)) 0) as Hj.
  destruct (list_index_from "lc" _ 0) as [li|]; [|discriminate].
  destruct Hj as (k & -> & Hk & _). cbn [Nat.add].
  unfold getitem_channel.
  destruct (channels (EnviroAtlas.mask sample) !! k) as [shown|] eqn:Hshown; [|discriminate].
  intros [= <-]. cbn [plt.axs app lookup list_lookup].
  exists k, shown. repeat split; assumption.
Qed.

(** The mask panel of [plot] is channel [lc_index] of the mask of the
    sample it is given, where [lc_index] is the position of ['lc'] among the
    mask layers, drawn with the value range 0..10.  For a sample
    [__getitem__] returned without transforms the mask is made of one part
    per mask layer, each from the crop of that layer; when ['lc'] and each
    mask layer requested before it contributed a single channel, the panel
    shows the crop of the ['lc'] raster indexed through
    [raw_enviroatlas_to_idx_map], every pixel in 0..10. *)
Theorem EnviroAtlas_plot_shows_lc :
  (forall (self : EnviroAtlas.t) sample prediction show_titles suptitle fig,
      EnviroAtlas.plot self sample prediction show_titles suptitle = OK fig ->
      exists lc_index channel,
        list_index "lc"
          (mask_layers (EnviroAtlas.self_prior_as_input self) (EnviroAtlas.self_layers self))
        = OK lc_index
        /\ mask_layers (EnviroAtlas.self_prior_as_input self) (EnviroAtlas.self_layers self)
             !! lc_index = Some "lc"%string
        /\ channels (EnviroAtlas.mask sample) !! lc_index = Some channel
        /\ plt.axs fig !! 1%nat
           = Some {| plt.shown := plt.Channel channel;
                     plt.vrange := Some (0, 10);
                     plt.axis_off := true;
                     plt.title := if show_titles then Some "Mask"%string else None |})
  /\ (forall fs query (self : EnviroAtlas.t) s prediction show_titles suptitle fig,
      (EnviroAtlas.__getitem__ fs query self).2 = OK s ->
      EnviroAtlas.self_transforms self = None ->
      EnviroAtlas.plot self s prediction show_titles suptitle = OK fig ->
      exists index row layer rest geom parts lc_index,
        EnviroAtlas_select self query = OK index
        /\ rows index = [row]
        /\ EnviroAtlas.self_layers self = layer :: rest
        /\ box_in_crs_of fs (EnviroAtlas.self_root self) (data row)
             (query_box (EnviroAtlas_resolve self query)) layer = OK geom
        /\ Forall2 (fun layer part =>
                      exists raw,
                        crop_layer fs (EnviroAtlas.self_root self) (data row) geom layer
                        = OK raw
                        /\ mask_data layer raw = OK part)
             (mask_layers (EnviroAtlas.self_prior_as_input self)
                (EnviroAtlas.self_layers self)) parts
        /\ channels (EnviroAtlas.mask s) = concat (channels <$> parts)
        /\ list_index "lc"
             (mask_layers (EnviroAtlas.self_prior_as_input self)
                (EnviroAtlas.self_layers self))
           = OK lc_index
        /\ (Forall (fun part => length (channels part) = 1%nat) (take (S lc_index) parts) ->
            exists raw part channel,
              parts !! lc_index = Some part
              /\ crop_layer fs (EnviroAtlas.self_root self) (data row) geom "lc" = OK raw
              /\ getitem_array EnviroAtlas.raw_enviroatlas_to_idx_map raw = OK part
              /\ channels part = [channel]
              /\ Forall (fun v => 0 <= v <= 10) channel
              /\ plt.axs fig !! 1%nat
                 = Some {| plt.shown := plt.Channel channel;
                           plt.vrange := Some (0, 10);
                           plt.axis_off := true;
                           plt.title := if show_titles then Some "Mask"%string else None |})).
Proof.
  split; [intros self sample prediction show_titles suptitle fig; apply EnviroAtlas_plot_inv|].
  intros fs query self s prediction show_titles suptitle fig Hs Htr Hplot.
  apply EnviroAtlas_plot_inv in Hplot as (k & shown & Hidx & Hk & Hshown & Hfig).
  apply EnviroAtlas_getitem_inv in Hs
    as (index & row & layer & rest & geom & ims & mks & image & mask
        & Hsel & Hrows & Hlayers & Hgeom & _ & Hmks & _ & Hmk & ->).
  rewrite Htr in *. cbn [apply_transforms EnviroAtlas.mask EnviroAtlas.image] in *.
  exists index, row, layer, rest, geom, mks, k.
  split; [exact Hsel|]. split; [exact Hrows|]. split; [exact Hlayers|].
  split; [exact Hgeom|]. split; [exact Hmks|].
  split; [now apply concatenate_channels|]. split; [exact Hidx|].
  intros Hone.
  destruct (Forall2_lookup_l _ _ _ _ _ Hmks Hk) as (part & Hpart & raw & Hcrop & Hraw).
  unfold mask_data in Hraw.
  assert (Hlc : str_in "lc" ["lc"] = true) by (vm_compute; reflexivity).
  rewrite Hlc in Hraw.
  pose proof (getitem_array_idx_map_range _ _ Hraw) as Hrange.
  rewrite (concatenate_channels _ _ Hmk) in Hshown.
  assert (Hone' : Forall (fun part => length (channels part) = 1%nat) (take k mks)).
  { rewrite Forall_forall in Hone. apply Forall_forall. intros p Hp. apply Hone.
    apply list_elem_of_lookup in Hp as [j Hj]. apply list_elem_of_lookup. exists j.
    apply lookup_take_Some in Hj as [Hj Hlt]. apply lookup_take_Some. split; [exact Hj | lia]. }
  assert (Hlen1 : length (channels part) = 1%nat).
  { rewrite Forall_forall in Hone. apply Hone. apply list_elem_of_lookup. exists k.
    apply lookup_take_Some. split; [exact Hpart | lia]. }
  destruct (channels part) as [|channel [|c' rest']] eqn:Hchans; try discriminate Hlen1.
  exists raw, part, channel.
  assert (Hfirst : concat (channels <$> mks) !! k = Some channel).
  { eapply concat_lookup_singletons.
    - rewrite <- fmap_take. apply Forall_fmap. exact Hone'.
    - rewrite list_lookup_fmap, Hpart. reflexivity.
    - now rewrite Hchans. }
  rewrite Hfirst in Hshown. injection Hshown as <-.
  repeat split; try assumption.
  now apply Forall_cons in Hrange as [Hc _].
Qed.

End Plots.

Section BiomassPlot.
Context `{RasterIO}.

(** [plot] of GlobBiomass needs two channels in the mask, and one in the
    prediction when there is one: short of that it raises [IndexError], and
    nothing else makes it fail.  The figure has two panels, three with a
    prediction, four units wide each, none with axes drawn, titled exactly
    when [show_titles] is set. *)
Theorem GlobBiomass_plot_defined (sample : GlobBiomass.Sample) prediction show_titles
    suptitle :
  ((exists fig, GlobBiomass.plot sample prediction show_titles suptitle = OK fig)
   <-> (2 <= length (channels (GlobBiomass.mask sample)))%nat
       /\ (forall p, prediction = Some p -> (1 <= length (channels p))%nat))
  /\ (forall e, GlobBiomass.plot sample prediction show_titles suptitle = Raise e ->
                e = IndexError "index is out of bounds for dimension 0")
  /\ (forall fig, GlobBiomass.plot sample prediction show_titles suptitle = OK fig ->
                  length (plt.axs fig) = match prediction with Some _ => 3%nat | None => 2%nat end
                  /\ plt.figsize fig = (length (plt.axs fig) * 4, 4)%nat
                  /\ plt.suptitle fig = suptitle
                  /\ Forall (fun ax => plt.axis_off ax = true
                                       /\ (is_Some (plt.title ax) <-> show_titles = true))
                       (plt.axs fig)).
Proof.
  unfold GlobBiomass.plot, getitem_channel. munfold.
  destruct (channels (GlobBiomass.mask sample)) as [|c0 [|c1 chans]]; cbn [lookup list_lookup].
  - split; [|split; [now intros e [= <-] | discriminate]].
    split; [now intros [fig Hf] | intros [Hlen _]; cbn [length] in Hlen; lia].
  - split; [|split; [now intros e [= <-] | discriminate]].
    split; [now intros [fig Hf] | intros [Hlen _]; cbn [length] in Hlen; lia].
  - destruct prediction as [p|].
    + destruct (channels p) as [|p0 ps] eqn:Hcp; cbn [lookup list_lookup].
      * split; [|split; [now intros e [= <-] | discriminate]].
        split; [now intros [fig Hf]|]. intros [_ Hp]. specialize (Hp p eq_refl).
        rewrite Hcp in Hp. cbn [length] in Hp. lia.
      * split; [|split; [discriminate|]].
        -- split; [|eauto]. intros _. split; [cbn [length]; lia|].
           intros p' [= <-]. rewrite Hcp. cbn [length]. lia.
        -- intros fig [= <-]. cbn [plt.axs plt.figsize plt.suptitle length].
           repeat split; try reflexivity.
           repeat constructor; destruct show_titles; cbn; try (intros [? ?]); eauto; discriminate.
    + split; [|split; [discriminate|]].
      * split; [|eauto]. intros _. split; [cbn [length]; lia | discriminate].
      * intros fig [= <-]. cbn [plt.axs plt.figsize plt.suptitle length].
        repeat split; try reflexivity.
        repeat constructor; destruct show_titles; cbn; try (intros [? ?]); eauto; discriminate.
Qed.

(** For a sample [__getitem__] returned without transforms, whose estimate
    mosaic has the single channel the dataset documents, [plot] shows that
    channel as "Mask" and the first channel of the standard errors as
    "Uncertainty Mask". *)
Theorem GlobBiomass_plot_shows_estimate_and_error fs query (self : GlobBiomass.t) s
    prediction show_titles suptitle fig :
  (GlobBiomass.__getitem__ fs query self).2 = OK s ->
  GlobBiomass.self_transforms self = None ->
  GlobBiomass.plot s prediction show_titles suptitle = OK fig ->
  exists index m e,
    GlobBiomass_select self query = OK index
    /\ RasterDataset_merge_files fs (GlobBiomass.self_index self) (data <$> rows index) query
       = Some m
    /\ RasterDataset_merge_files fs (GlobBiomass.self_index self)
         (str_replace ".tif" "_err.tif" <$> (data <$> rows index)) query
       = Some e
    /\ (length (channels m) = 1%nat ->
        exists estimate error rest,
          channels m = [estimate]
          /\ channels e = error :: rest
          /\ plt.axs fig !! 0%nat
             = Some {| plt.shown := plt.Channel estimate;
                       plt.vrange := None;
                       plt.axis_off := true;
                       plt.title := if show_titles then Some "Mask"%string else None |}
          /\ plt.axs fig !! 1%nat
             = Some {| plt.shown := plt.Channel error;
                       plt.vrange := None;
                       plt.axis_off := true;
                       plt.title := if show_titles
                                    then Some "Uncertainty Mask"%string else None |}).
Proof.
  intros Hs Htr Hplot.
  apply GlobBiomass_mask_estimate_then_error in Hs as (index & m & e & Hsel & Hm & He & Hch);
    [|exact Htr].
  exists index, m, e. repeat split; try assumption.
  intros Hone. destruct (channels m) as [|estimate [|? ?]] eqn:Hcm; try discriminate Hone.
  revert Hplot. unfold GlobBiomass.plot, getitem_channel. rewrite Hch. cbn [app]. munfold.
  destruct (channels e) as [|error rest] eqn:Hce; cbn [lookup list_lookup]; [discriminate|].
  destruct prediction as [p|].
  - destruct (channels p !! 0%nat); [|discriminate]. intros [= <-].
    exists estimate, error, rest. now repeat split.
  - intros [= <-]. exists estimate, error, rest. now repeat split.
Qed.

End BiomassPlot.

(** ** Shapes and file names *)

Lemma concatenate_shapes {A} (arrs : list (ndarray A)) (a : ndarray A) :
  concatenate arrs = OK a ->
  arrs <> []
  /\ Forall (fun d => shape_hw d = shape_hw a) arrs
  /\ length (channels a) = sum_list (length <$> (channels <$> arrs)).
Proof.
  unfold concatenate. destruct arrs as [|a0 rest]; [discriminate|].
  destruct (forallb (same_hw a0) rest) eqn:Hall; [|discriminate]. intros [= <-].
  split; [discriminate|]. cbn [shape_hw channels]. split.
  - constructor; [reflexivity|]. rewrite forallb_forall in Hall. apply Forall_forall.
    intros d Hd. apply list_elem_of_In, Hall in Hd. unfold same_hw in Hd.
    apply bool_decide_eq_true in Hd. now symmetry.
  - unfold stack_channels. generalize (a0 :: rest). intros l.
    induction l as [|d l IH]; [reflexivity|].
    rewrite !fmap_cons. cbn [concat sum_list sum_list_with]. rewrite length_app. now rewrite IH.
Qed.

Section Shapes.
Context `{RasterIO}.

Lemma mask_data_shape layer raw d :
  mask_data layer raw = OK d -> shape_hw d = shape_hw raw.
Proof.
  unfold mask_data. destruct (str_in layer ["lc"]); [|now intros [= <-]].
  rewrite getitem_array_eq. destruct (mapM _ _); [|discriminate]. now intros [= <-].
Qed.

(** In a sample of EnviroAtlas returned without transforms, the crops of
    the image layers all have the height and width of the image, the crops
    of the mask layers, before and after the remapping of ['lc'], those of
    the mask; the channels of each tensor are those of its parts in the order
    of the layers.  A layer whose crop has another size makes
    [np.concatenate] raise instead. *)
Theorem sample_parts_share_shape fs query (self : EnviroAtlas.t) s :
  (EnviroAtlas.__getitem__ fs query self).2 = OK s ->
  EnviroAtlas.self_transforms self = None ->
  exists index row layer rest geom ims mks,
    EnviroAtlas_select self query = OK index
    /\ rows index = [row]
    /\ EnviroAtlas.self_layers self = layer :: rest
    /\ box_in_crs_of fs (EnviroAtlas.self_root self) (data row)
         (query_box (EnviroAtlas_resolve self query)) layer = OK geom
    /\ Forall2 (fun layer d =>
                  crop_layer fs (EnviroAtlas.self_root self) (data row) geom layer = OK d
                  /\ shape_hw d = shape_hw (EnviroAtlas.image s))
         (image_layers (EnviroAtlas.self_prior_as_input self) (EnviroAtlas.self_layers self))
         ims
    /\ Forall2 (fun layer d =>
                  exists raw,
                    crop_layer fs (EnviroAtlas.self_root self) (data row) geom layer = OK raw
                    /\ mask_data layer raw = OK d
                    /\ shape_hw raw = shape_hw (EnviroAtlas.mask s)
                    /\ shape_hw d = shape_hw (EnviroAtlas.mask s))
         (mask_layers (EnviroAtlas.self_prior_as_input self) (EnviroAtlas.self_layers self))
         mks
    /\ channels (EnviroAtlas.image s) = concat (channels <$> ims)
    /\ channels (EnviroAtlas.mask s) = concat (channels <$> mks)
    /\ length (channels (EnviroAtlas.image s)) = sum_list (length <$> (channels <$> ims))
    /\ length (channels (EnviroAtlas.mask s)) = sum_list (length <$> (channels <$> mks)).
Proof.
  intros Hs Htr.
  apply EnviroAtlas_getitem_inv in Hs
    as (index & row & layer & rest & geom & ims & mks & image & mask
        & Hsel & Hrows & Hlayers & Hgeom & Hims & Hmks & Him & Hmk & ->).
  rewrite Htr. cbn [apply_transforms EnviroAtlas.image EnviroAtlas.mask].
  exists index, row, layer, rest, geom, ims, mks.
  destruct (concatenate_shapes _ _ Him) as (_ & Hsi & Hci).
  destruct (concatenate_shapes _ _ Hmk) as (_ & Hsm & Hcm).
  split; [exact Hsel|]. split; [exact Hrows|]. split; [exact Hlayers|].
  split; [exact Hgeom|]. split; [|split].
  - clear -Hims Hsi. induction Hims as [|l d ls ds Hd _ IH]; [constructor|].
    apply Forall_cons in Hsi as [Hs1 Hs2]. constructor; [now split | now apply IH].
  - clear -Hmks Hsm. induction Hmks as [|l d ls ds (raw & Hraw & Hd) _ IH]; [constructor|].
    apply Forall_cons in Hsm as [Hs1 Hs2]. constructor; [|now apply IH].
    exists raw. repeat split; try assumption.
    rewrite <- Hs1. symmetry. eapply mask_data_shape, Hd.
  - repeat split; try assumption; now apply concatenate_channels.
Qed.

End Shapes.

Lemma replace_tif_no_dot (stem t : string) :
  (forall n, String.get n stem <> Some "."%char) ->
  replace_from ".tif" "_err.tif" 0 (stem +:+ t)
  = stem +:+ replace_from ".tif" "_err.tif" 0 t.
Proof.
  induction stem as [|c stem IH]; intros Hdot; [reflexivity|].
  change (String c stem +:+ t) with (String c (stem +:+ t)).
  change (String c stem +:+ replace_from ".tif" "_err.tif" 0 t)
    with (String c (stem +:+ replace_from ".tif" "_err.tif" 0 t)).
  cbn [replace_from]. unfold String.prefix at 1.
  destruct (Ascii.ascii_dec "."%char c) as [<-|Hne].
  - exfalso. now apply (Hdot 0%nat).
  - f_equal. apply IH. intros n. exact (Hdot (S n)).
Qed.

(** The standard errors of a tile are read from the file beside it: for a
    path [stem.tif] with no other dot, [__getitem__] asks for
    [stem_err.tif].  A path without any dot is left as it is, so that the
    estimate file itself would be read a second time. *)
Theorem std_error_path (stem : string) :
  (forall n, String.get n stem <> Some "."%char) ->
  str_replace ".tif" "_err.tif" (stem +:+ ".tif") = stem +:+ "_err.tif"
  /\ str_replace ".tif" "_err.tif" stem = stem.
Proof.
  intros Hdot. unfold str_replace. split.
  - rewrite (replace_tif_no_dot stem ".tif" Hdot). reflexivity.
  - pose proof (replace_tif_no_dot stem "" Hdot) as Hr.
    assert (Hnil : forall s : string, s +:+ "" = s)
      by (induction s as [|c s IHs];
          [reflexivity
          | change (String c s +:+ "") with (String c (s +:+ "")); now rewrite IHs]).
    rewrite Hnil in Hr. cbn [replace_from] in Hr. now rewrite Hnil in Hr.
Qed.

(** ** The further properties on the small host *)

Import Example Example2.

Lemma selection_sound_witness :
  Forall (fun r => r ∈ rows (GlobBiomass.self_index biomass)
                   /\ overlaps (row_interval (GlobBiomass.self_index biomass) r)
                        (query_interval newest_first) = true
                   /\ intersects (geometry r) (box 2 2 4 4) = true)
    (rows newest_first_index).
Proof.
  apply Forall_forall.
  apply (selection_sound (GlobBiomass.self_index biomass) newest_first_index newest_first).
  vm_refl.
Defined.

Lemma getitem_ValueError_witness :
  (GlobBiomass.__getitem__ biomass_fs backwards_in_time biomass).2
  = Raise (ValueError "left side of interval must be <= right side")
  /\ (EnviroAtlas.__getitem__ small_fs every_step_none naip_lc_atlas).2
     = Raise (ValueError "slice step cannot be zero").
Proof.
  destruct (@getitem_ValueError host base io) as (HG & HE). split.
  - rewrite (proj1 (HG biomass_fs backwards_in_time biomass)); reflexivity.
  - rewrite (proj2 (HE small_fs every_step_none naip_lc_atlas)); [reflexivity | | reflexivity].
    vm_compute. discriminate.
Defined.

Lemma sample_needs_image_and_mask_layer_witness :
  image_layers false ["naip"; "lc"] <> [] /\ mask_layers false ["naip"; "lc"] <> [].
Proof.
  apply (@sample_needs_image_and_mask_layer host base io small_fs inside_t1 naip_lc_atlas
           lc_sample).
  vm_refl.
Defined.

Lemma getitem_KeyError_for_foreign_crs_witness :
  (EnviroAtlas.__getitem__ foreign_fs inside_t1 naip_lc_atlas).2 = Raise (KeyError "epsg:4326").
Proof.
  rewrite (@getitem_KeyError_for_foreign_crs host base io foreign_fs inside_t1 naip_lc_atlas
             t1_index t1_row "naip"%string ["lc"%string] "train/t1_a_naip.tif"%string
             (raster "data/enviroatlas_lotp/train/t1_a_naip.tif" 200 "EPSG:4326")).
  - reflexivity.
  - vm_refl.
  - reflexivity.
  - reflexivity.
  - vm_refl.
  - vm_refl.
  - intros Hin. repeat (apply elem_of_cons in Hin as [Hin|Hin]; [discriminate Hin|]).
    now apply elem_of_nil in Hin.
Defined.


Lemma idx_map_contract_witness :
  item EnviroAtlas.raw_enviroatlas_to_idx_map 52 = OK 5
  /\ item EnviroAtlas.raw_enviroatlas_to_idx_map 93
     = Raise (IndexError "index is out of bounds for axis 0").
Proof.
  destruct idx_map_contract as (Hlow & Hcls & _ & Hhigh). split.
  - apply (Hcls 5%nat 52). reflexivity.
  - apply Hhigh. lia.
Defined.

Lemma lc_remap_defined_on_table_range_witness :
  shape_hw lc_part = shape_hw lc_crop
  /\ Forall2 (Forall2 (fun i v => item EnviroAtlas.raw_enviroatlas_to_idx_map i = OK v))
       (channels lc_crop) (channels lc_part).
Proof.
  apply (proj2 (lc_remap_defined_on_table_range lc_crop) lc_part). vm_refl.
Defined.

Lemma plot_layers_match_getitem_witness :
  Forall2 (fun layer d => crop_layer small_fs "data" t1_filenames (box 19 2 21 4) layer = OK d)
    (EnviroAtlas.plot_layers false ["naip"; "lc"] [] []).1 [naip_crop]
  /\ Forall2 (fun layer d =>
                exists raw, crop_layer small_fs "data" t1_filenames (box 19 2 21 4) layer
                            = OK raw
                            /\ mask_data layer raw = OK d)
       (EnviroAtlas.plot_layers false ["naip"; "lc"] [] []).2 [lc_part].
Proof.
  apply (@plot_layers_match_getitem host base io small_fs "data" false t1_filenames
           (box 2 2 4 4) ["naip"; "lc"]%string (box 19 2 21 4) [naip_crop] [lc_part]).
  vm_refl.
Defined.

Lemma EnviroAtlas_plot_shows_lc_witness :
  exists index row layer rest geom parts lc_index,
    EnviroAtlas_select naip_lc_atlas inside_t1 = OK index
    /\ rows index = [row]
    /\ EnviroAtlas.self_layers naip_lc_atlas = layer :: rest
    /\ box_in_crs_of small_fs (EnviroAtlas.self_root naip_lc_atlas) (data row)
         (query_box (EnviroAtlas_resolve naip_lc_atlas inside_t1)) layer = OK geom
    /\ Forall2 (fun layer part =>
                  exists raw,
                    crop_layer small_fs (EnviroAtlas.self_root naip_lc_atlas) (data row) geom
                      layer = OK raw
                    /\ mask_data layer raw = OK part)
         (mask_layers (EnviroAtlas.self_prior_as_input naip_lc_atlas)
            (EnviroAtlas.self_layers naip_lc_atlas)) parts
    /\ channels (EnviroAtlas.mask lc_sample) = concat (channels <$> parts)
    /\ list_index "lc"
         (mask_layers (EnviroAtlas.self_prior_as_input naip_lc_atlas)
            (EnviroAtlas.self_layers naip_lc_atlas))
       = OK lc_index
    /\ (Forall (fun part => length (channels part) = 1%nat) (take (S lc_index) parts) ->
        exists raw part channel,
          parts !! lc_index = Some part
          /\ crop_layer small_fs (EnviroAtlas.self_root naip_lc_atlas) (data row) geom "lc"
             = OK raw
          /\ getitem_array EnviroAtlas.raw_enviroatlas_to_idx_map raw = OK part
          /\ channels part = [channel]
          /\ Forall (fun v => 0 <= v <= 10) channel
          /\ plt.axs lc_figure !! 1%nat
             = Some {| plt.shown := plt.Channel channel;
                       plt.vrange := Some (0, 10);
                       plt.axis_off := true;
                       plt.title := Some "Mask"%string |}).
Proof.
  apply (proj2 (@EnviroAtlas_plot_shows_lc host base io) small_fs inside_t1 naip_lc_atlas
           lc_sample None true None lc_figure).
  - vm_refl.
  - reflexivity.
  - vm_refl.
Defined.

Lemma GlobBiomass_plot_defined_witness :
  length (plt.axs biomass_figure) = 2%nat
  /\ plt.figsize biomass_figure = (length (plt.axs biomass_figure) * 4, 4)%nat
  /\ plt.suptitle biomass_figure = Some "Test"%string
  /\ Forall (fun ax => plt.axis_off ax = true /\ (is_Some (plt.title ax) <-> true = true))
       (plt.axs biomass_figure).
Proof.
  apply (proj2 (proj2 (@GlobBiomass_plot_defined host base biomass_sample None true
                         (Some "Test"%string))) biomass_figure).
  vm_refl.
Defined.

Lemma GlobBiomass_plot_shows_estimate_and_error_witness :
  exists index m e,
    GlobBiomass_select biomass in_2010 = OK index
    /\ RasterDataset_merge_files biomass_fs (GlobBiomass.self_index biomass)
         (data <$> rows index) in_2010 = Some m
    /\ RasterDataset_merge_files biomass_fs (GlobBiomass.self_index biomass)
         (str_replace ".tif" "_err.tif" <$> (data <$> rows index)) in_2010 = Some e
    /\ (length (channels m) = 1%nat ->
        exists estimate error rest,
          channels m = [estimate]
          /\ channels e = error :: rest
          /\ plt.axs biomass_figure !! 0%nat
             = Some {| plt.shown := plt.Channel estimate; plt.vrange := None;
                       plt.axis_off := true; plt.title := Some "Mask"%string |}
          /\ plt.axs biomass_figure !! 1%nat
             = Some {| plt.shown := plt.Channel error; plt.vrange := None;
                       plt.axis_off := true;
                       plt.title := Some "Uncertainty Mask"%string |}).
Proof.
  apply (@GlobBiomass_plot_shows_estimate_and_error host base biomass_fs in_2010 biomass
           biomass_sample None true (Some "Test"%string) biomass_figure).
  - vm_refl.
  - reflexivity.
  - vm_refl.
Defined.

Lemma sample_parts_share_shape_witness :
  exists index row layer rest geom ims mks,
    EnviroAtlas_select naip_lc_atlas inside_t1 = OK index
    /\ rows index = [row]
    /\ EnviroAtlas.self_layers naip_lc_atlas = layer :: rest
    /\ box_in_crs_of small_fs (EnviroAtlas.self_root naip_lc_atlas) (data row)
         (query_box (EnviroAtlas_resolve naip_lc_atlas inside_t1)) layer = OK geom
    /\ Forall2 (fun layer d =>
                  crop_layer small_fs (EnviroAtlas.self_root naip_lc_atlas) (data row) geom
                    layer = OK d
                  /\ shape_hw d = shape_hw (EnviroAtlas.image lc_sample))
         (image_layers (EnviroAtlas.self_prior_as_input naip_lc_atlas)
            (EnviroAtlas.self_layers naip_lc_atlas))
         ims
    /\ Forall2 (fun layer d =>
                  exists raw,
                    crop_layer small_fs (EnviroAtlas.self_root naip_lc_atlas) (data row) geom
                      layer = OK raw
                    /\ mask_data layer raw = OK d
                    /\ shape_hw raw = shape_hw (EnviroAtlas.mask lc_sample)
                    /\ shape_hw d = shape_hw (EnviroAtlas.mask lc_sample))
         (mask_layers (EnviroAtlas.self_prior_as_input naip_lc_atlas)
            (EnviroAtlas.self_layers naip_lc_atlas))
         mks
    /\ channels (EnviroAtlas.image lc_sample) = concat (channels <$> ims)
    /\ channels (EnviroAtlas.mask lc_sample) = concat (channels <$> mks)
    /\ length (channels (EnviroAtlas.image lc_sample))
       = sum_list (length <$> (channels <$> ims))
    /\ length (channels (EnviroAtlas.mask lc_sample))
       = sum_list (length <$> (channels <$> mks)).
Proof.
  apply (@sample_parts_share_shape host base io small_fs inside_t1 naip_lc_atlas lc_sample).
  - vm_refl.
  - reflexivity.
Defined.

Lemma std_error_path_witness :
  str_replace ".tif" "_err.tif" "data/N00E020_agb.tif" = "data/N00E020_agb_err.tif"%string.
Proof.
  apply (proj1 (std_error_path "data/N00E020_agb"
                  ltac:(intros n; do 17 (destruct n as [|n]; [discriminate|]); discriminate))).
Defined.

